(** * Attestation verification (server/verify.go)

    A shallow embedding of the verifier of server/verify.go: the options
    check, the two ways of trusting an attestation key, the decoder of the
    GCE instance-information certificate extension, the ordering of the
    offered quotes, and the loop of [VerifyAttestation] that falls back from
    one quote to the next.

    Go values are modelled as follows.
    - A pointer that may be nil is an [option]; a slice is a [list]; a
      fixed-width integer is a [Z] with its conversion written out.
    - An [error] is a message, possibly wrapping another error ([%w]).
    - Every routine that lives outside server/verify.go (go-tpm, crypto/x509,
      encoding/asn1, protobuf, the [internal] package, the event-log
      parsers) is a field of the class [Collaborators].  A call to one of
      them is recorded in a trace, so that "this was never called" is a
      statement about the model.  What the Go libraries do around those
      routines (the checks that open [Verify], [AddCert], [proto.Merge],
      the storing done by [asn1.Unmarshal]) is written out.
    - A Go panic is the outcome [Panicked]. *)

From Stdlib Require Import ZArith List String Bool Lia Permutation.
Import ListNotations.

Open Scope string_scope.
Open Scope list_scope.
Open Scope Z_scope.

(** ** Bytes, errors *)

Definition bytes : Type := list Byte.byte.

(** [len(b) == 0] on a slice (a nil slice has length 0). *)
Definition isEmpty {A : Type} (l : list A) : bool :=
  match l with
  | [] => true
  | _ :: _ => false
  end.

(** [p == nil] on a pointer. *)
Definition isNil {A : Type} (p : option A) : bool :=
  match p with
  | None => true
  | Some _ => false
  end.

(** Two byte slices with the same contents. *)
Fixpoint sameBytes (a b : bytes) : bool :=
  match a, b with
  | [], [] => true
  | x :: a', y :: b' => Byte.eqb x y && sameBytes a' b'
  | _, _ => false
  end.

(** Go [error] values.  [errorString] is what [fmt.Errorf] builds from a
    format without [%w] (and what a collaborator may return); [wrapError]
    is [fmt.Errorf("msg%w", err)], which keeps [err] reachable. *)
Inductive error : Type :=
| errorString (msg : string)
| wrapError (msg : string) (err : error).

(** [err.Error()]. *)
Fixpoint Error (e : error) : string :=
  match e with
  | errorString msg => msg
  | wrapError msg err => String.append msg (Error err)
  end.

(** [fmt.Errorf("msg%v", err)]: the text of [err] is copied, the error itself
    is not kept. *)
Definition Errorf_v (msg : string) (err : error) : error :=
  errorString (String.append msg (Error err)).

(** ** Outcomes and call traces *)

(** A Go call either returns or panics. *)
Inductive outcome (A : Type) : Type :=
| Done (a : A)
| Panicked (msg : string).
Arguments Done {A} a.
Arguments Panicked {A} msg.

Section Trace.
Variable event : Type.

(** A computation yields the calls it made, in order, and its outcome. *)
Definition M (A : Type) : Type := (list event * outcome A)%type.

Definition ret {A : Type} (a : A) : M A := ([], Done a).

Definition panic {A : Type} (msg : string) : M A := ([], Panicked msg).

Definition call {A : Type} (e : event) (a : A) : M A := ([e], Done a).

Definition bind {A B : Type} (m : M A) (k : A -> M B) : M B :=
  match m with
  | (t, Done a) => (t ++ fst (k a), snd (k a))
  | (t, Panicked msg) => (t, Panicked msg)
  end.

(** [after t m]: the calls of [t] happened, then [m] ran. *)
Definition after {A : Type} (t : list event) (m : M A) : M A :=
  (t ++ fst m, snd m).
End Trace.

Arguments ret {event A} a.
Arguments panic {event A} msg.
Arguments call {event A} e a.
Arguments bind {event A B} m k.
Arguments after {event A} t m.

Notation "x <- m ;; k" := (bind m (fun x => k))
  (at level 61, m at next level, right associativity).

(** ** Algorithms and quotes (go-tpm, proto/tpm) *)

(** [tpm2.Algorithm] is a [uint16]. *)
Definition Algorithm : Type := Z.

Definition AlgSHA1 : Algorithm := 0x0004.
Definition AlgSHA256 : Algorithm := 0x000B.
Definition AlgSHA384 : Algorithm := 0x000C.
Definition AlgSHA512 : Algorithm := 0x000D.

(** The conversion [tpm2.Algorithm(h)] of an [int32] enum value keeps the
    low 16 bits. *)
Definition toAlgorithm (h : Z) : Algorithm := h mod 2 ^ 16.

Module tpmpb.
(** [tpmpb.PCRs]: the hash identifier ([HashAlgo], an [int32]) and the
    register values by index. *)
Record PCRs : Type := {
  Hash : Z;
  Pcrs : list (Z * bytes)
}.

Record Quote : Type := {
  Quote_ : bytes;
  RawSig : bytes;
  Pcrs_ : option PCRs
}.

(** The generated getters: a nil message reads as the zero value.  (The
    elements of a quote list are taken to be messages; a nil element would
    read as hash 0, which is no algorithm.) *)
Definition GetPcrs (q : Quote) : option PCRs := Pcrs_ q.

Definition GetHash (p : option PCRs) : Z :=
  match p with
  | Some p => Hash p
  | None => 0
  end.
End tpmpb.

(** ** Object identifiers and certificate extensions (encoding/asn1, pkix) *)

Definition ObjectIdentifier : Type := list Z.

(** [ObjectIdentifier.Equal]: same length and same arcs. *)
Fixpoint OID_Equal (a b : ObjectIdentifier) : bool :=
  match a, b with
  | [], [] => true
  | x :: a', y :: b' => (x =? y) && OID_Equal a' b'
  | _, _ => false
  end.

Definition oidExtensionSubjectAltName : ObjectIdentifier := [2; 5; 29; 17].

Definition cloudComputeInstanceIdentifierOID : ObjectIdentifier :=
  [1; 3; 6; 1; 4; 1; 11129; 2; 1; 21].

Module pkix.
Record Extension : Type := {
  Id : ObjectIdentifier;
  Critical : bool;
  Value : bytes
}.
End pkix.

Module x509.
(** The fields of [x509.Certificate] that the verifier reads or writes.
    [PublicKey] is an interface value and may be nil. *)
Record Certificate (K : Type) : Type := {
  Raw : bytes;
  PublicKey : option K;
  UnhandledCriticalExtensions : list ObjectIdentifier;
  Extensions : list pkix.Extension
}.
Arguments Raw {K} c.
Arguments PublicKey {K} c.
Arguments UnhandledCriticalExtensions {K} c.
Arguments Extensions {K} c.

Inductive ExtKeyUsage : Type :=
| ExtKeyUsageAny
| ExtKeyUsageServerAuth.

(** A [CertPool] holds the certificates added to it, in order, each raw
    encoding once. *)
Definition CertPool (K : Type) : Type := list (Certificate K).

Record VerifyOptions (K : Type) : Type := {
  Roots : CertPool K;
  Intermediates : CertPool K;
  KeyUsages : list ExtKeyUsage
}.
Arguments Roots {K} v.
Arguments Intermediates {K} v.
Arguments KeyUsages {K} v.
End x509.

(** ** Messages of proto/attest *)

Module pb.
Record GCEInstanceInfo : Type := {
  Zone : string;
  ProjectId : string;
  ProjectNumber : Z;
  InstanceName : string;
  InstanceId : Z
}.

Record Attestation : Type := {
  GetAkPub : bytes;
  GetQuotes : list tpmpb.Quote;
  GetEventLog : bytes;
  GetCanonicalEventLog : bytes;
  GetAkCert : bytes;
  IntermediateCerts : list bytes
}.
End pb.

(** ** The instance-information extension (verify.go, lines 48-61) *)

Record gceSecurityProperties : Type := {
  SecurityVersion : Z;
  IsProduction : bool
}.

Record gceInstanceInfo : Type := {
  Zone : string;
  ProjectNumber : Z;
  ProjectID : string;
  InstanceID : Z;
  InstanceName : string;
  SecurityProperties : gceSecurityProperties
}.

(** The zero value [gceInstanceInfo{}]. *)
Definition gceInstanceInfo_zero : gceInstanceInfo :=
  {| Zone := ""; ProjectNumber := 0; ProjectID := ""; InstanceID := 0;
     InstanceName := "";
     SecurityProperties := {| SecurityVersion := 0; IsProduction := false |} |}.

(** What a DER value of the extension contains: the five mandatory elements
    and the elements tagged [optional], each present or not. *)
Record derSecurityProperties : Type := {
  asn1SecurityVersion : option Z;
  asn1IsProduction : option bool
}.

Record derInstanceInfo : Type := {
  asn1Zone : string;
  asn1ProjectNumber : Z;
  asn1ProjectID : string;
  asn1InstanceID : Z;
  asn1InstanceName : string;
  asn1SecurityProperties : option derSecurityProperties
}.

Definition fitsInt64 (z : Z) : bool := (- 2 ^ 63 <=? z) && (z <? 2 ^ 63).

(** The conversion [uint64(z)] of an [int64]. *)
Definition toUint64 (z : Z) : Z := z mod 2 ^ 64.

(** How [asn1.Unmarshal] stores a parsed value into a struct: an element that
    is present overwrites its field, an [optional] element that is absent
    leaves the field as it was. *)
Definition storeSecurityProperties
    (a : option derSecurityProperties) (old : gceSecurityProperties)
    : gceSecurityProperties :=
  match a with
  | None => old
  | Some sp =>
      {| SecurityVersion :=
           match asn1SecurityVersion sp with
           | Some v => v
           | None => SecurityVersion old
           end;
         IsProduction :=
           match asn1IsProduction sp with
           | Some b => b
           | None => IsProduction old
           end |}
  end.

Definition storeInstanceInfo (a : derInstanceInfo) (old : gceInstanceInfo)
    : gceInstanceInfo :=
  {| Zone := asn1Zone a;
     ProjectNumber := asn1ProjectNumber a;
     ProjectID := asn1ProjectID a;
     InstanceID := asn1InstanceID a;
     InstanceName := asn1InstanceName a;
     SecurityProperties :=
       storeSecurityProperties (asn1SecurityProperties a)
                               (SecurityProperties old) |}.

(** The integers of a parsed value that the struct stores in an [int64]. *)
Definition asn1Integers (a : derInstanceInfo) : list Z :=
  asn1ProjectNumber a :: asn1InstanceID a ::
  match asn1SecurityProperties a with
  | Some sp =>
      match asn1SecurityVersion sp with
      | Some v => [v]
      | None => []
      end
  | None => []
  end.

(** ** The types that verify.go only names *)

(** [crypto.PublicKey] (an empty interface), [tpm2.Public] and
    [pb.MachineState] are declared outside server/verify.go; the verifier
    passes their values around and never looks inside. *)
Class Carriers : Type := {
  PublicKey : Type;
  TPMPublic : Type;
  MachineState : Type
}.

Section Verifier.
Context {carriers : Carriers}.

Definition Certificate : Type := x509.Certificate PublicKey.
Definition VerifyOptions : Type := x509.VerifyOptions PublicKey.

(** [VerifyOpts] (lines 25-46).  The two certificate fields are slices of
    pointers ([[]*x509.Certificate]), so an element may be nil. *)
Record VerifyOpts : Type := {
  Nonce : bytes;
  TrustedAKs : list PublicKey;
  AllowSHA1 : bool;
  TrustedRootCerts : list (option Certificate);
  IntermediateCerts : list (option Certificate)
}.

(** The assignment [opts.IntermediateCerts = certs] on the callee's copy. *)
Definition setIntermediateCerts (opts : VerifyOpts)
    (certs : list (option Certificate)) : VerifyOpts :=
  {| Nonce := Nonce opts;
     TrustedAKs := TrustedAKs opts;
     AllowSHA1 := AllowSHA1 opts;
     TrustedRootCerts := TrustedRootCerts opts;
     IntermediateCerts := certs |}.

(** The assignment [akCert.UnhandledCriticalExtensions = exts]. *)
Definition setUnhandledCriticalExtensions
    (c : Certificate) (exts : list ObjectIdentifier) : Certificate :=
  {| x509.Raw := x509.Raw c;
     x509.PublicKey := x509.PublicKey c;
     x509.UnhandledCriticalExtensions := exts;
     x509.Extensions := x509.Extensions c |}.

(** One constructor per routine called from verify.go, with the arguments
    of the call. *)
Inductive event : Type :=
| DecodePublicCall (akPub : bytes)
| KeyCall (akPubArea : TPMPublic)
| ParseCertificateCall (der : bytes)
| parseCertsCall (ders : list bytes)
| PubKeysEqualCall (a b : PublicKey)
| VerifyCall (c : Certificate) (o : VerifyOptions)
| UnmarshalCall (raw : bytes)
| VerifyQuoteCall (quote : tpmpb.Quote) (key : PublicKey) (nonce : bytes)
| parsePCClientEventLogCall (log : bytes) (pcrs : option tpmpb.PCRs)
| parseCanonicalEventLogCall (log : bytes) (pcrs : option tpmpb.PCRs).

(** What the routines outside server/verify.go return.  A routine that
    returns [(T, error)] is a function into [error + T]; one that returns
    an [error] is a function into [option error]. *)
Class Collaborators : Type := {
  (** [internal.SignatureHashAlgs], the preference list without SHA-1 *)
  SignatureHashAlgs : list Algorithm;
  (** [tpm2.DecodePublic] and [(tpm2.Public).Key] *)
  ext_DecodePublic : bytes -> error + TPMPublic;
  ext_Key : TPMPublic -> error + PublicKey;
  (** [x509.ParseCertificate] and [parseCerts] (whose result is a slice of
      pointers) *)
  ext_ParseCertificate : bytes -> error + Certificate;
  ext_parseCerts : list bytes -> error + list (option Certificate);
  (** [internal.PubKeysEqual] *)
  ext_PubKeysEqual : PublicKey -> PublicKey -> bool;
  (** what [(x509.Certificate).Verify] does after its checks on raw
      contents and unhandled critical extensions: validity, path building,
      signatures *)
  ext_buildChains : Certificate -> VerifyOptions -> option error;
  (** the DER parser behind [asn1.Unmarshal] for the extension's type *)
  ext_parseDER : bytes -> error + derInstanceInfo;
  (** [internal.VerifyQuote] *)
  ext_VerifyQuote : tpmpb.Quote -> PublicKey -> bytes -> option error;
  (** [parsePCClientEventLog] and [parseCanonicalEventLog] *)
  ext_parsePCClientEventLog :
    bytes -> option tpmpb.PCRs -> error + option MachineState;
  ext_parseCanonicalEventLog :
    bytes -> option tpmpb.PCRs -> error + option MachineState;
  (** [&pb.MachineState{}] *)
  emptyMachineState : MachineState;
  (** [&pb.MachineState{Platform: &pb.PlatformState{InstanceInfo: i}}] *)
  platformMachineState : option pb.GCEInstanceInfo -> MachineState;
  (** [proto.Merge] of a message into a message, both not nil *)
  ext_Merge : MachineState -> MachineState -> MachineState
}.

Context {ext : Collaborators}.

Local Abbreviation Go := (M event).

(** *** The calls *)

Definition DecodePublic (akPub : bytes) : Go (error + TPMPublic) :=
  call (DecodePublicCall akPub) (ext_DecodePublic akPub).

Definition Key (akPubArea : TPMPublic) : Go (error + PublicKey) :=
  call (KeyCall akPubArea) (ext_Key akPubArea).

Definition ParseCertificate (der : bytes) : Go (error + Certificate) :=
  call (ParseCertificateCall der) (ext_ParseCertificate der).

Definition parseCerts (ders : list bytes)
    : Go (error + list (option Certificate)) :=
  call (parseCertsCall ders) (ext_parseCerts ders).

Definition PubKeysEqual (a b : PublicKey) : Go bool :=
  call (PubKeysEqualCall a b) (ext_PubKeysEqual a b).

Definition VerifyQuote (quote : tpmpb.Quote) (key : PublicKey) (nonce : bytes)
    : Go (option error) :=
  call (VerifyQuoteCall quote key nonce) (ext_VerifyQuote quote key nonce).

Definition parsePCClientEventLog (log : bytes) (pcrs : option tpmpb.PCRs)
    : Go (error + option MachineState) :=
  call (parsePCClientEventLogCall log pcrs) (ext_parsePCClientEventLog log pcrs).

Definition parseCanonicalEventLog (log : bytes) (pcrs : option tpmpb.PCRs)
    : Go (error + option MachineState) :=
  call (parseCanonicalEventLogCall log pcrs)
       (ext_parseCanonicalEventLog log pcrs).

(** [x509.UnhandledCriticalExtension{}]. *)
Definition UnhandledCriticalExtension : error :=
  errorString "x509: unhandled critical extension".

(** [x509.errNotParsed]. *)
Definition errNotParsed : error :=
  errorString "x509: missing ASN.1 contents; use ParseCertificate".

(** [(x509.Certificate).Verify] of the Go standard library, for a
    certificate checked against explicit root and intermediate pools.  It
    first refuses a certificate without raw contents, then an intermediate
    without raw contents; its validity check then refuses a certificate that
    still lists an unhandled critical extension; only then does it build and
    check the chains. *)
Definition Verify (c : Certificate) (o : VerifyOptions) : Go (option error) :=
  call (VerifyCall c o)
       (if isEmpty (x509.Raw c) then Some errNotParsed
        else if existsb (fun i => isEmpty (x509.Raw i)) (x509.Intermediates o)
        then Some errNotParsed
        else if isEmpty (x509.UnhandledCriticalExtensions c)
        then ext_buildChains c o
        else Some UnhandledCriticalExtension).

(** [asn1.Unmarshal(raw, &info)] of the Go standard library: parse, refuse
    an integer that does not fit its [int64] field, store. *)
Definition Unmarshal (raw : bytes) (info : gceInstanceInfo)
    : Go (gceInstanceInfo * option error) :=
  call (UnmarshalCall raw)
       (match ext_parseDER raw with
        | inl err => (info, Some err)
        | inr a =>
            if forallb fitsInt64 (asn1Integers a)
            then (storeInstanceInfo a info, None)
            else (info, Some (errorString "asn1: structure error: integer too large"))
        end).

(** [proto.Merge(dst, src)] of the protobuf runtime: it panics on a nil
    destination and does nothing for a nil source. *)
Definition Merge (dst src : option MachineState) : Go (option MachineState) :=
  match dst with
  | None => panic "invalid value: merging into nil message"
  | Some d =>
      ret (Some match src with
                | None => d
                | Some s => ext_Merge d s
                end)
  end.

(** The type assertion [k.(crypto.PublicKey)]: it panics on a nil
    interface value. *)
Definition assertPublicKey (k : option PublicKey) : Go PublicKey :=
  match k with
  | Some k => ret k
  | None => panic "interface conversion: interface is nil, not crypto.PublicKey"
  end.

(** *** The preference list (lines 17-18) *)

Definition pcrHashAlgs : list Algorithm := SignatureHashAlgs ++ [AlgSHA1].

(** *** validateOpts (lines 199-209) *)

Definition validateOpts (opts : VerifyOpts) : option error :=
  let checkPub := negb (isEmpty (TrustedAKs opts)) in
  let checkCert := negb (isEmpty (TrustedRootCerts opts)) in
  if negb checkPub && negb checkCert then
    Some (errorString
      "no trust mechanism provided, either use TrustedAKs or TrustedRootCerts")
  else if checkPub && checkCert then
    Some (errorString
      "multiple trust mechanisms provided, only use one of TrustedAKs or TrustedRootCerts")
  else None.

(** *** validateAKPub (lines 211-218) *)

Fixpoint validateAKPub_range (ak : PublicKey) (trusted : list PublicKey)
    : Go (option error) :=
  match trusted with
  | [] => ret (Some (errorString "key not trusted"))
  | t :: rest =>
      eq <- PubKeysEqual ak t ;;
      if eq then ret None else validateAKPub_range ak rest
  end.

Definition validateAKPub (ak : PublicKey) (opts : VerifyOpts)
    : Go (option error) :=
  validateAKPub_range ak (TrustedAKs opts).

(** *** getInstanceInfo (lines 160-196) *)

(** The loop of lines 161-167: the value of the first extension with the
    instance-information identifier, or the nil slice. *)
Fixpoint findRawInfo (extensions : list pkix.Extension) : bytes :=
  match extensions with
  | [] => []
  | e :: rest =>
      if OID_Equal (pkix.Id e) cloudComputeInstanceIdentifierOID
      then pkix.Value e
      else findRawInfo rest
  end.

Definition errNegativeFields : error :=
  errorString
    "negative integer fields found in GCE Instance Information Extension".

Definition getInstanceInfo (extensions : list pkix.Extension)
    : Go (option pb.GCEInstanceInfo * option error) :=
  let rawInfo := findRawInfo extensions in
  if isEmpty rawInfo then ret (None, None)
  else
    r <- Unmarshal rawInfo gceInstanceInfo_zero ;;
    match r with
    | (_, Some err) =>
        ret (None, Some (wrapError
          "failed to parse GCE Instance Information Extension: " err))
    | (info, None) =>
        if (ProjectNumber info <? 0) || (InstanceID info <? 0)
           || (SecurityVersion (SecurityProperties info) <? 0)
        then ret (None, Some errNegativeFields)
        else if negb (IsProduction (SecurityProperties info))
        then ret (None, None)
        else ret (Some {| pb.Zone := Zone info;
                          pb.ProjectId := ProjectID info;
                          pb.ProjectNumber := toUint64 (ProjectNumber info);
                          pb.InstanceName := InstanceName info;
                          pb.InstanceId := toUint64 (InstanceID info) |},
                  None)
    end.

(** *** makePool (lines 273-279) *)

(** What [AddCert] does to the pool for a certificate that is not nil: a
    certificate whose raw encoding the pool already holds (the pool compares
    SHA-224 sums of the encodings) is not added again. *)
Definition addToPool (pool : x509.CertPool PublicKey) (c : Certificate)
    : x509.CertPool PublicKey :=
  if existsb (fun held => sameBytes (x509.Raw held) (x509.Raw c)) pool
  then pool
  else pool ++ [c].

(** [(x509.CertPool).AddCert] of the Go standard library: it panics on a nil
    certificate. *)
Definition AddCert (pool : x509.CertPool PublicKey) (cert : option Certificate)
    : Go (x509.CertPool PublicKey) :=
  match cert with
  | None => panic "adding nil Certificate to CertPool"
  | Some c => ret (addToPool pool c)
  end.

(** The loop of lines 275-277. *)
Fixpoint makePool_range (certs : list (option Certificate))
    (pool : x509.CertPool PublicKey) : Go (x509.CertPool PublicKey) :=
  match certs with
  | [] => ret pool
  | cert :: rest =>
      pool <- AddCert pool cert ;;
      makePool_range rest pool
  end.

Definition makePool (certs : list (option Certificate))
    : Go (x509.CertPool PublicKey) :=
  makePool_range certs [].

(** *** validateAKCert (lines 220-257) *)

(** The loop of lines 228-234. *)
Fixpoint dropSubjectAltName (unhandled exts : list ObjectIdentifier)
    : list ObjectIdentifier :=
  match unhandled with
  | [] => exts
  | e :: rest =>
      if OID_Equal e oidExtensionSubjectAltName
      then dropSubjectAltName rest exts
      else dropSubjectAltName rest (exts ++ [e])
  end.

(** The certificate is reached through a pointer and line 235 writes to
    it, so the certificate as it is after the call is returned too. *)
Definition validateAKCert (akCert : Certificate) (opts : VerifyOpts)
    : Go (Certificate * (option MachineState * option error)) :=
  if isEmpty (TrustedRootCerts opts) then
    k <- assertPublicKey (x509.PublicKey akCert) ;;
    err <- validateAKPub k opts ;;
    ret (akCert, (None, err))
  else
    let exts :=
      dropSubjectAltName (x509.UnhandledCriticalExtensions akCert) [] in
    let akCert := setUnhandledCriticalExtensions akCert exts in
    roots <- makePool (TrustedRootCerts opts) ;;
    intermediates <- makePool (IntermediateCerts opts) ;;
    let x509Opts :=
      {| x509.Roots := roots;
         x509.Intermediates := intermediates;
         x509.KeyUsages := [x509.ExtKeyUsageAny] |} in
    verr <- Verify akCert x509Opts ;;
    match verr with
    | Some err =>
        ret (akCert, (None, Some (Errorf_v
          "certificate did not chain to a trusted root: " err)))
    | None =>
        r <- getInstanceInfo (x509.Extensions akCert) ;;
        match r with
        | (_, Some err) =>
            ret (akCert, (None, Some (Errorf_v
              "error getting instance info: " err)))
        | (instanceInfo, None) =>
            ret (akCert, (Some (platformMachineState instanceInfo), None))
        end
    end.

(** *** supportedQuotes (lines 260-271) *)

(** The inner loop: append the first quote of algorithm [alg], if any. *)
Fixpoint appendFirstQuote (alg : Algorithm) (quotes out : list tpmpb.Quote)
    : list tpmpb.Quote :=
  match quotes with
  | [] => out
  | quote :: rest =>
      if toAlgorithm (tpmpb.GetHash (tpmpb.GetPcrs quote)) =? alg
      then out ++ [quote]
      else appendFirstQuote alg rest out
  end.

Fixpoint supportedQuotes_range (algs : list Algorithm)
    (quotes out : list tpmpb.Quote) : list tpmpb.Quote :=
  match algs with
  | [] => out
  | alg :: rest =>
      supportedQuotes_range rest quotes (appendFirstQuote alg quotes out)
  end.

Definition supportedQuotes (quotes : list tpmpb.Quote) : list tpmpb.Quote :=
  supportedQuotes_range pcrHashAlgs quotes [].

(** *** VerifyAttestation (lines 76-158) *)

Definition errSHA1NotAllowed : error :=
  errorString
    "SHA-1 is not allowed for verification (set VerifyOpts.AllowSHA1 to true to allow)".

Definition errNoSupportedQuote : error :=
  errorString "attestation does not contain a supported quote".

(** The loop of lines 117-152 over the remaining candidates, followed by
    lines 154-157 once the candidates are exhausted.  [machineState] is the
    pointer held at line 116 and [lastErr] the variable of line 117. *)
Fixpoint verifyQuotes (attestation : pb.Attestation) (opts : VerifyOpts)
    (akPubKey : PublicKey) (machineState : option MachineState)
    (quotes : list tpmpb.Quote) (lastErr : option error)
    : Go (option MachineState * option error) :=
  match quotes with
  | [] =>
      match lastErr with
      | Some err => ret (None, Some err)
      | None => ret (None, Some errNoSupportedQuote)
      end
  | quote :: rest =>
      verr <- VerifyQuote quote akPubKey (Nonce opts) ;;
      match verr with
      | Some err =>
          verifyQuotes attestation opts akPubKey machineState rest
            (Some (wrapError "failed to verify quote: " err))
      | None =>
          let pcrs := tpmpb.GetPcrs quote in
          r <- parsePCClientEventLog (pb.GetEventLog attestation) pcrs ;;
          match r with
          | inl err =>
              verifyQuotes attestation opts akPubKey machineState rest
                (Some (wrapError
                   "failed to validate the PCClient event log: " err))
          | inr state =>
              r <- parseCanonicalEventLog
                     (pb.GetCanonicalEventLog attestation) pcrs ;;
              match r with
              | inl err =>
                  verifyQuotes attestation opts akPubKey machineState rest
                    (Some (wrapError
                       "failed to validate the Canonical event log: " err))
              | inr celState =>
                  if negb (AllowSHA1 opts)
                     && (toAlgorithm (tpmpb.GetHash pcrs) =? AlgSHA1)
                  then
                    verifyQuotes attestation opts akPubKey machineState rest
                      (Some errSHA1NotAllowed)
                  else
                    machineState <- Merge machineState celState ;;
                    machineState <- Merge machineState state ;;
                    ret (machineState, None)
              end
          end
      end
  end.

Definition VerifyAttestation (attestation : pb.Attestation) (opts : VerifyOpts)
    : Go (option MachineState * option error) :=
  match validateOpts opts with
  | Some err => ret (None, Some (wrapError "bad options: " err))
  | None =>
      if isEmpty (pb.GetAkCert attestation) then
        r <- DecodePublic (pb.GetAkPub attestation) ;;
        match r with
        | inl err =>
            ret (None, Some (wrapError
              "failed to decode AK public area: " err))
        | inr akPubArea =>
            r <- Key akPubArea ;;
            match r with
            | inl err =>
                ret (None, Some (wrapError
                  "failed to get AK public key: " err))
            | inr akPubKey =>
                verr <- validateAKPub akPubKey opts ;;
                match verr with
                | Some err =>
                    ret (None, Some (wrapError
                      "failed to validate AK public key: " err))
                | None =>
                    verifyQuotes attestation opts akPubKey
                      (Some emptyMachineState)
                      (supportedQuotes (pb.GetQuotes attestation)) None
                end
            end
        end
      else
        r <- ParseCertificate (pb.GetAkCert attestation) ;;
        match r with
        | inl err =>
            ret (None, Some (wrapError "failed to parse AK certificate: " err))
        | inr akCert =>
            r <- parseCerts (pb.IntermediateCerts attestation) ;;
            match r with
            | inl err =>
                ret (None, Some (wrapError "attestation intermediates: " err))
            | inr certs =>
                let opts :=
                  setIntermediateCerts opts (IntermediateCerts opts ++ certs) in
                r <- validateAKCert akCert opts ;;
                match r with
                | (_, (_, Some err)) =>
                    ret (None, Some (wrapError
                      "failed to validate AK certificate: " err))
                | (akCert, (machineState, None)) =>
                    akPubKey <- assertPublicKey (x509.PublicKey akCert) ;;
                    verifyQuotes attestation opts akPubKey machineState
                      (supportedQuotes (pb.GetQuotes attestation)) None
                end
            end
        end
  end.

(** ** The specification's view of the verifier

    The definitions below follow the specification (sections 3 and 4), not
    the code; the theorems relate them to the definitions above. *)

(** The algorithm a quote is offered for. *)
Definition quoteAlg (quote : tpmpb.Quote) : Algorithm :=
  toAlgorithm (tpmpb.GetHash (tpmpb.GetPcrs quote)).

(** The invariant of section 3: exactly one trust mechanism is populated. *)
Definition exactlyOneTrustMechanism (opts : VerifyOpts) : bool :=
  xorb (negb (isEmpty (TrustedAKs opts)))
       (negb (isEmpty (TrustedRootCerts opts))).

(** A configuration error is what line 78 builds. *)
Definition isConfigurationError (e : error) : bool :=
  match e with
  | wrapError msg _ => String.eqb msg "bad options: "
  | errorString _ => false
  end.

(** The error a call returned, if it returned one. *)
Definition returnedError {A : Type} (r : Go (A * option error))
    : option error :=
  match snd r with
  | Done (_, err) => err
  | Panicked _ => None
  end.

Definition failsOnOptions (r : Go (option MachineState * option error))
    : bool :=
  match returnedError r with
  | Some e => isConfigurationError e
  | None => false
  end.

(** Section 4.3: for each algorithm of the preference list, in order, the
    first quote offered for it, if there is one. *)
Definition orderCandidates (algs : list Algorithm)
    (quotes : list tpmpb.Quote) : list tpmpb.Quote :=
  flat_map
    (fun alg =>
       match find (fun quote => quoteAlg quote =? alg) quotes with
       | Some quote => [quote]
       | None => []
       end)
    algs.

(** An algorithm is represented when some quote is offered for it. *)
Definition represented (quotes : list tpmpb.Quote) (alg : Algorithm) : bool :=
  existsb (fun quote => quoteAlg quote =? alg) quotes.

(** Section 4.4, step 4, for one candidate: the error it records (steps a
    to d), or the canonical-log and primary-log fragments it hands to the
    merge of step e. *)
Definition attempt (attestation : pb.Attestation) (opts : VerifyOpts)
    (akPubKey : PublicKey) (quote : tpmpb.Quote)
    : error + (option MachineState * option MachineState) :=
  match ext_VerifyQuote quote akPubKey (Nonce opts) with
  | Some err => inl (wrapError "failed to verify quote: " err)
  | None =>
      match ext_parsePCClientEventLog (pb.GetEventLog attestation)
                                      (tpmpb.GetPcrs quote) with
      | inl err =>
          inl (wrapError "failed to validate the PCClient event log: " err)
      | inr state =>
          match ext_parseCanonicalEventLog
                  (pb.GetCanonicalEventLog attestation)
                  (tpmpb.GetPcrs quote) with
          | inl err =>
              inl (wrapError
                     "failed to validate the Canonical event log: " err)
          | inr celState =>
              if negb (AllowSHA1 opts) && (quoteAlg quote =? AlgSHA1)
              then inl errSHA1NotAllowed
              else inr (celState, state)
          end
      end
  end.

(** The calls made while examining one candidate. *)
Definition attemptCalls (attestation : pb.Attestation) (opts : VerifyOpts)
    (akPubKey : PublicKey) (quote : tpmpb.Quote) : list event :=
  VerifyQuoteCall quote akPubKey (Nonce opts) ::
  match ext_VerifyQuote quote akPubKey (Nonce opts) with
  | Some _ => []
  | None =>
      parsePCClientEventLogCall (pb.GetEventLog attestation)
                                (tpmpb.GetPcrs quote) ::
      match ext_parsePCClientEventLog (pb.GetEventLog attestation)
                                      (tpmpb.GetPcrs quote) with
      | inl _ => []
      | inr _ =>
          [parseCanonicalEventLogCall (pb.GetCanonicalEventLog attestation)
                                      (tpmpb.GetPcrs quote)]
      end
  end.

Definition rejected (attestation : pb.Attestation) (opts : VerifyOpts)
    (akPubKey : PublicKey) (quote : tpmpb.Quote) : bool :=
  match attempt attestation opts akPubKey quote with
  | inl _ => true
  | inr _ => false
  end.

(** The errors recorded for a list of candidates, in order. *)
Definition recordedErrors (attestation : pb.Attestation) (opts : VerifyOpts)
    (akPubKey : PublicKey) (quotes : list tpmpb.Quote) : list error :=
  flat_map
    (fun quote =>
       match attempt attestation opts akPubKey quote with
       | inl err => [err]
       | inr _ => []
       end)
    quotes.

(** A call that examines a quote candidate. *)
Definition examinesCandidate (e : event) : bool :=
  match e with
  | VerifyQuoteCall _ _ _
  | parsePCClientEventLogCall _ _
  | parseCanonicalEventLogCall _ _ => true
  | _ => false
  end.

(** Step 4e: merge the canonical-log fragment, then the primary-log
    fragment, into the seed (a nil fragment adds nothing). *)
Definition mergeFragment (d : MachineState) (src : option MachineState)
    : MachineState :=
  match src with
  | None => d
  | Some s => ext_Merge d s
  end.

Definition mergedState (seed : MachineState)
    (celState state : option MachineState) : MachineState :=
  mergeFragment (mergeFragment seed celState) state.

(** Lines 148-151 as the code has them, for a seed pointer that may be
    nil. *)
Definition mergeAndReturn (machineState celState state : option MachineState)
    : Go (option MachineState * option error) :=
  machineState <- Merge machineState celState ;;
  machineState <- Merge machineState state ;;
  ret (machineState, None).

(** Section 4.1, [establishTrust]: the error that ends the call, or the
    machine-state seed and the public key the quotes are checked with. *)
Definition establishTrust (attestation : pb.Attestation) (opts : VerifyOpts)
    : Go (error + (option MachineState * PublicKey)) :=
  if isEmpty (pb.GetAkCert attestation) then
    r <- DecodePublic (pb.GetAkPub attestation) ;;
    match r with
    | inl err => ret (inl (wrapError "failed to decode AK public area: " err))
    | inr akPubArea =>
        r <- Key akPubArea ;;
        match r with
        | inl err => ret (inl (wrapError "failed to get AK public key: " err))
        | inr akPubKey =>
            verr <- validateAKPub akPubKey opts ;;
            match verr with
            | Some err =>
                ret (inl (wrapError
                  "failed to validate AK public key: " err))
            | None => ret (inr (Some emptyMachineState, akPubKey))
            end
        end
    end
  else
    r <- ParseCertificate (pb.GetAkCert attestation) ;;
    match r with
    | inl err => ret (inl (wrapError "failed to parse AK certificate: " err))
    | inr akCert =>
        r <- parseCerts (pb.IntermediateCerts attestation) ;;
        match r with
        | inl err => ret (inl (wrapError "attestation intermediates: " err))
        | inr certs =>
            r <- validateAKCert akCert
                   (setIntermediateCerts opts
                      (IntermediateCerts opts ++ certs)) ;;
            match r with
            | (_, (_, Some err)) =>
                ret (inl (wrapError
                  "failed to validate AK certificate: " err))
            | (akCert, (machineState, None)) =>
                akPubKey <- assertPublicKey (x509.PublicKey akCert) ;;
                ret (inr (machineState, akPubKey))
            end
        end
    end.

(** The certificate carries the vendor extension and its value is the DER
    encoding of [a], with integers that fit their fields. *)
Definition carriesInstanceInfo (extensions : list pkix.Extension)
    (a : derInstanceInfo) : Prop :=
  isEmpty (findRawInfo extensions) = false
  /\ ext_parseDER (findRawInfo extensions) = inr a
  /\ forallb fitsInt64 (asn1Integers a) = true.

(** The struct that [getInstanceInfo] holds after line 177 for such a
    value. *)
Definition decoded (a : derInstanceInfo) : gceInstanceInfo :=
  storeInstanceInfo a gceInstanceInfo_zero.

(** The extension is well formed for the decoder: its value decodes and
    none of its integers is negative, so that neither error of lines 175-182
    is raised (the specification files both under its extension parse
    error). *)
Definition wellFormedInstanceInfo (extensions : list pkix.Extension)
    (a : derInstanceInfo) : Prop :=
  carriesInstanceInfo extensions a
  /\ 0 <= ProjectNumber (decoded a)
  /\ 0 <= InstanceID (decoded a)
  /\ 0 <= SecurityVersion (SecurityProperties (decoded a)).

(** The certificate as [Verify] receives it: the subject-alternative-name
    identifier filtered out of the unhandled critical extensions, everything
    else as it was. *)
Definition withoutSubjectAltName (c : Certificate) : Certificate :=
  setUnhandledCriticalExtensions c
    (filter (fun e => negb (OID_Equal e oidExtensionSubjectAltName))
            (x509.UnhandledCriticalExtensions c)).

(** No element of the two certificate slices of the options is a nil
    pointer. *)
Definition noNilCertificate (opts : VerifyOpts) : bool :=
  forallb (fun cert => negb (isNil cert)) (TrustedRootCerts opts)
  && forallb (fun cert => negb (isNil cert)) (IntermediateCerts opts).

(** The pool of the certificates of a list, the nil elements left aside:
    what [makePool] returns when it returns. *)
Definition pooled (certs : list (option Certificate))
    : x509.CertPool PublicKey :=
  fold_left
    (fun pool cert =>
       match cert with
       | Some c => addToPool pool c
       | None => pool
       end)
    certs [].

(** The [x509.VerifyOptions] of lines 237-246, when both pools are built. *)
Definition x509OptsOf (opts : VerifyOpts) : VerifyOptions :=
  {| x509.Roots := pooled (TrustedRootCerts opts);
     x509.Intermediates := pooled (IntermediateCerts opts);
     x509.KeyUsages := [x509.ExtKeyUsageAny] |}.

(** [Verify] gets past the two checks on raw contents. *)
Definition hasRawContents (c : Certificate) (o : VerifyOptions) : bool :=
  negb (isEmpty (x509.Raw c))
  && negb (existsb (fun i => isEmpty (x509.Raw i)) (x509.Intermediates o)).

(** ** Notions used by the further properties *)

(** The trusted keys that the loop of [validateAKPub] compares [ak] with:
    those up to the first one that equals it. *)
Fixpoint comparedKeys (ak : PublicKey) (trusted : list PublicKey)
    : list PublicKey :=
  match trusted with
  | [] => []
  | t :: rest =>
      t :: if ext_PubKeysEqual ak t then [] else comparedKeys ak rest
  end.

Definition isKeyComparison (e : event) : bool :=
  match e with
  | PubKeysEqualCall _ _ => true
  | _ => false
  end.

(** The texts that lines 78-135 put in front of the error they wrap. *)
Definition stagePrefixes : list string :=
  ["bad options: ";
   "failed to decode AK public area: ";
   "failed to get AK public key: ";
   "failed to validate AK public key: ";
   "failed to parse AK certificate: ";
   "attestation intermediates: ";
   "failed to validate AK certificate: ";
   "failed to verify quote: ";
   "failed to validate the PCClient event log: ";
   "failed to validate the Canonical event log: "].

Definition isStageError (e : error) : bool :=
  match e with
  | wrapError msg _ => existsb (String.eqb msg) stagePrefixes
  | errorString _ => false
  end.

(** The same bundle with other quotes, another AK public area, or other
    intermediate certificates. *)
Definition setQuotes (attestation : pb.Attestation)
    (quotes : list tpmpb.Quote) : pb.Attestation :=
  {| pb.GetAkPub := pb.GetAkPub attestation;
     pb.GetQuotes := quotes;
     pb.GetEventLog := pb.GetEventLog attestation;
     pb.GetCanonicalEventLog := pb.GetCanonicalEventLog attestation;
     pb.GetAkCert := pb.GetAkCert attestation;
     pb.IntermediateCerts := pb.IntermediateCerts attestation |}.

Definition setAkPub (attestation : pb.Attestation) (akPub : bytes)
    : pb.Attestation :=
  {| pb.GetAkPub := akPub;
     pb.GetQuotes := pb.GetQuotes attestation;
     pb.GetEventLog := pb.GetEventLog attestation;
     pb.GetCanonicalEventLog := pb.GetCanonicalEventLog attestation;
     pb.GetAkCert := pb.GetAkCert attestation;
     pb.IntermediateCerts := pb.IntermediateCerts attestation |}.

Definition setBundleIntermediates (attestation : pb.Attestation)
    (ders : list bytes) : pb.Attestation :=
  {| pb.GetAkPub := pb.GetAkPub attestation;
     pb.GetQuotes := pb.GetQuotes attestation;
     pb.GetEventLog := pb.GetEventLog attestation;
     pb.GetCanonicalEventLog := pb.GetCanonicalEventLog attestation;
     pb.GetAkCert := pb.GetAkCert attestation;
     pb.IntermediateCerts := ders |}.

(** The same options with another value of the SHA-1 flag. *)
Definition setAllowSHA1 (opts : VerifyOpts) (allow : bool) : VerifyOpts :=
  {| Nonce := Nonce opts;
     TrustedAKs := TrustedAKs opts;
     AllowSHA1 := allow;
     TrustedRootCerts := TrustedRootCerts opts;
     IntermediateCerts := IntermediateCerts opts |}.

End Verifier.

(** ** A small concrete world

    Keys are numbers, a machine state is a platform fragment and the list of
    replayed measurements, and every collaborator is a total function simple
    enough to evaluate.  The general theorems are instantiated here. *)

Module Fixture.

Definition byteZ (b : Byte.byte) : Z := Z.of_N (Byte.to_N b).

Definition bytes_eqb (a b : bytes) : bool :=
  if list_eq_dec Byte.byte_eq_dec a b then true else false.

Definition State : Type :=
  (option (option pb.GCEInstanceInfo) * list Z)%type.

#[export] Instance carriers : Carriers :=
  {| PublicKey := Z; TPMPublic := Z; MachineState := State |}.

Definition oidBasicConstraints : ObjectIdentifier := [2; 5; 29; 19].
Definition oidPolicyConstraints : ObjectIdentifier := [2; 5; 29; 36].

(** A certificate is three bytes: the key, which critical extensions were
    left unhandled, and the content of the instance extension. *)
Definition parseCertificate (der : bytes) : error + Certificate :=
  match der with
  | [k; u; x] =>
      inr {| x509.Raw := der;
             x509.PublicKey :=
               if byteZ k =? 0 then None else Some (byteZ k);
             x509.UnhandledCriticalExtensions :=
               if byteZ u =? 0 then []
               else if byteZ u =? 1 then [oidExtensionSubjectAltName]
               else [oidExtensionSubjectAltName; oidPolicyConstraints];
             x509.Extensions :=
               {| pkix.Id := oidBasicConstraints; pkix.Critical := true;
                  pkix.Value := [Byte.x30] |} ::
               if byteZ x =? 0 then []
               else [{| pkix.Id := cloudComputeInstanceIdentifierOID;
                        pkix.Critical := false;
                        pkix.Value := [x] |}] |}
  | _ => inl (errorString "x509: malformed certificate")
  end.

Fixpoint parseAll (ders : list bytes)
    : error + list (option Certificate) :=
  match ders with
  | [] => inr []
  | der :: rest =>
      match parseCertificate der, parseAll rest with
      | inr c, inr cs => inr (Some c :: cs)
      | inl err, _ => inl err
      | _, inl err => inl err
      end
  end.

(** A chain is found when a root holds the key 7. *)
Definition buildChains (c : Certificate) (o : VerifyOptions) : option error :=
  if existsb (fun r => match x509.PublicKey r with
                       | Some k => k =? 7
                       | None => false
                       end) (x509.Roots o)
  then None
  else Some (errorString "x509: certificate signed by unknown authority").

Definition production : derSecurityProperties :=
  {| asn1SecurityVersion := Some 1; asn1IsProduction := Some true |}.

Definition derInfo (projectNumber : Z)
    (sp : option derSecurityProperties) : derInstanceInfo :=
  {| asn1Zone := "us-central1-a"; asn1ProjectNumber := projectNumber;
     asn1ProjectID := "project"; asn1InstanceID := 7;
     asn1InstanceName := "vm"; asn1SecurityProperties := sp |}.

(** The extension value is one byte that selects its content. *)
Definition parseDER (raw : bytes) : error + derInstanceInfo :=
  match raw with
  | [x] =>
      if byteZ x =? 1 then inr (derInfo 42 (Some production))
      else if byteZ x =? 2 then inr (derInfo 42 None)
      else if byteZ x =? 3 then inr (derInfo (-1) None)
      else if byteZ x =? 4 then
        inr (derInfo 42 (Some {| asn1SecurityVersion := Some 1;
                                 asn1IsProduction := Some false |}))
      else if byteZ x =? 5 then
        inr (derInfo 42 (Some {| asn1SecurityVersion := Some (-3);
                                 asn1IsProduction := Some true |}))
      else inl (errorString "asn1: syntax error: sequence truncated")
  | _ => inl (errorString "asn1: syntax error: sequence truncated")
  end.

(** A quote is good when it carries the nonce and is signed with the
    key. *)
Definition verifyQuote (quote : tpmpb.Quote) (key : Z) (nonce : bytes)
    : option error :=
  match tpmpb.RawSig quote with
  | [s] =>
      if negb (byteZ s =? key) then
        Some (errorString "signature verification failed")
      else if negb (bytes_eqb (tpmpb.Quote_ quote) nonce) then
        Some (errorString "quote extraData did not match expected extraData")
      else None
  | _ => Some (errorString "signature verification failed")
  end.

(** A log replays when it is the content of the register it is checked
    against: register 0 for the primary log, register 1 for the canonical
    one.  An empty canonical log always replays. *)
Definition register (i : Z) (pcrs : option tpmpb.PCRs) : option bytes :=
  match pcrs with
  | None => None
  | Some p =>
      match find (fun e => fst e =? i) (tpmpb.Pcrs p) with
      | Some e => Some (snd e)
      | None => None
      end
  end.

Definition replayPrimary (log : bytes) (pcrs : option tpmpb.PCRs)
    : error + option State :=
  match register 0 pcrs with
  | Some v =>
      if bytes_eqb v log
      then inr (Some (None, [100 + tpmpb.GetHash pcrs]))
      else inl (errorString "PCR 0 mismatch")
  | None => inl (errorString "PCR 0 missing")
  end.

Definition replayCanonical (log : bytes) (pcrs : option tpmpb.PCRs)
    : error + option State :=
  if isEmpty log then inr (Some (None, []))
  else
    match register 1 pcrs with
    | Some v =>
        if bytes_eqb v log
        then inr (Some (None, [200 + tpmpb.GetHash pcrs]))
        else inl (errorString "PCR 1 mismatch")
    | None => inl (errorString "PCR 1 missing")
    end.

Definition merge (dst src : State) : State :=
  (match fst src with
   | Some p => Some p
   | None => fst dst
   end, snd dst ++ snd src).

#[export] Instance world : Collaborators :=
  {| SignatureHashAlgs := [AlgSHA512; AlgSHA384; AlgSHA256];
     ext_DecodePublic akPub :=
       match akPub with
       | [k] => inr (byteZ k)
       | _ => inl (errorString "decoding TPMT_PUBLIC: EOF")
       end;
     ext_Key akPubArea :=
       if akPubArea =? 0
       then inl (errorString "unsupported public key type")
       else inr akPubArea;
     ext_ParseCertificate := parseCertificate;
     ext_parseCerts := parseAll;
     ext_PubKeysEqual := Z.eqb;
     ext_buildChains := buildChains;
     ext_parseDER := parseDER;
     ext_VerifyQuote := verifyQuote;
     ext_parsePCClientEventLog := replayPrimary;
     ext_parseCanonicalEventLog := replayCanonical;
     emptyMachineState := (None, []);
     platformMachineState i := (Some i, []);
     ext_Merge := merge |}.

Definition nonce : bytes := [Byte.x2a].
Definition eventLog : bytes := [Byte.x0a; Byte.x0b].
Definition celLog : bytes := [Byte.x0c].

(** A quote for [hash] signed with the key [sig], over registers that
    hold [r0] and [r1]. *)
Definition quoteOf (hash : Z) (sig : Byte.byte) (r0 r1 : bytes)
    : tpmpb.Quote :=
  {| tpmpb.Quote_ := nonce; tpmpb.RawSig := [sig];
     tpmpb.Pcrs_ := Some {| tpmpb.Hash := hash;
                            tpmpb.Pcrs := [(0, r0); (1, r1)] |} |}.

(** Quotes signed with key 5: one that verifies and replays for each of
    SHA-256 and SHA-1, one for SHA-384 whose registers do not match the
    primary log, one for SHA-512 signed with another key. *)
Definition goodSHA256 : tpmpb.Quote := quoteOf AlgSHA256 Byte.x05 eventLog celLog.
Definition goodSHA1 : tpmpb.Quote := quoteOf AlgSHA1 Byte.x05 eventLog celLog.
Definition staleSHA384 : tpmpb.Quote := quoteOf AlgSHA384 Byte.x05 [] celLog.
Definition forgedSHA512 : tpmpb.Quote := quoteOf AlgSHA512 Byte.x06 eventLog celLog.
(** SHA-1 with registers that do not match the primary log. *)
Definition staleSHA1 : tpmpb.Quote := quoteOf AlgSHA1 Byte.x05 [] celLog.
(** SM3-256 is not in the preference list. *)
Definition quoteSM3 : tpmpb.Quote := quoteOf 0x0012 Byte.x05 eventLog celLog.

Definition attestationOf (akPub akCert : bytes) (quotes : list tpmpb.Quote)
    : pb.Attestation :=
  {| pb.GetAkPub := akPub; pb.GetQuotes := quotes;
     pb.GetEventLog := eventLog; pb.GetCanonicalEventLog := celLog;
     pb.GetAkCert := akCert; pb.IntermediateCerts := [] |}.

(** Options that trust the key 5, and options that trust a root holding
    the key 7. *)
Definition trustKey5 (allowSHA1 : bool) : VerifyOpts :=
  {| Nonce := nonce; TrustedAKs := [9; 5]; AllowSHA1 := allowSHA1;
     TrustedRootCerts := []; IntermediateCerts := [] |}.

Definition rootCert : Certificate :=
  {| x509.Raw := [Byte.x07; Byte.x00; Byte.x00];
     x509.PublicKey := Some 7;
     x509.UnhandledCriticalExtensions := [];
     x509.Extensions := [] |}.

Definition trustRoot (allowSHA1 : bool) : VerifyOpts :=
  {| Nonce := nonce; TrustedAKs := []; AllowSHA1 := allowSHA1;
     TrustedRootCerts := [Some rootCert]; IntermediateCerts := [] |}.

(** A certificate for the key 5 with no unhandled critical extension and
    no instance extension. *)
Definition certKey5 : bytes := [Byte.x05; Byte.x00; Byte.x00].

(** Options with no trust mechanism, and with both. *)
Definition trustNothing : VerifyOpts :=
  {| Nonce := nonce; TrustedAKs := []; AllowSHA1 := false;
     TrustedRootCerts := []; IntermediateCerts := [] |}.

Definition trustBoth : VerifyOpts :=
  {| Nonce := nonce; TrustedAKs := [5]; AllowSHA1 := false;
     TrustedRootCerts := [Some rootCert]; IntermediateCerts := [] |}.

(** Options whose second root is a nil pointer. *)
Definition trustNilRoot : VerifyOpts :=
  {| Nonce := nonce; TrustedAKs := []; AllowSHA1 := false;
     TrustedRootCerts := [Some rootCert; None]; IntermediateCerts := [] |}.

Definition basicConstraints : pkix.Extension :=
  {| pkix.Id := oidBasicConstraints; pkix.Critical := true;
     pkix.Value := [Byte.x30] |}.

(** Extension lists without and with the instance extension. *)
Definition plainExtensions : list pkix.Extension := [basicConstraints].

Definition instanceExtensions (x : Byte.byte) : list pkix.Extension :=
  [basicConstraints;
   {| pkix.Id := cloudComputeInstanceIdentifierOID; pkix.Critical := false;
      pkix.Value := [x] |}].

(** A certificate for the key 5 that lists [unhandled] as its unhandled
    critical extensions. *)
Definition certWith (unhandled : list ObjectIdentifier) : Certificate :=
  {| x509.Raw := [Byte.x05];
     x509.PublicKey := Some 5;
     x509.UnhandledCriticalExtensions := unhandled;
     x509.Extensions := plainExtensions |}.

(** The same certificate built by hand, without raw contents. *)
Definition unparsedWith (unhandled : list ObjectIdentifier) : Certificate :=
  {| x509.Raw := [];
     x509.PublicKey := Some 5;
     x509.UnhandledCriticalExtensions := unhandled;
     x509.Extensions := plainExtensions |}.

(** The calls that establish trust in the raw key 5. *)
Definition rawKey5Calls : list (@event carriers) :=
  [DecodePublicCall [Byte.x05]; KeyCall 5;
   PubKeysEqualCall 5 9; PubKeysEqualCall 5 5].

Definition offered : list tpmpb.Quote :=
  [goodSHA1; quoteSM3; goodSHA256; staleSHA384; forgedSHA512].

(** Certificates as bytes: one whose key did not parse, one for the key 5
    with the production instance extension and the subject-alternative-name
    identifier left unhandled, one whose instance extension does not
    decode. *)
Definition certNoKey : bytes := [Byte.x00; Byte.x00; Byte.x00].
Definition certProduction : bytes := [Byte.x05; Byte.x01; Byte.x01].
Definition certBadExtension : bytes := [Byte.x05; Byte.x00; Byte.x09].

Definition productionInfo : pb.GCEInstanceInfo :=
  {| pb.Zone := "us-central1-a"; pb.ProjectId := "project";
     pb.ProjectNumber := 42; pb.InstanceName := "vm"; pb.InstanceId := 7 |}.

(** An extension list whose first instance extension has an empty value
    and whose second one holds a production record. *)
Definition shadowedExtensions : list pkix.Extension :=
  [basicConstraints;
   {| pkix.Id := cloudComputeInstanceIdentifierOID; pkix.Critical := false;
      pkix.Value := [] |};
   {| pkix.Id := cloudComputeInstanceIdentifierOID; pkix.Critical := false;
      pkix.Value := [Byte.x01] |}].

End Fixture.

(** * Facts *)

(** ** Traces *)

Section TraceFacts.
Context {event : Type}.

Lemma bind_ret {A B : Type} (a : A) (k : A -> M event B) :
  bind (ret a) k = k a.
Proof. unfold bind, ret. simpl. destruct (k a); reflexivity. Qed.

Lemma bind_call {A B : Type} (e : event) (a : A) (k : A -> M event B) :
  bind (call e a) k = after [e] (k a).
Proof. reflexivity. Qed.

Lemma bind_panic {A B : Type} (msg : string) (k : A -> M event B) :
  bind (panic msg) k = panic msg.
Proof. reflexivity. Qed.

Lemma after_nil {A : Type} (m : M event A) : after [] m = m.
Proof. destruct m; reflexivity. Qed.

Lemma after_app {A : Type} (t1 t2 : list event) (m : M event A) :
  after (t1 ++ t2) m = after t1 (after t2 m).
Proof. unfold after. simpl. now rewrite app_assoc. Qed.

Lemma after_pair {A : Type} (t t' : list event) (o : outcome A) :
  after t (t', o) = (t ++ t', o).
Proof. reflexivity. Qed.

Lemma bind_after {A B : Type} (t : list event) (m : M event A)
    (k : A -> M event B) :
  bind (after t m) k = after t (bind m k).
Proof.
  destruct m as [t' [a | msg]]; unfold after, bind; simpl.
  - now rewrite app_assoc.
  - reflexivity.
Qed.

Lemma bind_pair {A B : Type} (t : list event) (a : A) (k : A -> M event B) :
  bind (t, Done a) k = after t (k a).
Proof. reflexivity. Qed.

Lemma snd_after {A : Type} (t : list event) (m : M event A) :
  snd (after t m) = snd m.
Proof. reflexivity. Qed.

Lemma fst_after {A : Type} (t : list event) (m : M event A) :
  fst (after t m) = t ++ fst m.
Proof. reflexivity. Qed.
Lemma bind_assoc {A B C : Type} (m : M event A) (k : A -> M event B)
    (k' : B -> M event C) :
  bind (bind m k) k' = bind m (fun a => bind (k a) k').
Proof.
  destruct m as [t [a | msg]]; [| reflexivity].
  rewrite !bind_pair. apply bind_after.
Qed.

Lemma bind_ext {A B : Type} (m : M event A) (k k' : A -> M event B) :
  (forall a, k a = k' a) -> bind m k = bind m k'.
Proof.
  intros H. destruct m as [t [a | msg]]; [| reflexivity].
  rewrite !bind_pair. now rewrite H.
Qed.

Lemma snd_bind {A B : Type} (m : M event A) (k : A -> M event B) :
  snd (bind m k) =
  match snd m with
  | Done a => snd (k a)
  | Panicked msg => Panicked msg
  end.
Proof. destruct m as [t [a | msg]]; reflexivity. Qed.

Lemma fst_bind {A B : Type} (m : M event A) (k : A -> M event B) :
  fst (bind m k) =
  fst m ++ match snd m with
           | Done a => fst (k a)
           | Panicked _ => []
           end.
Proof.
  destruct m as [t [a | msg]]; simpl; [reflexivity | now rewrite app_nil_r].
Qed.

End TraceFacts.

(** ** Object identifiers *)

Lemma OID_Equal_eq (a b : ObjectIdentifier) : OID_Equal a b = true <-> a = b.
Proof.
  revert b; induction a as [| x a IH]; intros [| y b]; simpl;
    try (split; [discriminate | congruence]).
  - tauto.
  - rewrite andb_true_iff, Z.eqb_eq, IH. split.
    + intros [-> ->]; reflexivity.
    + intros H; injection H; auto.
Qed.

Lemma OID_Equal_refl (a : ObjectIdentifier) : OID_Equal a a = true.
Proof. now apply OID_Equal_eq. Qed.

Section Facts.
Context {carriers : Carriers} {ext : Collaborators}.

Local Abbreviation Go := (M event).

(** ** The candidate ordering *)

Lemma appendFirstQuote_find (alg : Algorithm) (quotes out : list tpmpb.Quote) :
  appendFirstQuote alg quotes out =
  out ++ match find (fun quote => quoteAlg quote =? alg) quotes with
         | Some quote => [quote]
         | None => []
         end.
Proof.
  induction quotes as [| q quotes IH]; simpl.
  - now rewrite app_nil_r.
  - unfold quoteAlg at 1. destruct (_ =? alg); [reflexivity | exact IH].
Qed.

Lemma supportedQuotes_range_spec (algs : list Algorithm)
    (quotes out : list tpmpb.Quote) :
  supportedQuotes_range algs quotes out = out ++ orderCandidates algs quotes.
Proof.
  revert out; induction algs as [| alg algs IH]; intros out; simpl.
  - now rewrite app_nil_r.
  - rewrite IH, appendFirstQuote_find, <- app_assoc. reflexivity.
Qed.

Lemma supportedQuotes_spec (quotes : list tpmpb.Quote) :
  supportedQuotes quotes = orderCandidates pcrHashAlgs quotes.
Proof. unfold supportedQuotes. now rewrite supportedQuotes_range_spec. Qed.

Lemma find_alg_some (alg : Algorithm) (quotes : list tpmpb.Quote)
    (q : tpmpb.Quote) :
  find (fun quote => quoteAlg quote =? alg) quotes = Some q ->
  In q quotes /\ quoteAlg q = alg.
Proof.
  intros H. apply find_some in H. now rewrite Z.eqb_eq in H.
Qed.

Lemma find_alg_represented (alg : Algorithm) (quotes : list tpmpb.Quote) :
  represented quotes alg =
  match find (fun quote => quoteAlg quote =? alg) quotes with
  | Some _ => true
  | None => false
  end.
Proof.
  unfold represented. induction quotes as [| q quotes IH]; simpl.
  - reflexivity.
  - destruct (quoteAlg q =? alg); simpl; [reflexivity | exact IH].
Qed.

Lemma orderCandidates_algs (algs : list Algorithm) (quotes : list tpmpb.Quote) :
  map quoteAlg (orderCandidates algs quotes) = filter (represented quotes) algs.
Proof.
  induction algs as [| alg algs IH]; simpl.
  - reflexivity.
  - rewrite map_app, IH, find_alg_represented.
    destruct (find _ quotes) as [q |] eqn:Hf; simpl.
    + apply find_alg_some in Hf. destruct Hf as [_ ->]. reflexivity.
    + reflexivity.
Qed.

Lemma orderCandidates_In (algs : list Algorithm) (quotes : list tpmpb.Quote)
    (q : tpmpb.Quote) :
  In q (orderCandidates algs quotes) <->
  exists alg, In alg algs /\
              find (fun quote => quoteAlg quote =? alg) quotes = Some q.
Proof.
  unfold orderCandidates. rewrite in_flat_map. split.
  - intros [alg [Ha Hq]]. exists alg. split; [exact Ha |].
    destruct (find _ quotes) as [q' |]; simpl in Hq; [| contradiction].
    destruct Hq as [-> | []]. reflexivity.
  - intros [alg [Ha Hq]]. exists alg. split; [exact Ha |].
    rewrite Hq. now left.
Qed.

Lemma represented_Permutation (quotes quotes' : list tpmpb.Quote)
    (alg : Algorithm) :
  Permutation quotes quotes' ->
  represented quotes alg = represented quotes' alg.
Proof.
  intros HP. unfold represented.
  destruct (existsb _ quotes) eqn:H1; destruct (existsb _ quotes') eqn:H2;
    try reflexivity.
  - apply existsb_exists in H1. destruct H1 as [q [Hq Ha]].
    assert (H : existsb (fun quote => quoteAlg quote =? alg) quotes' = true).
    { apply existsb_exists. exists q. split; [| exact Ha].
      eapply Permutation_in; eauto. }
    congruence.
  - apply existsb_exists in H2. destruct H2 as [q [Hq Ha]].
    assert (H : existsb (fun quote => quoteAlg quote =? alg) quotes = true).
    { apply existsb_exists. exists q. split; [| exact Ha].
      eapply Permutation_in; [apply Permutation_sym |]; eauto. }
    congruence.
Qed.

(** With at most one quote per algorithm, the first quote of an algorithm
    is the only one. *)
Lemma find_alg_unique (alg : Algorithm) (quotes : list tpmpb.Quote)
    (q : tpmpb.Quote) :
  NoDup (map quoteAlg quotes) -> In q quotes -> quoteAlg q = alg ->
  find (fun quote => quoteAlg quote =? alg) quotes = Some q.
Proof.
  induction quotes as [| x quotes IH]; simpl; intros Hnd Hin Ha.
  - contradiction.
  - inversion Hnd as [| ? ? Hx Hnd']; subst.
    destruct Hin as [-> | Hin].
    + now rewrite Z.eqb_refl.
    + destruct (quoteAlg x =? quoteAlg q) eqn:E.
      * apply Z.eqb_eq in E. exfalso. apply Hx. rewrite E.
        now apply in_map.
      * now apply IH.
Qed.

Lemma find_alg_Permutation (alg : Algorithm)
    (quotes quotes' : list tpmpb.Quote) :
  NoDup (map quoteAlg quotes) -> Permutation quotes quotes' ->
  find (fun quote => quoteAlg quote =? alg) quotes' =
  find (fun quote => quoteAlg quote =? alg) quotes.
Proof.
  intros Hnd HP.
  assert (Hnd' : NoDup (map quoteAlg quotes')).
  { eapply Permutation_NoDup; [| exact Hnd]. now apply Permutation_map. }
  destruct (find _ quotes) as [q |] eqn:Hf.
  - apply find_alg_some in Hf. destruct Hf as [Hin Ha].
    apply find_alg_unique; auto. eapply Permutation_in; eauto.
  - destruct (find _ quotes') as [q' |] eqn:Hf'; [| reflexivity].
    apply find_alg_some in Hf'. destruct Hf' as [Hin Ha].
    eapply find_none in Hf; [| eapply Permutation_in;
                                [apply Permutation_sym |]; eauto].
    simpl in Hf. rewrite Ha, Z.eqb_refl in Hf. discriminate.
Qed.

Lemma orderCandidates_Permutation (algs : list Algorithm)
    (quotes quotes' : list tpmpb.Quote) :
  NoDup (map quoteAlg quotes) -> Permutation quotes quotes' ->
  orderCandidates algs quotes' = orderCandidates algs quotes.
Proof.
  intros Hnd HP. unfold orderCandidates.
  apply flat_map_ext. intros alg. now rewrite (find_alg_Permutation alg _ _ Hnd HP).
Qed.

Lemma NoDup_filter_pred {A : Type} (p : A -> bool) (l : list A) :
  NoDup l -> NoDup (filter p l).
Proof.
  induction 1 as [| x l Hx Hnd IH]; simpl.
  - constructor.
  - destruct (p x); [| exact IH].
    constructor; [| exact IH]. intros Hin. apply filter_In in Hin. tauto.
Qed.

(** C6. [supportedQuotes] is the specification's [orderCandidates] for the
    preference list [SignatureHashAlgs] followed by SHA-1: the candidates
    come out in preference order with SHA-1 last, each one is the first
    quote offered for its algorithm, and a quote for an algorithm outside
    the list is not among them.  The preference list having no repeated
    entry, no two candidates share an algorithm and there are at most as
    many candidates as distinct algorithms offered.  The sequence of
    algorithms of the candidates depends only on which algorithms are
    offered, not on the order of the quotes; when no two quotes share an
    algorithm the candidates themselves do not depend on that order. *)
Theorem C6_supportedQuotes_preference_order (quotes : list tpmpb.Quote)
    (Hpref : NoDup pcrHashAlgs) :
  supportedQuotes quotes =
    orderCandidates SignatureHashAlgs quotes
    ++ orderCandidates [AlgSHA1] quotes
  /\ map quoteAlg (supportedQuotes quotes) =
     filter (represented quotes) (SignatureHashAlgs ++ [AlgSHA1])
  /\ (forall q, In q (supportedQuotes quotes) ->
        In (quoteAlg q) pcrHashAlgs /\
        find (fun quote => quoteAlg quote =? quoteAlg q) quotes = Some q)
  /\ (forall q, In q quotes -> ~ In (quoteAlg q) pcrHashAlgs ->
        ~ In q (supportedQuotes quotes))
  /\ NoDup (map quoteAlg (supportedQuotes quotes))
  /\ (List.length (supportedQuotes quotes) <=
      List.length (nodup Z.eq_dec (map quoteAlg quotes)))%nat
  /\ (forall quotes', Permutation quotes quotes' ->
        map quoteAlg (supportedQuotes quotes') =
        map quoteAlg (supportedQuotes quotes))
  /\ (forall quotes', NoDup (map quoteAlg quotes) ->
        Permutation quotes quotes' ->
        supportedQuotes quotes' = supportedQuotes quotes).
Proof.
  assert (Halgs : map quoteAlg (supportedQuotes quotes) =
                  filter (represented quotes) pcrHashAlgs).
  { now rewrite supportedQuotes_spec, orderCandidates_algs. }
  assert (Hin : forall q, In q (supportedQuotes quotes) ->
            In (quoteAlg q) pcrHashAlgs /\
            find (fun quote => quoteAlg quote =? quoteAlg q) quotes = Some q).
  { intros q Hq. rewrite supportedQuotes_spec in Hq.
    apply orderCandidates_In in Hq. destruct Hq as [alg [Ha Hf]].
    destruct (find_alg_some _ _ _ Hf) as [_ <-]. now split. }
  assert (Hnd : NoDup (map quoteAlg (supportedQuotes quotes))).
  { rewrite Halgs. now apply NoDup_filter_pred. }
  repeat split.
  - rewrite supportedQuotes_spec. unfold pcrHashAlgs, orderCandidates.
    now rewrite flat_map_app.
  - exact Halgs.
  - now apply Hin.
  - now apply Hin.
  - intros q _ Hout Hq. apply Hin in Hq. tauto.
  - exact Hnd.
  - rewrite <- (length_map quoteAlg (supportedQuotes quotes)).
    apply NoDup_incl_length; [exact Hnd |].
    intros a Ha. apply nodup_In. rewrite Halgs in Ha.
    apply filter_In in Ha. destruct Ha as [_ Ha].
    apply existsb_exists in Ha. destruct Ha as [q [Hq Ha]].
    apply Z.eqb_eq in Ha. subst a. now apply in_map.
  - intros quotes' HP. rewrite !supportedQuotes_spec, !orderCandidates_algs.
    apply filter_ext. intros a. symmetry. now apply represented_Permutation.
  - intros quotes' Hq HP. rewrite !supportedQuotes_spec.
    now apply orderCandidates_Permutation.
Qed.

(** ** validateOpts *)

Lemma validateOpts_exactly_one (opts : VerifyOpts) :
  validateOpts opts = None <-> exactlyOneTrustMechanism opts = true.
Proof.
  unfold validateOpts, exactlyOneTrustMechanism.
  destruct (isEmpty (TrustedAKs opts)), (isEmpty (TrustedRootCerts opts));
    simpl; split; congruence.
Qed.

(** ** getInstanceInfo *)

Lemma findRawInfo_absent (extensions : list pkix.Extension) :
  (forall e, In e extensions -> pkix.Id e <> cloudComputeInstanceIdentifierOID) ->
  findRawInfo extensions = [].
Proof.
  induction extensions as [| e rest IH]; simpl; intros H.
  - reflexivity.
  - destruct (OID_Equal (pkix.Id e) cloudComputeInstanceIdentifierOID) eqn:E.
    + apply OID_Equal_eq in E. exfalso. apply (H e); auto.
    + apply IH. intros e' He'. apply H. now right.
Qed.

Lemma getInstanceInfo_decoded (extensions : list pkix.Extension)
    (a : derInstanceInfo) :
  carriesInstanceInfo extensions a ->
  getInstanceInfo extensions =
  after [UnmarshalCall (findRawInfo extensions)]
    (let info := decoded a in
     if (ProjectNumber info <? 0) || (InstanceID info <? 0)
        || (SecurityVersion (SecurityProperties info) <? 0)
     then ret (None, Some errNegativeFields)
     else if negb (IsProduction (SecurityProperties info))
     then ret (None, None)
     else ret (Some {| pb.Zone := Zone info;
                       pb.ProjectId := ProjectID info;
                       pb.ProjectNumber := toUint64 (ProjectNumber info);
                       pb.InstanceName := InstanceName info;
                       pb.InstanceId := toUint64 (InstanceID info) |},
               None)).
Proof.
  intros (Hraw & Hder & Hfit). unfold getInstanceInfo, Unmarshal.
  rewrite Hraw, Hder, Hfit, bind_call. reflexivity.
Qed.

Lemma getInstanceInfo_absent (extensions : list pkix.Extension) :
  (forall e, In e extensions ->
     pkix.Id e <> cloudComputeInstanceIdentifierOID) ->
  getInstanceInfo extensions = ([], Done (None, None)).
Proof.
  intros H. unfold getInstanceInfo. now rewrite (findRawInfo_absent _ H).
Qed.

Lemma getInstanceInfo_negative (extensions : list pkix.Extension)
    (a : derInstanceInfo) :
  carriesInstanceInfo extensions a ->
  ProjectNumber (decoded a) < 0 \/ InstanceID (decoded a) < 0
  \/ SecurityVersion (SecurityProperties (decoded a)) < 0 ->
  getInstanceInfo extensions =
  ([UnmarshalCall (findRawInfo extensions)],
   Done (None, Some errNegativeFields)).
Proof.
  intros Ha Hneg. rewrite (getInstanceInfo_decoded _ _ Ha). cbv zeta.
  replace ((ProjectNumber (decoded a) <? 0) || (InstanceID (decoded a) <? 0)
           || (SecurityVersion (SecurityProperties (decoded a)) <? 0))
    with true; [reflexivity |].
  symmetry. rewrite !orb_true_iff, !Z.ltb_lt. tauto.
Qed.

Lemma getInstanceInfo_not_production (extensions : list pkix.Extension)
    (a : derInstanceInfo) :
  carriesInstanceInfo extensions a ->
  0 <= ProjectNumber (decoded a) -> 0 <= InstanceID (decoded a) ->
  0 <= SecurityVersion (SecurityProperties (decoded a)) ->
  IsProduction (SecurityProperties (decoded a)) = false ->
  getInstanceInfo extensions =
  ([UnmarshalCall (findRawInfo extensions)], Done (None, None)).
Proof.
  intros Ha Hp Hi Hv Hprod. rewrite (getInstanceInfo_decoded _ _ Ha).
  cbv zeta. rewrite Hprod.
  replace ((ProjectNumber (decoded a) <? 0) || (InstanceID (decoded a) <? 0)
           || (SecurityVersion (SecurityProperties (decoded a)) <? 0))
    with false; [reflexivity |].
  symmetry. rewrite !orb_false_iff, !Z.ltb_ge. tauto.
Qed.

(** C7. [getInstanceInfo] makes its checks in the order the claim lists
    them.  When no extension carries the instance-information identifier it
    returns (nil, nil) without decoding anything.  When the value of the
    extension decodes and the project number, the instance id or the
    security version is negative it returns an error.  When none of them is
    negative and the production flag is false it returns (nil, nil). *)
Theorem C7_getInstanceInfo_gates (extensions : list pkix.Extension) :
  ((forall e, In e extensions ->
      pkix.Id e <> cloudComputeInstanceIdentifierOID) ->
   getInstanceInfo extensions = ([], Done (None, None)))
  /\ (forall a, carriesInstanceInfo extensions a ->
        ProjectNumber (decoded a) < 0 \/ InstanceID (decoded a) < 0
        \/ SecurityVersion (SecurityProperties (decoded a)) < 0 ->
        getInstanceInfo extensions =
        ([UnmarshalCall (findRawInfo extensions)],
         Done (None, Some errNegativeFields)))
  /\ (forall a, carriesInstanceInfo extensions a ->
        0 <= ProjectNumber (decoded a) -> 0 <= InstanceID (decoded a) ->
        0 <= SecurityVersion (SecurityProperties (decoded a)) ->
        IsProduction (SecurityProperties (decoded a)) = false ->
        getInstanceInfo extensions =
        ([UnmarshalCall (findRawInfo extensions)], Done (None, None))).
Proof.
  split; [apply getInstanceInfo_absent |].
  split; intros a; [apply getInstanceInfo_negative |
                    apply getInstanceInfo_not_production].
Qed.

(** C10. When the value of the vendor extension decodes and its optional
    security-properties structure is absent, the struct keeps the zero value
    of the production flag, which is false, and no instance identity is
    returned.  When the extension is well formed, [getInstanceInfo] returns
    (nil, nil) although the value decoded. *)
Theorem C10_absent_security_properties (extensions : list pkix.Extension)
    (a : derInstanceInfo) :
  carriesInstanceInfo extensions a ->
  asn1SecurityProperties a = None ->
  SecurityProperties (decoded a) =
    {| SecurityVersion := 0; IsProduction := false |}
  /\ (exists err,
        getInstanceInfo extensions =
        ([UnmarshalCall (findRawInfo extensions)], Done (None, err)))
  /\ (wellFormedInstanceInfo extensions a ->
      getInstanceInfo extensions =
      ([UnmarshalCall (findRawInfo extensions)], Done (None, None))).
Proof.
  intros Ha Habs.
  assert (Hsp : SecurityProperties (decoded a) =
                {| SecurityVersion := 0; IsProduction := false |}).
  { unfold decoded, storeInstanceInfo. simpl. now rewrite Habs. }
  split; [exact Hsp |]. split.
  - rewrite (getInstanceInfo_decoded _ _ Ha). cbv zeta. rewrite Hsp.
    destruct ((ProjectNumber (decoded a) <? 0)
              || (InstanceID (decoded a) <? 0)
              || (SecurityVersion
                    {| SecurityVersion := 0; IsProduction := false |} <? 0));
      eexists; reflexivity.
  - intros (_ & Hp & Hi & Hv).
    apply (getInstanceInfo_not_production extensions a); auto.
    now rewrite Hsp.
Qed.

(** ** The loop over the candidates *)

Lemma after_cons {A : Type} (e : event) (t : list event) (m : Go A) :
  after (e :: t) m = after [e] (after t m).
Proof. reflexivity. Qed.

(** One turn of the loop is one [attempt]: the calls it makes, then either
    the next turn with the error recorded or the merge and the return. *)
Lemma verifyQuotes_cons (attestation : pb.Attestation) (opts : VerifyOpts)
    (akPubKey : PublicKey) (machineState : option MachineState)
    (quote : tpmpb.Quote) (rest : list tpmpb.Quote) (lastErr : option error) :
  verifyQuotes attestation opts akPubKey machineState (quote :: rest) lastErr =
  after (attemptCalls attestation opts akPubKey quote)
    match attempt attestation opts akPubKey quote with
    | inl e =>
        verifyQuotes attestation opts akPubKey machineState rest (Some e)
    | inr (celState, state) => mergeAndReturn machineState celState state
    end.
Proof.
  cbn [verifyQuotes].
  unfold VerifyQuote, parsePCClientEventLog, parseCanonicalEventLog,
    attempt, attemptCalls, quoteAlg.
  rewrite bind_call.
  destruct (ext_VerifyQuote quote akPubKey (Nonce opts)); [reflexivity |].
  rewrite bind_call, after_cons.
  destruct (ext_parsePCClientEventLog _ _); [reflexivity |].
  rewrite bind_call, after_cons.
  destruct (ext_parseCanonicalEventLog _ _); [reflexivity |].
  destruct (negb (AllowSHA1 opts) && _); reflexivity.
Qed.

Lemma verifyQuotes_nil (attestation : pb.Attestation) (opts : VerifyOpts)
    (akPubKey : PublicKey) (machineState : option MachineState)
    (lastErr : option error) :
  verifyQuotes attestation opts akPubKey machineState [] lastErr =
  ret (None, Some match lastErr with
                  | Some err => err
                  | None => errNoSupportedQuote
                  end).
Proof. destruct lastErr; reflexivity. Qed.

Lemma mergeAndReturn_seed (seed : MachineState)
    (celState state : option MachineState) :
  mergeAndReturn (Some seed) celState state =
  ret (Some (mergedState seed celState state), None).
Proof. reflexivity. Qed.

Lemma mergeAndReturn_nil (celState state : option MachineState) :
  mergeAndReturn None celState state =
  panic "invalid value: merging into nil message".
Proof. reflexivity. Qed.

Lemma last_nonempty_default {A : Type} (x d d' : A) (l : list A) :
  last (x :: l) d = last (x :: l) d'.
Proof.
  revert x; induction l as [| y l IH]; intros x; [reflexivity |].
  change (last (y :: l) d = last (y :: l) d'). apply IH.
Qed.

Lemma last_cons_default {A : Type} (x d : A) (l : list A) :
  last (x :: l) d = last l x.
Proof.
  destruct l as [| y l]; [reflexivity |].
  change (last (y :: l) d = last (y :: l) x). apply last_nonempty_default.
Qed.

(** When every candidate is rejected the loop examines all of them and
    returns the error recorded last, or what [lastErr] held before. *)
Lemma verifyQuotes_all_rejected (attestation : pb.Attestation)
    (opts : VerifyOpts) (akPubKey : PublicKey)
    (machineState : option MachineState) (quotes : list tpmpb.Quote) :
  forall lastErr : option error,
  forallb (rejected attestation opts akPubKey) quotes = true ->
  verifyQuotes attestation opts akPubKey machineState quotes lastErr =
  (flat_map (attemptCalls attestation opts akPubKey) quotes,
   Done (None,
         Some (last (recordedErrors attestation opts akPubKey quotes)
                    match lastErr with
                    | Some err => err
                    | None => errNoSupportedQuote
                    end))).
Proof.
  induction quotes as [| q quotes IH]; intros lastErr Hrej.
  - now rewrite verifyQuotes_nil.
  - simpl in Hrej. apply andb_true_iff in Hrej. destruct Hrej as [Hq Hrej].
    rewrite verifyQuotes_cons. unfold rejected in Hq.
    unfold recordedErrors. cbn [flat_map].
    destruct (attempt attestation opts akPubKey q) as [e | fr];
      [| discriminate].
    rewrite (IH (Some e) Hrej). cbn [app]. rewrite last_cons_default.
    reflexivity.
Qed.

(** The loop stops at the first candidate that is not rejected: it examines
    the candidates up to that one, none after it, and goes on to the merge. *)
Lemma verifyQuotes_first_accepted (attestation : pb.Attestation)
    (opts : VerifyOpts) (akPubKey : PublicKey)
    (machineState : option MachineState)
    (pre : list tpmpb.Quote) (quote : tpmpb.Quote) (post : list tpmpb.Quote)
    (celState state : option MachineState) :
  forall lastErr : option error,
  forallb (rejected attestation opts akPubKey) pre = true ->
  attempt attestation opts akPubKey quote = inr (celState, state) ->
  verifyQuotes attestation opts akPubKey machineState
    (pre ++ quote :: post) lastErr =
  after (flat_map (attemptCalls attestation opts akPubKey) (pre ++ [quote]))
        (mergeAndReturn machineState celState state).
Proof.
  induction pre as [| q pre IH]; intros lastErr Hrej Hq.
  - cbn [app flat_map]. rewrite verifyQuotes_cons, Hq, app_nil_r.
    reflexivity.
  - simpl in Hrej. apply andb_true_iff in Hrej. destruct Hrej as [Hq' Hrej].
    cbn [app flat_map]. rewrite verifyQuotes_cons. unfold rejected in Hq'.
    destruct (attempt attestation opts akPubKey q) as [e | fr];
      [| discriminate].
    rewrite (IH (Some e) Hrej Hq), after_app. reflexivity.
Qed.

Lemma verifyQuotes_setIntermediateCerts (attestation : pb.Attestation)
    (opts : VerifyOpts) (certs : list (option Certificate))
    (akPubKey : PublicKey)
    (machineState : option MachineState) (quotes : list tpmpb.Quote) :
  forall lastErr : option error,
  verifyQuotes attestation (setIntermediateCerts opts certs) akPubKey
    machineState quotes lastErr =
  verifyQuotes attestation opts akPubKey machineState quotes lastErr.
Proof.
  induction quotes as [| q quotes IH]; intros lastErr.
  - reflexivity.
  - rewrite !verifyQuotes_cons.
    change (attempt attestation (setIntermediateCerts opts certs) akPubKey q)
      with (attempt attestation opts akPubKey q).
    change (attemptCalls attestation (setIntermediateCerts opts certs)
              akPubKey q)
      with (attemptCalls attestation opts akPubKey q).
    destruct (attempt attestation opts akPubKey q) as [e | [c s]];
      [now rewrite IH | reflexivity].
Qed.

(** The errors a candidate can record. *)
Lemma attempt_errors (attestation : pb.Attestation) (opts : VerifyOpts)
    (akPubKey : PublicKey) (quote : tpmpb.Quote) (e : error) :
  attempt attestation opts akPubKey quote = inl e ->
  (exists err, e = wrapError "failed to verify quote: " err)
  \/ (exists err,
        e = wrapError "failed to validate the PCClient event log: " err)
  \/ (exists err,
        e = wrapError "failed to validate the Canonical event log: " err)
  \/ e = errSHA1NotAllowed.
Proof.
  unfold attempt.
  destruct (ext_VerifyQuote _ _ _) as [err |].
  { intros H; injection H as <-. left. now exists err. }
  destruct (ext_parsePCClientEventLog _ _) as [err | state].
  { intros H; injection H as <-. right; left. now exists err. }
  destruct (ext_parseCanonicalEventLog _ _) as [err | celState].
  { intros H; injection H as <-. right; right; left. now exists err. }
  destruct (negb (AllowSHA1 opts) && _); [| discriminate].
  intros H; injection H as <-. now right; right; right.
Qed.

Lemma attempt_error_distinct (attestation : pb.Attestation)
    (opts : VerifyOpts) (akPubKey : PublicKey) (quote : tpmpb.Quote)
    (e : error) :
  attempt attestation opts akPubKey quote = inl e ->
  e <> errNoSupportedQuote /\ isConfigurationError e = false.
Proof.
  intros H. apply attempt_errors in H.
  destruct H as [[err ->] | [[err ->] | [[err ->] | ->]]];
    split; (discriminate || reflexivity).
Qed.

(** ** The phases of VerifyAttestation *)

(** [VerifyAttestation] checks the options, establishes trust in the key
    as [establishTrust] describes, and runs the loop over the ordered
    candidates with the seed and the key it obtained. *)
Lemma VerifyAttestation_phases (attestation : pb.Attestation)
    (opts : VerifyOpts) :
  VerifyAttestation attestation opts =
  match validateOpts opts with
  | Some err => ret (None, Some (wrapError "bad options: " err))
  | None =>
      r <- establishTrust attestation opts ;;
      match r with
      | inl err => ret (None, Some err)
      | inr (machineState, akPubKey) =>
          verifyQuotes attestation opts akPubKey machineState
            (supportedQuotes (pb.GetQuotes attestation)) None
      end
  end.
Proof.
  unfold VerifyAttestation, establishTrust.
  destruct (validateOpts opts); [reflexivity |].
  destruct (isEmpty (pb.GetAkCert attestation)).
  - unfold DecodePublic, Key. rewrite !bind_call, bind_after. f_equal.
    destruct (ext_DecodePublic _); [now rewrite bind_ret |].
    rewrite !bind_call, bind_after. f_equal.
    destruct (ext_Key _); [now rewrite bind_ret |].
    rewrite bind_assoc. apply bind_ext. intros [e |]; now rewrite bind_ret.
  - unfold ParseCertificate, parseCerts. rewrite !bind_call, bind_after.
    f_equal.
    destruct (ext_ParseCertificate _); [now rewrite bind_ret |].
    rewrite !bind_call, bind_after. f_equal.
    destruct (ext_parseCerts _); [now rewrite bind_ret |].
    rewrite bind_assoc. apply bind_ext.
    intros [c' [ms [e |]]]; [now rewrite bind_ret |].
    rewrite bind_assoc. apply bind_ext. intros k. rewrite bind_ret.
    apply verifyQuotes_setIntermediateCerts.
Qed.

Lemma VerifyAttestation_trusted (attestation : pb.Attestation)
    (opts : VerifyOpts) (t : list event)
    (machineState : option MachineState) (akPubKey : PublicKey) :
  validateOpts opts = None ->
  establishTrust attestation opts = (t, Done (inr (machineState, akPubKey))) ->
  VerifyAttestation attestation opts =
  after t (verifyQuotes attestation opts akPubKey machineState
             (supportedQuotes (pb.GetQuotes attestation)) None).
Proof.
  intros Hopts Hid. now rewrite VerifyAttestation_phases, Hopts, Hid.
Qed.

Lemma VerifyAttestation_untrusted (attestation : pb.Attestation)
    (opts : VerifyOpts) (t : list event) (e : error) :
  validateOpts opts = None ->
  establishTrust attestation opts = (t, Done (inl e)) ->
  VerifyAttestation attestation opts = (t, Done (None, Some e)).
Proof.
  intros Hopts Hid. rewrite VerifyAttestation_phases, Hopts, Hid.
  rewrite bind_pair. unfold after, ret. simpl. now rewrite app_nil_r.
Qed.

(** ** Certificate pools *)

Lemma makePool_range_present (certs : list (option Certificate))
    (pool : x509.CertPool PublicKey) :
  forallb (fun cert => negb (isNil cert)) certs = true ->
  makePool_range certs pool =
  ret (fold_left (fun pool cert =>
                    match cert with
                    | Some c => addToPool pool c
                    | None => pool
                    end) certs pool).
Proof.
  revert pool; induction certs as [| [c |] rest IH]; intros pool H;
    cbn [makePool_range fold_left AddCert].
  - reflexivity.
  - rewrite bind_ret. apply IH. exact H.
  - discriminate.
Qed.

Lemma makePool_range_nil (certs : list (option Certificate))
    (pool : x509.CertPool PublicKey) :
  forallb (fun cert => negb (isNil cert)) certs = false ->
  makePool_range certs pool = panic "adding nil Certificate to CertPool".
Proof.
  revert pool; induction certs as [| [c |] rest IH]; intros pool H;
    cbn [makePool_range AddCert].
  - discriminate.
  - rewrite bind_ret. apply IH. exact H.
  - reflexivity.
Qed.

(** [makePool] returns the pool of its certificates when none is nil, and
    panics otherwise. *)
Lemma makePool_present (certs : list (option Certificate)) :
  forallb (fun cert => negb (isNil cert)) certs = true ->
  makePool certs = ret (pooled certs).
Proof. apply makePool_range_present. Qed.

Lemma makePool_nil (certs : list (option Certificate)) :
  forallb (fun cert => negb (isNil cert)) certs = false ->
  makePool certs = panic "adding nil Certificate to CertPool".
Proof. apply makePool_range_nil. Qed.

Lemma makePool_cases (certs : list (option Certificate)) :
  makePool certs = ret (pooled certs)
  \/ makePool certs = panic "adding nil Certificate to CertPool".
Proof.
  destruct (forallb (fun cert => negb (isNil cert)) certs) eqn:E.
  - left. now apply makePool_present.
  - right. now apply makePool_nil.
Qed.

(** With a nil certificate among the roots or the intermediates,
    [validateAKCert] panics while it builds the pools, before [Verify]. *)
Lemma validateAKCert_nil_certificate (akCert : Certificate)
    (opts : VerifyOpts) :
  isEmpty (TrustedRootCerts opts) = false ->
  noNilCertificate opts = false ->
  validateAKCert akCert opts = panic "adding nil Certificate to CertPool".
Proof.
  intros Hroots Hnil. unfold validateAKCert. rewrite Hroots. cbv zeta.
  unfold noNilCertificate in Hnil.
  destruct (forallb (fun cert => negb (isNil cert)) (TrustedRootCerts opts))
    eqn:Er.
  - rewrite (makePool_present _ Er), bind_ret.
    simpl in Hnil. now rewrite (makePool_nil _ Hnil).
  - now rewrite (makePool_nil _ Er).
Qed.

(** ** Which calls establish trust *)

Lemma quiet_bind {A B : Type} (m : Go A) (k : A -> Go B) :
  existsb examinesCandidate (fst m) = false ->
  (forall a, existsb examinesCandidate (fst (k a)) = false) ->
  existsb examinesCandidate (fst (bind m k)) = false.
Proof.
  intros Hm Hk. rewrite fst_bind, existsb_app, Hm.
  destruct (snd m); [apply Hk | reflexivity].
Qed.

Ltac quiet :=
  repeat first
    [ reflexivity
    | assumption
    | apply quiet_bind; [| intros ?]
    | match goal with
      | |- context [match ?x with _ => _ end] => destruct x
      | |- context [if ?x then _ else _] => destruct x
      end ].

Lemma validateAKPub_quiet (ak : PublicKey) (opts : VerifyOpts) :
  existsb examinesCandidate (fst (validateAKPub ak opts)) = false.
Proof.
  unfold validateAKPub.
  induction (TrustedAKs opts) as [| t trusted IH]; cbn [validateAKPub_range].
  - reflexivity.
  - unfold PubKeysEqual. quiet.
Qed.

Lemma getInstanceInfo_quiet (extensions : list pkix.Extension) :
  existsb examinesCandidate (fst (getInstanceInfo extensions)) = false.
Proof. unfold getInstanceInfo, Unmarshal. quiet. Qed.

Lemma validateAKCert_quiet (akCert : Certificate) (opts : VerifyOpts) :
  existsb examinesCandidate (fst (validateAKCert akCert opts)) = false.
Proof.
  pose proof validateAKPub_quiet. pose proof getInstanceInfo_quiet.
  unfold validateAKCert, Verify, assertPublicKey.
  destruct (isEmpty (TrustedRootCerts opts)).
  - destruct (x509.PublicKey akCert); [| reflexivity].
    rewrite bind_ret. apply quiet_bind; [auto | reflexivity].
  - cbv zeta.
    destruct (makePool_cases (TrustedRootCerts opts)) as [-> | ->];
      [rewrite bind_ret | reflexivity].
    destruct (makePool_cases (IntermediateCerts opts)) as [-> | ->];
      [rewrite bind_ret | reflexivity].
    rewrite bind_call, fst_after. cbn [existsb app examinesCandidate orb].
    match goal with
    | |- context [match ?v with Some _ => _ | None => _ end] => destruct v
    end; [reflexivity |].
    apply quiet_bind; [auto |]. intros [i [e |]]; reflexivity.
Qed.

Lemma establishTrust_quiet (attestation : pb.Attestation) (opts : VerifyOpts) :
  existsb examinesCandidate (fst (establishTrust attestation opts)) = false.
Proof.
  unfold establishTrust, DecodePublic, Key, ParseCertificate, parseCerts.
  destruct (isEmpty (pb.GetAkCert attestation)).
  - rewrite bind_call, fst_after. cbn [existsb app examinesCandidate orb].
    destruct (ext_DecodePublic _); [reflexivity |].
    rewrite bind_call, fst_after. cbn [existsb app examinesCandidate orb].
    destruct (ext_Key _); [reflexivity |].
    apply quiet_bind; [apply validateAKPub_quiet |].
    intros [e |]; reflexivity.
  - rewrite bind_call, fst_after. cbn [existsb app examinesCandidate orb].
    destruct (ext_ParseCertificate _); [reflexivity |].
    rewrite bind_call, fst_after. cbn [existsb app examinesCandidate orb].
    destruct (ext_parseCerts _); [reflexivity |].
    apply quiet_bind; [apply validateAKCert_quiet |].
    intros [c' [ms [e |]]]; [reflexivity |].
    unfold assertPublicKey. destruct (x509.PublicKey c'); reflexivity.
Qed.

(** ** Options *)

Lemma failsOnOptions_after (t : list event)
    (m : Go (option MachineState * option error)) :
  failsOnOptions (after t m) = failsOnOptions m.
Proof. reflexivity. Qed.

Lemma verifyQuotes_not_configuration (attestation : pb.Attestation)
    (opts : VerifyOpts) (akPubKey : PublicKey)
    (machineState : option MachineState) (quotes : list tpmpb.Quote) :
  forall lastErr : option error,
  (forall e, lastErr = Some e -> isConfigurationError e = false) ->
  failsOnOptions
    (verifyQuotes attestation opts akPubKey machineState quotes lastErr)
  = false.
Proof.
  induction quotes as [| q quotes IH]; intros lastErr Hlast.
  - rewrite verifyQuotes_nil. unfold failsOnOptions, returnedError. simpl.
    destruct lastErr as [e |]; [now apply Hlast | reflexivity].
  - rewrite verifyQuotes_cons, failsOnOptions_after.
    destruct (attempt attestation opts akPubKey q) as [e | [c s]] eqn:Hq.
    + apply IH. intros e' H. injection H as <-.
      now apply attempt_error_distinct in Hq.
    + destruct machineState; reflexivity.
Qed.

Lemma establishTrust_not_configuration (attestation : pb.Attestation)
    (opts : VerifyOpts) (e : error) :
  snd (establishTrust attestation opts) = Done (inl e) ->
  isConfigurationError e = false.
Proof.
  unfold establishTrust, DecodePublic, Key, ParseCertificate, parseCerts.
  destruct (isEmpty (pb.GetAkCert attestation)).
  - rewrite bind_call, snd_after.
    destruct (ext_DecodePublic _); [intros [= <-]; reflexivity |].
    rewrite bind_call, snd_after.
    destruct (ext_Key _); [intros [= <-]; reflexivity |].
    rewrite snd_bind.
    destruct (snd (validateAKPub _ _)) as [[err |] | msg];
      simpl; intros H; inversion H; reflexivity.
  - rewrite bind_call, snd_after.
    destruct (ext_ParseCertificate _); [intros [= <-]; reflexivity |].
    rewrite bind_call, snd_after.
    destruct (ext_parseCerts _); [intros [= <-]; reflexivity |].
    rewrite snd_bind.
    destruct (snd (validateAKCert _ _)) as [[c' [ms [err |]]] | msg];
      simpl; try (intros H; inversion H; reflexivity).
    unfold assertPublicKey. destruct (x509.PublicKey c'); discriminate.
Qed.

(** C2. [validateOpts] accepts the options exactly when one of the two
    trust mechanisms is populated, and [VerifyAttestation] returns a
    configuration error exactly when it is not.  With both sets empty, and
    with both sets populated, the call returns its configuration error
    without having called anything. *)
Theorem C2_options_exactly_one (attestation : pb.Attestation)
    (opts : VerifyOpts) :
  (validateOpts opts = None <-> exactlyOneTrustMechanism opts = true)
  /\ failsOnOptions (VerifyAttestation attestation opts) =
     negb (exactlyOneTrustMechanism opts)
  /\ (isEmpty (TrustedAKs opts) = true ->
      isEmpty (TrustedRootCerts opts) = true ->
      VerifyAttestation attestation opts =
      ([], Done (None, Some (wrapError "bad options: " (errorString
         "no trust mechanism provided, either use TrustedAKs or TrustedRootCerts")))))
  /\ (isEmpty (TrustedAKs opts) = false ->
      isEmpty (TrustedRootCerts opts) = false ->
      VerifyAttestation attestation opts =
      ([], Done (None, Some (wrapError "bad options: " (errorString
         "multiple trust mechanisms provided, only use one of TrustedAKs or TrustedRootCerts"))))).
Proof.
  split; [apply validateOpts_exactly_one |].
  split; [| split].
  - rewrite VerifyAttestation_phases.
    destruct (validateOpts opts) as [err |] eqn:Hopts.
    + destruct (exactlyOneTrustMechanism opts) eqn:Hone; [| reflexivity].
      apply validateOpts_exactly_one in Hone. congruence.
    + rewrite (proj1 (validateOpts_exactly_one opts) Hopts). simpl.
      unfold failsOnOptions, returnedError. rewrite snd_bind.
      destruct (snd (establishTrust attestation opts))
        as [[e | [ms k]] | msg] eqn:Hid.
      * simpl. now apply establishTrust_not_configuration in Hid.
      * apply verifyQuotes_not_configuration. discriminate.
      * reflexivity.
  - intros Hk Hr. unfold VerifyAttestation, validateOpts.
    now rewrite Hk, Hr.
  - intros Hk Hr. unfold VerifyAttestation, validateOpts.
    now rewrite Hk, Hr.
Qed.

(** ** Exhausted candidates *)

Lemma orderCandidates_nil (algs : list Algorithm) (quotes : list tpmpb.Quote) :
  orderCandidates algs quotes = [] <->
  (forall q, In q quotes -> ~ In (quoteAlg q) algs).
Proof.
  split.
  - intros Hnil q Hq Ha.
    assert (Hin : In (quoteAlg q) (map quoteAlg (orderCandidates algs quotes))).
    { rewrite orderCandidates_algs. apply filter_In. split; [exact Ha |].
      apply existsb_exists. exists q. now rewrite Z.eqb_refl. }
    now rewrite Hnil in Hin.
  - intros H. destruct (orderCandidates algs quotes) as [| c cs] eqn:E;
      [reflexivity |].
    assert (Hc : In c (orderCandidates algs quotes)) by (rewrite E; now left).
    apply orderCandidates_In in Hc. destruct Hc as [alg [Ha Hf]].
    apply find_alg_some in Hf. destruct Hf as [Hq <-].
    exfalso. now apply (H c).
Qed.

(** C4. When the key is trusted and every candidate is rejected,
    [VerifyAttestation] has examined every candidate, in order, and returns
    the last error recorded; with no candidate at all it returns the error
    "attestation does not contain a supported quote", which no candidate
    ever records.  There is no candidate exactly when no quote is offered
    for an algorithm of the preference list. *)
Theorem C4_last_recorded_error (attestation : pb.Attestation)
    (opts : VerifyOpts) (t : list event) (seed : option MachineState)
    (akPubKey : PublicKey) :
  validateOpts opts = None ->
  establishTrust attestation opts = (t, Done (inr (seed, akPubKey))) ->
  forallb (rejected attestation opts akPubKey)
          (supportedQuotes (pb.GetQuotes attestation)) = true ->
  VerifyAttestation attestation opts =
    (t ++ flat_map (attemptCalls attestation opts akPubKey)
                   (supportedQuotes (pb.GetQuotes attestation)),
     Done (None,
           Some (last (recordedErrors attestation opts akPubKey
                         (supportedQuotes (pb.GetQuotes attestation)))
                      errNoSupportedQuote)))
  /\ (forall pre q,
        supportedQuotes (pb.GetQuotes attestation) = pre ++ [q] ->
        exists e,
          attempt attestation opts akPubKey q = inl e
          /\ returnedError (VerifyAttestation attestation opts) = Some e
          /\ e <> errNoSupportedQuote)
  /\ (supportedQuotes (pb.GetQuotes attestation) = [] ->
      VerifyAttestation attestation opts =
      (t, Done (None, Some errNoSupportedQuote)))
  /\ (supportedQuotes (pb.GetQuotes attestation) = [] <->
      forall q, In q (pb.GetQuotes attestation) ->
                ~ In (quoteAlg q) pcrHashAlgs).
Proof.
  intros Hopts Hid Hrej.
  assert (Hrun : VerifyAttestation attestation opts =
    (t ++ flat_map (attemptCalls attestation opts akPubKey)
                   (supportedQuotes (pb.GetQuotes attestation)),
     Done (None,
           Some (last (recordedErrors attestation opts akPubKey
                         (supportedQuotes (pb.GetQuotes attestation)))
                      errNoSupportedQuote)))).
  { rewrite (VerifyAttestation_trusted _ _ _ _ _ Hopts Hid).
    now rewrite (verifyQuotes_all_rejected _ _ _ _ _ None Hrej). }
  split; [exact Hrun |]. split; [| split].
  - intros pre q Hcands. rewrite Hrun, Hcands. rewrite Hcands in Hrej.
    rewrite forallb_app in Hrej. apply andb_true_iff in Hrej.
    destruct Hrej as [_ Hq]. simpl in Hq. rewrite andb_true_r in Hq.
    unfold rejected in Hq. unfold recordedErrors. rewrite !flat_map_app.
    cbn [flat_map].
    destruct (attempt attestation opts akPubKey q) as [e | fr] eqn:Ha;
      [| discriminate].
    exists e. split; [reflexivity |]. split.
    + unfold returnedError. simpl. now rewrite last_last.
    + now apply attempt_error_distinct in Ha.
  - intros Hnil. rewrite Hrun, Hnil. simpl. now rewrite app_nil_r.
  - rewrite supportedQuotes_spec. apply orderCandidates_nil.
Qed.

(** ** Trusted keys *)


Lemma validateAKPub_trusted (ak : PublicKey) (opts : VerifyOpts) :
  existsb (ext_PubKeysEqual ak) (TrustedAKs opts) = true ->
  exists t, validateAKPub ak opts = (t, Done None).
Proof.
  unfold validateAKPub.
  induction (TrustedAKs opts) as [| k trusted IH]; intros H;
    cbn [validateAKPub_range].
  - discriminate.
  - cbn [existsb] in H. unfold PubKeysEqual. rewrite bind_call.
    destruct (ext_PubKeysEqual ak k).
    + eexists. reflexivity.
    + destruct (IH H) as [t Ht]. rewrite Ht. eexists. reflexivity.
Qed.

(** ** The certificate path *)

Lemma dropSubjectAltName_filter (unhandled exts : list ObjectIdentifier) :
  dropSubjectAltName unhandled exts =
  exts ++ filter (fun e => negb (OID_Equal e oidExtensionSubjectAltName))
                 unhandled.
Proof.
  revert exts; induction unhandled as [| e rest IH]; intros exts; simpl.
  - now rewrite app_nil_r.
  - destruct (OID_Equal e oidExtensionSubjectAltName); simpl.
    + apply IH.
    + rewrite IH, <- app_assoc. reflexivity.
Qed.

(** With trusted roots and no nil pointer among the certificates,
    [validateAKCert] hands [Verify] the certificate
    without the subject-alternative-name identifier and then decodes the
    instance information. *)
Lemma validateAKCert_roots (akCert : Certificate) (opts : VerifyOpts) :
  isEmpty (TrustedRootCerts opts) = false ->
  noNilCertificate opts = true ->
  validateAKCert akCert opts =
  verr <- Verify (withoutSubjectAltName akCert) (x509OptsOf opts) ;;
  match verr with
  | Some err =>
      ret (withoutSubjectAltName akCert,
           (None, Some (Errorf_v
              "certificate did not chain to a trusted root: " err)))
  | None =>
      r <- getInstanceInfo (x509.Extensions akCert) ;;
      match r with
      | (_, Some err) =>
          ret (withoutSubjectAltName akCert,
               (None, Some (Errorf_v "error getting instance info: " err)))
      | (instanceInfo, None) =>
          ret (withoutSubjectAltName akCert,
               (Some (platformMachineState instanceInfo), None))
      end
  end.
Proof.
  intros Hroots Hcerts. unfold validateAKCert, withoutSubjectAltName.
  rewrite Hroots. cbv zeta. rewrite dropSubjectAltName_filter.
  unfold noNilCertificate in Hcerts. apply andb_true_iff in Hcerts.
  destruct Hcerts as [Hr Hi].
  rewrite (makePool_present _ Hr), bind_ret.
  rewrite (makePool_present _ Hi), bind_ret. reflexivity.
Qed.

Lemma filter_nil_iff {A : Type} (p : A -> bool) (l : list A) :
  filter p l = [] <-> forall x, In x l -> p x = false.
Proof.
  induction l as [| x l IH]; simpl.
  - split; [intros _ y [] | reflexivity].
  - destruct (p x) eqn:E; split.
    + discriminate.
    + intros H. specialize (H x (or_introl eq_refl)). congruence.
    + intros H y [<- | Hy]; [exact E | now apply IH].
    + intros H. apply IH. intros y Hy. apply H. now right.
Qed.

(** What [Verify] answers for a certificate that still lists an unhandled
    critical extension: an error, and the critical-extension error when the
    raw contents are there. *)
Lemma Verify_unhandled (c : Certificate) (o : VerifyOptions) :
  isEmpty (x509.UnhandledCriticalExtensions c) = false ->
  exists err,
    Verify c o = call (VerifyCall c o) (Some err)
    /\ (hasRawContents c o = true -> err = UnhandledCriticalExtension).
Proof.
  intros Hext. unfold Verify, hasRawContents. rewrite Hext.
  destruct (isEmpty (x509.Raw c)).
  - exists errNotParsed. split; [reflexivity | discriminate].
  - destruct (existsb _ (x509.Intermediates o)).
    + exists errNotParsed. split; [reflexivity | discriminate].
    + exists UnhandledCriticalExtension. split; reflexivity.
Qed.

(** What [Verify] answers for a certificate with no unhandled critical
    extension left. *)
Lemma Verify_handled (c : Certificate) (o : VerifyOptions) :
  x509.UnhandledCriticalExtensions c = [] ->
  Verify c o =
  call (VerifyCall c o)
       (if hasRawContents c o then ext_buildChains c o else Some errNotParsed).
Proof.
  intros Hext. unfold Verify, hasRawContents. rewrite Hext.
  destruct (isEmpty (x509.Raw c)); [reflexivity |].
  destruct (existsb _ (x509.Intermediates o)); reflexivity.
Qed.

(** C8. With trusted roots configured, the list of unhandled critical
    extensions that [validateAKCert] leaves on the certificate is the
    original list without the subject-alternative-name identifier, every
    other entry kept in place.  When no configured certificate is a nil
    pointer, this is the certificate that [Verify] receives as the first
    call.  When the subject-alternative-name identifier was the only entry,
    [Verify] does not stop at the critical-extension check: for a parsed
    certificate and parsed intermediates it answers what chain building
    answers, so a certificate that chains passes.  When any other identifier
    was listed, [Verify] returns an error, the critical-extension error for
    a parsed certificate and parsed intermediates, and [validateAKCert]
    fails with the chain error made from it.  With a nil pointer among the
    configured certificates there is no chain verification: [validateAKCert]
    panics while it builds the pools. *)
Theorem C8_only_subject_alt_name_is_dropped (akCert : Certificate)
    (opts : VerifyOpts) :
  isEmpty (TrustedRootCerts opts) = false ->
  dropSubjectAltName (x509.UnhandledCriticalExtensions akCert) [] =
    filter (fun e => negb (OID_Equal e oidExtensionSubjectAltName))
           (x509.UnhandledCriticalExtensions akCert)
  /\ (forall e,
        In e (x509.UnhandledCriticalExtensions (withoutSubjectAltName akCert))
        <-> In e (x509.UnhandledCriticalExtensions akCert)
            /\ e <> oidExtensionSubjectAltName)
  /\ (noNilCertificate opts = true ->
      exists rest,
        fst (validateAKCert akCert opts) =
        VerifyCall (withoutSubjectAltName akCert) (x509OptsOf opts) :: rest)
  /\ (noNilCertificate opts = true ->
      (forall e, In e (x509.UnhandledCriticalExtensions akCert) ->
                 e = oidExtensionSubjectAltName) ->
      x509.UnhandledCriticalExtensions (withoutSubjectAltName akCert) = []
      /\ Verify (withoutSubjectAltName akCert) (x509OptsOf opts) =
         ([VerifyCall (withoutSubjectAltName akCert) (x509OptsOf opts)],
          Done (if hasRawContents (withoutSubjectAltName akCert)
                                  (x509OptsOf opts)
                then ext_buildChains (withoutSubjectAltName akCert)
                                     (x509OptsOf opts)
                else Some errNotParsed))
      /\ (hasRawContents (withoutSubjectAltName akCert) (x509OptsOf opts)
          = true ->
          ext_buildChains (withoutSubjectAltName akCert) (x509OptsOf opts)
          = None ->
          validateAKCert akCert opts =
          after [VerifyCall (withoutSubjectAltName akCert) (x509OptsOf opts)]
            (r <- getInstanceInfo (x509.Extensions akCert) ;;
             match r with
             | (_, Some err) =>
                 ret (withoutSubjectAltName akCert,
                      (None, Some (Errorf_v
                         "error getting instance info: " err)))
             | (instanceInfo, None) =>
                 ret (withoutSubjectAltName akCert,
                      (Some (platformMachineState instanceInfo), None))
             end)))
  /\ (noNilCertificate opts = true ->
      (exists e, In e (x509.UnhandledCriticalExtensions akCert)
                 /\ e <> oidExtensionSubjectAltName) ->
      exists err,
        snd (Verify (withoutSubjectAltName akCert) (x509OptsOf opts)) =
          Done (Some err)
        /\ (hasRawContents (withoutSubjectAltName akCert) (x509OptsOf opts)
            = true ->
            err = UnhandledCriticalExtension)
        /\ validateAKCert akCert opts =
           ([VerifyCall (withoutSubjectAltName akCert) (x509OptsOf opts)],
            Done (withoutSubjectAltName akCert,
                  (None, Some (Errorf_v
                     "certificate did not chain to a trusted root: " err)))))
  /\ (noNilCertificate opts = false ->
      validateAKCert akCert opts =
      ([], Panicked "adding nil Certificate to CertPool")).
Proof.
  intros Hroots.
  assert (Hmem : forall e,
    In e (x509.UnhandledCriticalExtensions (withoutSubjectAltName akCert))
    <-> In e (x509.UnhandledCriticalExtensions akCert)
        /\ e <> oidExtensionSubjectAltName).
  { intros e. unfold withoutSubjectAltName. simpl. rewrite filter_In.
    rewrite negb_true_iff, <- not_true_iff_false, OID_Equal_eq. tauto. }
  split; [| split; [| split; [| split; [| split]]]].
  - now rewrite dropSubjectAltName_filter.
  - exact Hmem.
  - intros Hcerts. rewrite (validateAKCert_roots _ _ Hroots Hcerts).
    unfold Verify. rewrite bind_call, fst_after. eexists. reflexivity.
  - intros Hcerts Honly.
    assert (Hnil : x509.UnhandledCriticalExtensions
                     (withoutSubjectAltName akCert) = []).
    { unfold withoutSubjectAltName. simpl. apply filter_nil_iff.
      intros e He. rewrite (Honly e He). now rewrite OID_Equal_refl. }
    split; [exact Hnil |]. split.
    + now rewrite (Verify_handled _ _ Hnil).
    + intros Hraw Hchain. rewrite (validateAKCert_roots _ _ Hroots Hcerts).
      rewrite (Verify_handled _ _ Hnil), Hraw, bind_call, Hchain.
      reflexivity.
  - intros Hcerts [e [He Hne]].
    destruct (Verify_unhandled (withoutSubjectAltName akCert)
                (x509OptsOf opts)) as [err [Hv Herr]].
    { destruct (x509.UnhandledCriticalExtensions
                  (withoutSubjectAltName akCert)) as [| x l] eqn:E;
        [| reflexivity].
      exfalso. apply (proj2 (Hmem e)). now split. }
    exists err. split; [now rewrite Hv | split; [exact Herr |]].
    rewrite (validateAKCert_roots _ _ Hroots Hcerts), Hv, bind_call.
    reflexivity.
  - intros Hcerts. now apply validateAKCert_nil_certificate.
Qed.

(** ** Identity failures *)

Lemma Verify_call (c : Certificate) (o : VerifyOptions) :
  Verify c o =
  call (VerifyCall c o)
       match snd (Verify c o) with
       | Done verr => verr
       | Panicked _ => None
       end.
Proof. reflexivity. Qed.

Lemma Verify_returns (c : Certificate) (o : VerifyOptions) :
  exists verr, Verify c o = call (VerifyCall c o) verr.
Proof. eexists. reflexivity. Qed.


(** ** The first accepted candidate *)

(** With a trusted key, [VerifyAttestation] examines the candidates up to
    the first one that is not rejected and merges that candidate's
    fragments into the seed. *)
Lemma VerifyAttestation_first_accepted (attestation : pb.Attestation)
    (opts : VerifyOpts) (t : list event) (seed : option MachineState)
    (akPubKey : PublicKey) (pre : list tpmpb.Quote) (quote : tpmpb.Quote)
    (post : list tpmpb.Quote) (celState state : option MachineState) :
  validateOpts opts = None ->
  establishTrust attestation opts = (t, Done (inr (seed, akPubKey))) ->
  supportedQuotes (pb.GetQuotes attestation) = pre ++ quote :: post ->
  forallb (rejected attestation opts akPubKey) pre = true ->
  attempt attestation opts akPubKey quote = inr (celState, state) ->
  VerifyAttestation attestation opts =
  after (t ++ flat_map (attemptCalls attestation opts akPubKey)
                       (pre ++ [quote]))
        (mergeAndReturn seed celState state).
Proof.
  intros Hopts Hid Hcands Hpre Hq.
  rewrite (VerifyAttestation_trusted _ _ _ _ _ Hopts Hid), Hcands.
  rewrite (verifyQuotes_first_accepted _ _ _ _ _ _ _ _ _ None Hpre Hq).
  now rewrite after_app.
Qed.

(** When trust establishment yields a seed, the result is the seed merged
    with the canonical-log fragment and then the primary-log fragment of the
    first accepted candidate. *)
Lemma VerifyAttestation_merges_first_accepted (attestation : pb.Attestation)
    (opts : VerifyOpts) (t : list event) (seed : MachineState)
    (akPubKey : PublicKey) (pre : list tpmpb.Quote) (quote : tpmpb.Quote)
    (post : list tpmpb.Quote) (celState state : option MachineState) :
  validateOpts opts = None ->
  establishTrust attestation opts = (t, Done (inr (Some seed, akPubKey))) ->
  supportedQuotes (pb.GetQuotes attestation) = pre ++ quote :: post ->
  forallb (rejected attestation opts akPubKey) pre = true ->
  attempt attestation opts akPubKey quote = inr (celState, state) ->
  VerifyAttestation attestation opts =
  (t ++ flat_map (attemptCalls attestation opts akPubKey) (pre ++ [quote]),
   Done (Some (mergedState seed celState state), None)).
Proof.
  intros Hopts Hid Hcands Hpre Hq.
  rewrite (VerifyAttestation_first_accepted _ _ _ _ _ _ _ _ _ _
             Hopts Hid Hcands Hpre Hq).
  rewrite mergeAndReturn_seed. unfold after, ret. simpl.
  now rewrite app_nil_r.
Qed.

(** The weak-algorithm policy is the last check on a candidate: a SHA-1
    candidate that verifies and replays is rejected without the opt-in and
    accepted with it, and a candidate whose log does not replay records the
    replay error whatever the flag says. *)
Lemma attempt_legacy_policy (attestation : pb.Attestation) (opts : VerifyOpts)
    (akPubKey : PublicKey) (quote : tpmpb.Quote) :
  ext_VerifyQuote quote akPubKey (Nonce opts) = None ->
  (forall state celState,
     quoteAlg quote = AlgSHA1 ->
     ext_parsePCClientEventLog (pb.GetEventLog attestation)
                               (tpmpb.GetPcrs quote) = inr state ->
     ext_parseCanonicalEventLog (pb.GetCanonicalEventLog attestation)
                                (tpmpb.GetPcrs quote) = inr celState ->
     attempt attestation opts akPubKey quote =
     if AllowSHA1 opts then inr (celState, state) else inl errSHA1NotAllowed)
  /\ (forall err,
        ext_parsePCClientEventLog (pb.GetEventLog attestation)
                                  (tpmpb.GetPcrs quote) = inl err ->
        attempt attestation opts akPubKey quote =
        inl (wrapError "failed to validate the PCClient event log: " err))
  /\ (forall state err,
        ext_parsePCClientEventLog (pb.GetEventLog attestation)
                                  (tpmpb.GetPcrs quote) = inr state ->
        ext_parseCanonicalEventLog (pb.GetCanonicalEventLog attestation)
                                   (tpmpb.GetPcrs quote) = inl err ->
        attempt attestation opts akPubKey quote =
        inl (wrapError "failed to validate the Canonical event log: " err)).
Proof.
  intros Hquote. unfold attempt. rewrite Hquote. repeat split.
  - intros state celState Halg Hlog Hcel. rewrite Hlog, Hcel, Halg.
    destruct (AllowSHA1 opts); reflexivity.
  - intros err Hlog. now rewrite Hlog.
  - intros state err Hlog Hcel. now rewrite Hlog, Hcel.
Qed.

(** ** A certificate checked against trusted keys *)

(** With no trusted root, a certificate whose key equals a trusted key is
    trusted, and the seed that [validateAKCert] hands back is nil. *)
Lemma establishTrust_certificate_trusted_key (attestation : pb.Attestation)
    (opts : VerifyOpts) (akCert : Certificate)
    (certs : list (option Certificate))
    (akPubKey : PublicKey) :
  isEmpty (pb.GetAkCert attestation) = false ->
  isEmpty (TrustedRootCerts opts) = true ->
  ext_ParseCertificate (pb.GetAkCert attestation) = inr akCert ->
  ext_parseCerts (pb.IntermediateCerts attestation) = inr certs ->
  x509.PublicKey akCert = Some akPubKey ->
  existsb (ext_PubKeysEqual akPubKey) (TrustedAKs opts) = true ->
  exists t,
    establishTrust attestation opts = (t, Done (inr (None, akPubKey))).
Proof.
  intros Hcert Hroots Hparse Hints Hkey Htrusted.
  unfold establishTrust, ParseCertificate, parseCerts, validateAKCert.
  rewrite Hcert, bind_call, Hparse, bind_call, Hints.
  cbn [TrustedRootCerts setIntermediateCerts]. rewrite Hroots, Hkey.
  unfold assertPublicKey. rewrite bind_ret.
  destruct (validateAKPub_trusted akPubKey
              (setIntermediateCerts opts (IntermediateCerts opts ++ certs))
              Htrusted) as [t Ht].
  rewrite Ht, bind_pair, bind_after, bind_ret. cbv beta iota.
  rewrite Hkey, bind_ret. eexists. reflexivity.
Qed.

(** C1, what the code does.  A bundle carries a certificate, the options
    name trusted keys and no root, the certificate's key equals a trusted
    key, and some candidate is accepted.  [validateAKCert] has returned a nil
    machine state, so the merge of line 148 panics: the call returns neither
    a machine state nor an error. *)
Theorem C1_certificate_with_trusted_keys_panics
    (attestation : pb.Attestation) (opts : VerifyOpts)
    (akCert : Certificate) (certs : list (option Certificate))
    (akPubKey : PublicKey)
    (pre : list tpmpb.Quote) (quote : tpmpb.Quote) (post : list tpmpb.Quote)
    (celState state : option MachineState) :
  isEmpty (TrustedAKs opts) = false ->
  isEmpty (TrustedRootCerts opts) = true ->
  isEmpty (pb.GetAkCert attestation) = false ->
  ext_ParseCertificate (pb.GetAkCert attestation) = inr akCert ->
  ext_parseCerts (pb.IntermediateCerts attestation) = inr certs ->
  x509.PublicKey akCert = Some akPubKey ->
  existsb (ext_PubKeysEqual akPubKey) (TrustedAKs opts) = true ->
  supportedQuotes (pb.GetQuotes attestation) = pre ++ quote :: post ->
  forallb (rejected attestation opts akPubKey) pre = true ->
  attempt attestation opts akPubKey quote = inr (celState, state) ->
  snd (VerifyAttestation attestation opts) =
  Panicked "invalid value: merging into nil message".
Proof.
  intros Hkeys Hroots Hcert Hparse Hints Hkey Htrusted Hcands Hpre Hq.
  assert (Hopts : validateOpts opts = None).
  { unfold validateOpts. now rewrite Hkeys, Hroots. }
  destruct (establishTrust_certificate_trusted_key _ _ _ _ _
              Hcert Hroots Hparse Hints Hkey Htrusted) as [t Hid].
  rewrite (VerifyAttestation_first_accepted _ _ _ _ _ _ _ _ _ _
             Hopts Hid Hcands Hpre Hq).
  now rewrite mergeAndReturn_nil.
Qed.

(** The weak-algorithm policy inside the loop.  A candidate offered for
    SHA-1 whose quote verifies and whose two logs replay has gone through
    the three calls when the policy is applied.  Without the opt-in it is
    rejected with the SHA-1 error and the loop goes on with the remaining
    candidates.  With the opt-in it is accepted: the loop leaves for the
    merge with this candidate's fragments and looks at no other candidate;
    with a seed the loop returns the merged state, and with the nil seed it
    panics in the merge.  A candidate whose primary or canonical log does
    not replay records that replay error, whatever its algorithm and
    whatever the flag. *)
Lemma verifyQuotes_legacy_policy (attestation : pb.Attestation)
    (opts : VerifyOpts) (akPubKey : PublicKey)
    (machineState : option MachineState) (quote : tpmpb.Quote)
    (rest : list tpmpb.Quote) (lastErr : option error) :
  ext_VerifyQuote quote akPubKey (Nonce opts) = None ->
  (forall state celState,
     quoteAlg quote = AlgSHA1 ->
     ext_parsePCClientEventLog (pb.GetEventLog attestation)
                               (tpmpb.GetPcrs quote) = inr state ->
     ext_parseCanonicalEventLog (pb.GetCanonicalEventLog attestation)
                                (tpmpb.GetPcrs quote) = inr celState ->
     attemptCalls attestation opts akPubKey quote =
       [VerifyQuoteCall quote akPubKey (Nonce opts);
        parsePCClientEventLogCall (pb.GetEventLog attestation)
                                  (tpmpb.GetPcrs quote);
        parseCanonicalEventLogCall (pb.GetCanonicalEventLog attestation)
                                   (tpmpb.GetPcrs quote)]
     /\ (AllowSHA1 opts = false ->
         attempt attestation opts akPubKey quote = inl errSHA1NotAllowed
         /\ verifyQuotes attestation opts akPubKey machineState
              (quote :: rest) lastErr =
            after (attemptCalls attestation opts akPubKey quote)
              (verifyQuotes attestation opts akPubKey machineState rest
                 (Some errSHA1NotAllowed)))
     /\ (AllowSHA1 opts = true ->
         attempt attestation opts akPubKey quote = inr (celState, state)
         /\ verifyQuotes attestation opts akPubKey machineState
              (quote :: rest) lastErr =
            after (attemptCalls attestation opts akPubKey quote)
              (mergeAndReturn machineState celState state)
         /\ (forall seed, machineState = Some seed ->
               verifyQuotes attestation opts akPubKey machineState
                 (quote :: rest) lastErr =
               (attemptCalls attestation opts akPubKey quote,
                Done (Some (mergedState seed celState state), None)))
         /\ (machineState = None ->
             snd (verifyQuotes attestation opts akPubKey machineState
                    (quote :: rest) lastErr) =
             Panicked "invalid value: merging into nil message")))
  /\ (forall err,
        ext_parsePCClientEventLog (pb.GetEventLog attestation)
                                  (tpmpb.GetPcrs quote) = inl err ->
        verifyQuotes attestation opts akPubKey machineState
          (quote :: rest) lastErr =
        after [VerifyQuoteCall quote akPubKey (Nonce opts);
               parsePCClientEventLogCall (pb.GetEventLog attestation)
                                         (tpmpb.GetPcrs quote)]
          (verifyQuotes attestation opts akPubKey machineState rest
             (Some (wrapError
                "failed to validate the PCClient event log: " err))))
  /\ (forall state err,
        ext_parsePCClientEventLog (pb.GetEventLog attestation)
                                  (tpmpb.GetPcrs quote) = inr state ->
        ext_parseCanonicalEventLog (pb.GetCanonicalEventLog attestation)
                                   (tpmpb.GetPcrs quote) = inl err ->
        verifyQuotes attestation opts akPubKey machineState
          (quote :: rest) lastErr =
        after [VerifyQuoteCall quote akPubKey (Nonce opts);
               parsePCClientEventLogCall (pb.GetEventLog attestation)
                                         (tpmpb.GetPcrs quote);
               parseCanonicalEventLogCall
                 (pb.GetCanonicalEventLog attestation)
                 (tpmpb.GetPcrs quote)]
          (verifyQuotes attestation opts akPubKey machineState rest
             (Some (wrapError
                "failed to validate the Canonical event log: " err)))).
Proof.
  intros Hquote.
  destruct (attempt_legacy_policy attestation opts akPubKey quote Hquote)
    as (Hpolicy & Hlog & Hcel).
  split; [| split].
  - intros state celState Halg Hl Hc.
    specialize (Hpolicy state celState Halg Hl Hc).
    assert (Hcalls : attemptCalls attestation opts akPubKey quote =
       [VerifyQuoteCall quote akPubKey (Nonce opts);
        parsePCClientEventLogCall (pb.GetEventLog attestation)
                                  (tpmpb.GetPcrs quote);
        parseCanonicalEventLogCall (pb.GetCanonicalEventLog attestation)
                                   (tpmpb.GetPcrs quote)]).
    { unfold attemptCalls. now rewrite Hquote, Hl. }
    split; [exact Hcalls |]. split; intros Hflag; rewrite Hflag in Hpolicy.
    + split; [exact Hpolicy |]. now rewrite verifyQuotes_cons, Hpolicy.
    + split; [exact Hpolicy |]. split; [| split].
      * now rewrite verifyQuotes_cons, Hpolicy.
      * intros seed ->. rewrite verifyQuotes_cons, Hpolicy.
        rewrite mergeAndReturn_seed. unfold after, ret. simpl.
        now rewrite app_nil_r.
      * intros ->. rewrite verifyQuotes_cons, Hpolicy, snd_after.
        now rewrite mergeAndReturn_nil.
  - intros err Hl. rewrite verifyQuotes_cons, (Hlog err Hl).
    unfold attemptCalls. now rewrite Hquote, Hl.
  - intros state err Hl Hc. rewrite verifyQuotes_cons, (Hcel state err Hl Hc).
    unfold attemptCalls. now rewrite Hquote, Hl.
Qed.

End Facts.

(** * Further properties of the verifier *)

Section Further.
Context {carriers : Carriers} {ext : Collaborators}.

Local Abbreviation Go := (M event).

(** ** Trusted keys *)

Lemma validateAKPub_run (ak : PublicKey) (opts : VerifyOpts) :
  validateAKPub ak opts =
  (map (PubKeysEqualCall ak) (comparedKeys ak (TrustedAKs opts)),
   Done (if existsb (ext_PubKeysEqual ak) (TrustedAKs opts)
         then None
         else Some (errorString "key not trusted"))).
Proof.
  unfold validateAKPub.
  induction (TrustedAKs opts) as [| t trusted IH];
    cbn [validateAKPub_range comparedKeys existsb map].
  - reflexivity.
  - unfold PubKeysEqual. rewrite bind_call.
    destruct (ext_PubKeysEqual ak t); [reflexivity |].
    rewrite IH. reflexivity.
Qed.

(** X1. [validateAKPub] compares the key with the trusted keys in order and
    stops at the first one that equals it: it accepts the key exactly when
    some trusted key equals it, and otherwise, in particular with no
    trusted key at all, returns "key not trusted" after comparing with
    every one. *)
Theorem X1_validateAKPub_first_match (ak : PublicKey) (opts : VerifyOpts) :
  validateAKPub ak opts =
    (map (PubKeysEqualCall ak) (comparedKeys ak (TrustedAKs opts)),
     Done (if existsb (ext_PubKeysEqual ak) (TrustedAKs opts)
           then None
           else Some (errorString "key not trusted")))
  /\ (snd (validateAKPub ak opts) = Done None <->
      exists t, In t (TrustedAKs opts) /\ ext_PubKeysEqual ak t = true)
  /\ (existsb (ext_PubKeysEqual ak) (TrustedAKs opts) = false ->
      comparedKeys ak (TrustedAKs opts) = TrustedAKs opts).
Proof.
  assert (Hrun : validateAKPub ak opts =
    (map (PubKeysEqualCall ak) (comparedKeys ak (TrustedAKs opts)),
     Done (if existsb (ext_PubKeysEqual ak) (TrustedAKs opts)
           then None
           else Some (errorString "key not trusted")))).
  { apply validateAKPub_run. }
  split; [exact Hrun |]. split.
  - rewrite Hrun. cbn [snd]. rewrite <- existsb_exists.
    destruct (existsb (ext_PubKeysEqual ak) (TrustedAKs opts));
      split; congruence.
  - clear Hrun.
    induction (TrustedAKs opts) as [| t trusted IH]; cbn [existsb comparedKeys].
    + reflexivity.
    + destruct (ext_PubKeysEqual ak t); [discriminate |].
      intros H. now rewrite (IH H).
Qed.

(** ** The candidate ordering, again *)

Lemma find_app_first {A : Type} (p : A -> bool) (l1 l2 : list A) :
  find p (l1 ++ l2) =
  match find p l1 with
  | Some x => Some x
  | None => find p l2
  end.
Proof.
  induction l1 as [| x l1 IH]; simpl; [reflexivity |].
  destruct (p x); [reflexivity | exact IH].
Qed.

Lemma find_orderCandidates (alg : Algorithm) (algs : list Algorithm)
    (quotes : list tpmpb.Quote) :
  find (fun quote => quoteAlg quote =? alg) (orderCandidates algs quotes) =
  if existsb (Z.eqb alg) algs
  then find (fun quote => quoteAlg quote =? alg) quotes
  else None.
Proof.
  induction algs as [| b algs IH]; cbn [orderCandidates flat_map existsb].
  - reflexivity.
  - fold (orderCandidates algs quotes). rewrite find_app_first, IH.
    destruct (find (fun quote => quoteAlg quote =? b) quotes) as [q |] eqn:Hb.
    + destruct (find_alg_some _ _ _ Hb) as [_ Hq]. cbn [find]. rewrite Hq.
      rewrite (Z.eqb_sym alg b).
      destruct (b =? alg) eqn:E; cbn [orb]; [| reflexivity].
      apply Z.eqb_eq in E. rewrite <- E, Hb. reflexivity.
    + cbn [find]. destruct (alg =? b) eqn:E; cbn [orb]; [| reflexivity].
      apply Z.eqb_eq in E. subst b. rewrite Hb.
      now destruct (existsb (Z.eqb alg) algs).
Qed.

Lemma flat_map_ext_In {A B : Type} (f g : A -> list B) (l : list A) :
  (forall a, In a l -> f a = g a) -> flat_map f l = flat_map g l.
Proof.
  induction l as [| a l IH]; intros H; simpl; [reflexivity |].
  rewrite (H a (or_introl eq_refl)), IH; [reflexivity |].
  intros b Hb. apply H. now right.
Qed.

Lemma orderCandidates_length (algs : list Algorithm)
    (quotes : list tpmpb.Quote) :
  (List.length (orderCandidates algs quotes) <= List.length algs)%nat.
Proof.
  induction algs as [| a algs IH]; cbn [orderCandidates flat_map].
  - apply le_n.
  - fold (orderCandidates algs quotes). rewrite length_app.
    destruct (find _ quotes); simpl; lia.
Qed.

(** X2. Ordering the candidates a second time changes nothing, there are
    never more candidates than entries in the preference list, and every
    candidate is one of the quotes offered; in particular no quote gives no
    candidate. *)
Theorem X2_supportedQuotes_idempotent (quotes : list tpmpb.Quote) :
  supportedQuotes (supportedQuotes quotes) = supportedQuotes quotes
  /\ (List.length (supportedQuotes quotes) <= List.length pcrHashAlgs)%nat
  /\ incl (supportedQuotes quotes) quotes
  /\ supportedQuotes [] = [].
Proof.
  split; [| split; [| split]].
  - rewrite !supportedQuotes_spec. unfold orderCandidates at 1.
    apply flat_map_ext_In. intros alg Halg.
    fold (orderCandidates pcrHashAlgs quotes).
    rewrite find_orderCandidates.
    assert (H : existsb (Z.eqb alg) pcrHashAlgs = true).
    { apply existsb_exists. exists alg. split; [exact Halg |].
      apply Z.eqb_refl. }
    now rewrite H.
  - rewrite supportedQuotes_spec. apply orderCandidates_length.
  - intros q Hq. rewrite supportedQuotes_spec in Hq.
    apply orderCandidates_In in Hq. destruct Hq as [alg [_ Hf]].
    now apply find_alg_some in Hf.
  - rewrite supportedQuotes_spec. unfold orderCandidates.
    induction pcrHashAlgs as [| a l IH]; [reflexivity | exact IH].
Qed.

(** ** The instance information, again *)

Lemma toUint64_small (z : Z) :
  fitsInt64 z = true -> 0 <= z -> toUint64 z = z.
Proof.
  unfold fitsInt64, toUint64. rewrite andb_true_iff, Z.leb_le, Z.ltb_lt.
  intros [_ Hhi] Hlo. apply Z.mod_small. lia.
Qed.

Lemma carriesInstanceInfo_fits (extensions : list pkix.Extension)
    (a : derInstanceInfo) :
  carriesInstanceInfo extensions a ->
  fitsInt64 (asn1ProjectNumber a) = true
  /\ fitsInt64 (asn1InstanceID a) = true.
Proof.
  intros (_ & _ & Hfit). unfold asn1Integers in Hfit. cbn [forallb] in Hfit.
  apply andb_true_iff in Hfit. destruct Hfit as [Hp Hfit].
  apply andb_true_iff in Hfit. now destruct Hfit as [Hi _].
Qed.

(** X3. For a well-formed extension whose production flag is true,
    [getInstanceInfo] returns the record with the zone, the project id and
    the instance name as decoded and the project number and the instance id
    unchanged by the conversion to unsigned.  The flag is true only when
    the security-properties structure is present and carries it. *)
Theorem X3_getInstanceInfo_production (extensions : list pkix.Extension)
    (a : derInstanceInfo) :
  wellFormedInstanceInfo extensions a ->
  IsProduction (SecurityProperties (decoded a)) = true ->
  getInstanceInfo extensions =
    ([UnmarshalCall (findRawInfo extensions)],
     Done (Some {| pb.Zone := asn1Zone a;
                   pb.ProjectId := asn1ProjectID a;
                   pb.ProjectNumber := asn1ProjectNumber a;
                   pb.InstanceName := asn1InstanceName a;
                   pb.InstanceId := asn1InstanceID a |},
           None))
  /\ exists sp, asn1SecurityProperties a = Some sp
                /\ asn1IsProduction sp = Some true.
Proof.
  intros (Ha & Hp & Hi & Hv) Hprod.
  destruct (carriesInstanceInfo_fits _ _ Ha) as [Hfp Hfi].
  split.
  - rewrite (getInstanceInfo_decoded _ _ Ha). cbv zeta. rewrite Hprod.
    replace ((ProjectNumber (decoded a) <? 0) || (InstanceID (decoded a) <? 0)
             || (SecurityVersion (SecurityProperties (decoded a)) <? 0))
      with false
      by (symmetry; rewrite !orb_false_iff, !Z.ltb_ge; tauto).
    cbn [negb decoded storeInstanceInfo Zone ProjectID ProjectNumber
         InstanceName InstanceID] in *.
    rewrite (toUint64_small _ Hfp Hp), (toUint64_small _ Hfi Hi).
    reflexivity.
  - unfold decoded, storeInstanceInfo, storeSecurityProperties in Hprod.
    cbn in Hprod.
    destruct (asn1SecurityProperties a) as [sp |]; [| discriminate].
    exists sp. split; [reflexivity |]. cbn in Hprod.
    destruct (asn1IsProduction sp) as [[|] |]; congruence.
Qed.

(** X4. Only the first extension with the instance-information identifier
    counts.  What follows it is never looked at, and when its value is
    empty [getInstanceInfo] returns (nil, nil) without decoding anything,
    also when a later extension with the same identifier has a value. *)
Theorem X4_first_instance_extension_wins
    (pre : list pkix.Extension) (e : pkix.Extension)
    (post : list pkix.Extension) :
  (forall x, In x pre -> pkix.Id x <> cloudComputeInstanceIdentifierOID) ->
  pkix.Id e = cloudComputeInstanceIdentifierOID ->
  findRawInfo (pre ++ e :: post) = pkix.Value e
  /\ getInstanceInfo (pre ++ e :: post) = getInstanceInfo [e]
  /\ (pkix.Value e = [] ->
      getInstanceInfo (pre ++ e :: post) = ([], Done (None, None))).
Proof.
  intros Hpre He.
  assert (Hraw : findRawInfo (pre ++ e :: post) = pkix.Value e).
  { induction pre as [| x pre IH]; cbn [app findRawInfo].
    - now rewrite He, OID_Equal_refl.
    - destruct (OID_Equal (pkix.Id x) cloudComputeInstanceIdentifierOID) eqn:E.
      + apply OID_Equal_eq in E. exfalso. apply (Hpre x); auto. now left.
      + apply IH. intros y Hy. apply Hpre. now right. }
  assert (Hone : findRawInfo [e] = pkix.Value e).
  { cbn [findRawInfo]. now rewrite He, OID_Equal_refl. }
  split; [exact Hraw |]. split.
  - unfold getInstanceInfo. now rewrite Hraw, Hone.
  - intros Hempty. unfold getInstanceInfo. now rewrite Hraw, Hempty.
Qed.

(** X5. [getInstanceInfo] always returns, after at most the one call that
    decodes the value, and never returns an identity together with an
    error.  An identity is returned only for a well-formed extension whose
    production flag is true, and its two numbers are not negative. *)
Theorem X5_getInstanceInfo_outcomes (extensions : list pkix.Extension) :
  exists t i e,
    getInstanceInfo extensions = (t, Done (i, e))
    /\ (t = [] \/ t = [UnmarshalCall (findRawInfo extensions)])
    /\ (forall info, i = Some info ->
          e = None
          /\ 0 <= pb.ProjectNumber info /\ 0 <= pb.InstanceId info
          /\ exists a,
               wellFormedInstanceInfo extensions a
               /\ IsProduction (SecurityProperties (decoded a)) = true).
Proof.
  destruct (isEmpty (findRawInfo extensions)) eqn:Hraw.
  { exists [], None, None. unfold getInstanceInfo. rewrite Hraw.
    split; [reflexivity |]. split; [now left |]. discriminate. }
  destruct (ext_parseDER (findRawInfo extensions)) as [err | a] eqn:Hder.
  { eexists _, None, _. unfold getInstanceInfo, Unmarshal.
    rewrite Hraw, Hder, bind_call.
    split; [reflexivity |]. split; [now right |]. discriminate. }
  destruct (forallb fitsInt64 (asn1Integers a)) eqn:Hfit.
  2:{ eexists _, None, _. unfold getInstanceInfo, Unmarshal.
      rewrite Hraw, Hder, Hfit, bind_call.
      split; [reflexivity |]. split; [now right |]. discriminate. }
  assert (Ha : carriesInstanceInfo extensions a) by (repeat split; assumption).
  rewrite (getInstanceInfo_decoded _ _ Ha). cbv zeta.
  destruct ((ProjectNumber (decoded a) <? 0) || (InstanceID (decoded a) <? 0)
            || (SecurityVersion (SecurityProperties (decoded a)) <? 0))
    eqn:Hneg.
  { eexists _, None, _. split; [reflexivity |]. split; [now right |].
    discriminate. }
  rewrite !orb_false_iff, !Z.ltb_ge in Hneg. destruct Hneg as [[Hp Hi] Hv].
  destruct (IsProduction (SecurityProperties (decoded a))) eqn:Hprod.
  2:{ eexists _, None, _. split; [reflexivity |]. split; [now right |].
      discriminate. }
  eexists _, _, _. split; [reflexivity |]. split; [now right |].
  intros info Hinfo. injection Hinfo as <-. split; [reflexivity |].
  destruct (carriesInstanceInfo_fits _ _ Ha) as [Hfp Hfi].
  cbn [pb.ProjectNumber pb.InstanceId].
  cbn [decoded storeInstanceInfo ProjectNumber InstanceID] in *.
  rewrite (toUint64_small _ Hfp Hp), (toUint64_small _ Hfi Hi).
  split; [exact Hp |]. split; [exact Hi |].
  exists a. split; [| exact Hprod]. repeat split; assumption.
Qed.

(** ** The two ways of trusting a certificate *)

Lemma getInstanceInfo_returns (extensions : list pkix.Extension) :
  exists t i e,
    getInstanceInfo extensions = (t, Done (i, e))
    /\ (t = [] \/ t = [UnmarshalCall (findRawInfo extensions)]).
Proof.
  unfold getInstanceInfo, Unmarshal.
  destruct (isEmpty (findRawInfo extensions)).
  { exists [], None, None. split; [reflexivity | now left]. }
  rewrite bind_call.
  destruct (ext_parseDER (findRawInfo extensions)) as [err | a].
  { eexists _, _, _. split; [reflexivity | now right]. }
  destruct (forallb fitsInt64 (asn1Integers a)).
  2:{ eexists _, _, _. split; [reflexivity | now right]. }
  cbv beta iota.
  destruct (_ || _); [eexists _, _, _; split; [reflexivity | now right] |].
  destruct (negb _); eexists _, _, _; (split; [reflexivity | now right]).
Qed.

Lemma validateAKCert_trusted_keys (akCert : Certificate) (opts : VerifyOpts) :
  isEmpty (TrustedRootCerts opts) = true ->
  validateAKCert akCert opts =
  match x509.PublicKey akCert with
  | Some k =>
      (map (PubKeysEqualCall k) (comparedKeys k (TrustedAKs opts)),
       Done (akCert,
             (None, if existsb (ext_PubKeysEqual k) (TrustedAKs opts)
                    then None
                    else Some (errorString "key not trusted"))))
  | None =>
      panic "interface conversion: interface is nil, not crypto.PublicKey"
  end.
Proof.
  intros Hroots. unfold validateAKCert, assertPublicKey. rewrite Hroots.
  destruct (x509.PublicKey akCert) as [k |]; [| reflexivity].
  rewrite bind_ret, validateAKPub_run, bind_pair.
  unfold after, ret. simpl. now rewrite app_nil_r.
Qed.

Lemma map_PubKeysEqualCall_keys (k : PublicKey) (l : list PublicKey) :
  forallb isKeyComparison (map (PubKeysEqualCall k) l) = true.
Proof. induction l as [| x l IH]; [reflexivity | exact IH]. Qed.

(** X6. The two trust mechanisms do not mix inside [validateAKCert].  With
    no trusted root it only compares the certificate's key with the trusted
    keys: no chain is built, the instance extension is not decoded, the
    certificate is left as it was and the machine state it returns is nil.
    With a trusted root it never compares keys: whether the certificate is
    accepted does not depend on [TrustedAKs]. *)
Theorem X6_validateAKCert_one_mechanism (akCert : Certificate)
    (opts : VerifyOpts) :
  (isEmpty (TrustedRootCerts opts) = true ->
   forallb isKeyComparison (fst (validateAKCert akCert opts)) = true
   /\ (forall c ms e,
         snd (validateAKCert akCert opts) = Done (c, (ms, e)) ->
         c = akCert /\ ms = None))
  /\ (isEmpty (TrustedRootCerts opts) = false ->
      existsb isKeyComparison (fst (validateAKCert akCert opts)) = false
      /\ forall keys,
           validateAKCert akCert
             {| Nonce := Nonce opts; TrustedAKs := keys;
                AllowSHA1 := AllowSHA1 opts;
                TrustedRootCerts := TrustedRootCerts opts;
                IntermediateCerts := IntermediateCerts opts |} =
           validateAKCert akCert opts).
Proof.
  split; intros Hroots.
  - rewrite (validateAKCert_trusted_keys _ _ Hroots).
    destruct (x509.PublicKey akCert) as [k |].
    + split; [apply map_PubKeysEqualCall_keys |].
      intros c ms e H. cbn [snd] in H. injection H as <- <- _. now split.
    + split; [reflexivity | discriminate].
  - split.
    + destruct (noNilCertificate opts) eqn:Hcerts;
        [| now rewrite (validateAKCert_nil_certificate _ _ Hroots Hcerts)].
      rewrite (validateAKCert_roots _ _ Hroots Hcerts).
      destruct (Verify_returns (withoutSubjectAltName akCert)
                  (x509OptsOf opts)) as [verr ->].
      rewrite bind_call, fst_after.
      destruct verr; [reflexivity |].
      destruct (getInstanceInfo_returns (x509.Extensions akCert))
        as (t & i & e & Hrun & Ht).
      rewrite Hrun, bind_pair, fst_after.
      destruct Ht as [-> | ->]; destruct e; reflexivity.
    + intros keys. unfold validateAKCert. cbn [TrustedRootCerts].
      now rewrite Hroots.
Qed.

(** ** What a call can return *)

Lemma attempt_accepted (attestation : pb.Attestation) (opts : VerifyOpts)
    (akPubKey : PublicKey) (quote : tpmpb.Quote)
    (celState state : option MachineState) :
  attempt attestation opts akPubKey quote = inr (celState, state) ->
  ext_VerifyQuote quote akPubKey (Nonce opts) = None
  /\ ext_parsePCClientEventLog (pb.GetEventLog attestation)
       (tpmpb.GetPcrs quote) = inr state
  /\ ext_parseCanonicalEventLog (pb.GetCanonicalEventLog attestation)
       (tpmpb.GetPcrs quote) = inr celState
  /\ (AllowSHA1 opts = false -> quoteAlg quote <> AlgSHA1).
Proof.
  unfold attempt.
  destruct (ext_VerifyQuote _ _ _); [discriminate |].
  destruct (ext_parsePCClientEventLog _ _) as [err | st]; [discriminate |].
  destruct (ext_parseCanonicalEventLog _ _) as [err | cel]; [discriminate |].
  destruct (AllowSHA1 opts); cbn [negb andb].
  - intros H. injection H as <- <-. repeat split. discriminate.
  - destruct (quoteAlg quote =? AlgSHA1) eqn:E; [discriminate |].
    intros H. injection H as <- <-. repeat split.
    intros _. now apply Z.eqb_neq.
Qed.

(** The loop ends in one of three ways: with an error, with the seed merged
    with the fragments of the first accepted candidate, or, when the seed
    is nil, with the panic of the merge at that candidate. *)
Lemma verifyQuotes_outcome (attestation : pb.Attestation) (opts : VerifyOpts)
    (akPubKey : PublicKey) (machineState : option MachineState)
    (quotes : list tpmpb.Quote) :
  forall lastErr : option error,
  (exists e,
     snd (verifyQuotes attestation opts akPubKey machineState quotes lastErr)
     = Done (None, Some e))
  \/ (exists pre q post celState state,
        quotes = pre ++ q :: post
        /\ forallb (rejected attestation opts akPubKey) pre = true
        /\ attempt attestation opts akPubKey q = inr (celState, state)
        /\ snd (verifyQuotes attestation opts akPubKey machineState quotes
                  lastErr) =
           match machineState with
           | Some seed => Done (Some (mergedState seed celState state), None)
           | None => Panicked "invalid value: merging into nil message"
           end).
Proof.
  induction quotes as [| q quotes IH]; intros lastErr.
  - left. rewrite verifyQuotes_nil. eexists. reflexivity.
  - rewrite verifyQuotes_cons, snd_after.
    destruct (attempt attestation opts akPubKey q) as [e | [cel st]] eqn:Hq.
    + destruct (IH (Some e)) as [Herr | Hacc]; [now left |].
      right. destruct Hacc as (pre & q' & post & cel & st & -> & Hpre & Hq' & H).
      exists (q :: pre), q', post, cel, st. split; [reflexivity |].
      split; [| now split].
      cbn [forallb]. unfold rejected at 1. now rewrite Hq.
    + right. exists [], q, quotes, cel, st.
      split; [reflexivity |]. split; [reflexivity |]. split; [exact Hq |].
      destruct machineState; reflexivity.
Qed.

Lemma validateAKCert_panic (akCert : Certificate) (opts : VerifyOpts)
    (msg : string) :
  snd (validateAKCert akCert opts) = Panicked msg ->
  msg = "interface conversion: interface is nil, not crypto.PublicKey"
  \/ msg = "adding nil Certificate to CertPool".
Proof.
  destruct (isEmpty (TrustedRootCerts opts)) eqn:Hroots.
  - rewrite (validateAKCert_trusted_keys _ _ Hroots).
    destruct (x509.PublicKey akCert); cbn [snd panic]; [discriminate |].
    intros H. left. congruence.
  - destruct (noNilCertificate opts) eqn:Hcerts.
    2:{ rewrite (validateAKCert_nil_certificate _ _ Hroots Hcerts).
        cbn [snd panic]. intros H. right. congruence. }
    rewrite (validateAKCert_roots _ _ Hroots Hcerts).
    destruct (Verify_returns (withoutSubjectAltName akCert)
                (x509OptsOf opts)) as [verr ->].
    rewrite bind_call, snd_after.
    destruct verr; [discriminate |].
    destruct (getInstanceInfo_returns (x509.Extensions akCert))
      as (t & i & e & Hrun & _).
    rewrite Hrun, bind_pair, snd_after. destruct e; discriminate.
Qed.

Lemma establishTrust_panic (attestation : pb.Attestation) (opts : VerifyOpts)
    (msg : string) :
  snd (establishTrust attestation opts) = Panicked msg ->
  msg = "interface conversion: interface is nil, not crypto.PublicKey"
  \/ msg = "adding nil Certificate to CertPool".
Proof.
  unfold establishTrust, DecodePublic, Key, ParseCertificate, parseCerts.
  destruct (isEmpty (pb.GetAkCert attestation)).
  - rewrite bind_call, snd_after.
    destruct (ext_DecodePublic _); [discriminate |].
    rewrite bind_call, snd_after.
    destruct (ext_Key _); [discriminate |].
    rewrite validateAKPub_run, bind_pair, snd_after.
    destruct (existsb _ _); discriminate.
  - rewrite bind_call, snd_after.
    destruct (ext_ParseCertificate _); [discriminate |].
    rewrite bind_call, snd_after.
    destruct (ext_parseCerts _); [discriminate |].
    rewrite snd_bind.
    destruct (snd (validateAKCert _ _)) as [[c' [ms [e |]]] | m] eqn:Hv.
    + discriminate.
    + unfold assertPublicKey.
      destruct (x509.PublicKey c'); cbn; [discriminate |].
      intros H. left. congruence.
    + apply validateAKCert_panic in Hv. cbn. intros H.
      injection H as <-. exact Hv.
Qed.

(** X7. [VerifyAttestation] never returns a machine state together with an
    error, and never returns neither.  It returns a state and no error, or
    an error and no state, or it panics, and then in the merge into a nil
    state, in the type assertion on a certificate without a key, or in
    [makePool] on a nil certificate among the configured roots and
    intermediates or the intermediates of the bundle. *)
Theorem X7_VerifyAttestation_outcomes (attestation : pb.Attestation)
    (opts : VerifyOpts) :
  (exists ms, snd (VerifyAttestation attestation opts) = Done (Some ms, None))
  \/ (exists e, snd (VerifyAttestation attestation opts) = Done (None, Some e))
  \/ snd (VerifyAttestation attestation opts) =
     Panicked "invalid value: merging into nil message"
  \/ snd (VerifyAttestation attestation opts) =
     Panicked "interface conversion: interface is nil, not crypto.PublicKey"
  \/ snd (VerifyAttestation attestation opts) =
     Panicked "adding nil Certificate to CertPool".
Proof.
  rewrite VerifyAttestation_phases.
  destruct (validateOpts opts); [right; left; eexists; reflexivity |].
  rewrite snd_bind.
  destruct (snd (establishTrust attestation opts))
    as [[e | [ms k]] | msg] eqn:Hid.
  - right; left. eexists. reflexivity.
  - destruct (verifyQuotes_outcome attestation opts k ms
                (supportedQuotes (pb.GetQuotes attestation)) None)
      as [[e He] | (pre & q & post & cel & st & _ & _ & _ & H)].
    + right; left. now exists e.
    + rewrite H. destruct ms as [seed |].
      * left. eexists. reflexivity.
      * right; right; left. reflexivity.
  - apply establishTrust_panic in Hid. destruct Hid as [-> | ->].
    + right; right; right; left. reflexivity.
    + right; right; right; right. reflexivity.
Qed.

(** X8. A machine state is returned only after everything was checked: the
    options were accepted, trust in a key was established with a seed, and
    the state is that seed merged with the fragments of a quote of the
    bundle whose signature verified under that key and the configured
    nonce, against whose registers both logs replayed, and which is not a
    SHA-1 quote unless SHA-1 is allowed; every candidate preferred to it
    was rejected. *)
Theorem X8_returned_state_is_verified (attestation : pb.Attestation)
    (opts : VerifyOpts) (ms : MachineState) :
  snd (VerifyAttestation attestation opts) = Done (Some ms, None) ->
  validateOpts opts = None
  /\ exists t seed akPubKey pre q post celState state,
       establishTrust attestation opts =
         (t, Done (inr (Some seed, akPubKey)))
       /\ supportedQuotes (pb.GetQuotes attestation) = pre ++ q :: post
       /\ forallb (rejected attestation opts akPubKey) pre = true
       /\ In q (pb.GetQuotes attestation)
       /\ ext_VerifyQuote q akPubKey (Nonce opts) = None
       /\ ext_parsePCClientEventLog (pb.GetEventLog attestation)
            (tpmpb.GetPcrs q) = inr state
       /\ ext_parseCanonicalEventLog (pb.GetCanonicalEventLog attestation)
            (tpmpb.GetPcrs q) = inr celState
       /\ (AllowSHA1 opts = false -> quoteAlg q <> AlgSHA1)
       /\ ms = mergedState seed celState state.
Proof.
  rewrite VerifyAttestation_phases.
  destruct (validateOpts opts); [discriminate |].
  intros H. split; [reflexivity |]. rewrite snd_bind in H.
  destruct (establishTrust attestation opts) as [t [[e | [seed k]] | msg]]
    eqn:Hid; cbn [snd] in H; try discriminate.
  destruct (verifyQuotes_outcome attestation opts k seed
              (supportedQuotes (pb.GetQuotes attestation)) None)
    as [[e He] | (pre & q & post & cel & st & Hcands & Hpre & Hq & Hrun)].
  { rewrite He in H. discriminate. }
  rewrite Hrun in H. destruct seed as [seed |]; [| discriminate].
  injection H as <-.
  destruct (attempt_accepted _ _ _ _ _ _ Hq) as (Hv & Hl & Hc & Hsha).
  exists t, seed, k, pre, q, post, cel, st.
  repeat (split; [assumption || reflexivity |]).
  split.
  - assert (Hin : In q (supportedQuotes (pb.GetQuotes attestation))).
    { rewrite Hcands. apply in_or_app. right. now left. }
    rewrite supportedQuotes_spec in Hin. apply orderCandidates_In in Hin.
    destruct Hin as [alg [_ Hf]]. now apply find_alg_some in Hf.
  - repeat (split; [assumption |]). reflexivity.
Qed.

(** ** The errors of a call *)

Lemma establishTrust_stage_error (attestation : pb.Attestation)
    (opts : VerifyOpts) (e : error) :
  snd (establishTrust attestation opts) = Done (inl e) ->
  isStageError e = true.
Proof.
  unfold establishTrust, DecodePublic, Key, ParseCertificate, parseCerts.
  destruct (isEmpty (pb.GetAkCert attestation)).
  - rewrite bind_call, snd_after.
    destruct (ext_DecodePublic _); [intros [= <-]; reflexivity |].
    rewrite bind_call, snd_after.
    destruct (ext_Key _); [intros [= <-]; reflexivity |].
    rewrite snd_bind.
    destruct (snd (validateAKPub _ _)) as [[err |] | msg];
      simpl; intros H; inversion H; reflexivity.
  - rewrite bind_call, snd_after.
    destruct (ext_ParseCertificate _); [intros [= <-]; reflexivity |].
    rewrite bind_call, snd_after.
    destruct (ext_parseCerts _); [intros [= <-]; reflexivity |].
    rewrite snd_bind.
    destruct (snd (validateAKCert _ _)) as [[c' [ms [err |]]] | msg];
      simpl; try (intros H; inversion H; reflexivity).
    unfold assertPublicKey. destruct (x509.PublicKey c'); discriminate.
Qed.

Lemma attempt_stage_error (attestation : pb.Attestation) (opts : VerifyOpts)
    (akPubKey : PublicKey) (quote : tpmpb.Quote) (e : error) :
  attempt attestation opts akPubKey quote = inl e ->
  isStageError e = true \/ e = errSHA1NotAllowed.
Proof.
  intros H. apply attempt_errors in H.
  destruct H as [[err ->] | [[err ->] | [[err ->] | ->]]];
    try (left; reflexivity). now right.
Qed.

Lemma returnedError_after {A : Type} (t : list event)
    (m : Go (A * option error)) :
  returnedError (after t m) = returnedError m.
Proof. reflexivity. Qed.

Lemma verifyQuotes_known_error (attestation : pb.Attestation)
    (opts : VerifyOpts) (akPubKey : PublicKey)
    (machineState : option MachineState) (quotes : list tpmpb.Quote)
    (e : error) :
  forall lastErr : option error,
  (forall e', lastErr = Some e' ->
     isStageError e' = true \/ e' = errSHA1NotAllowed) ->
  returnedError
    (verifyQuotes attestation opts akPubKey machineState quotes lastErr)
  = Some e ->
  isStageError e = true \/ e = errSHA1NotAllowed \/ e = errNoSupportedQuote.
Proof.
  induction quotes as [| q quotes IH]; intros lastErr Hlast.
  - rewrite verifyQuotes_nil. unfold returnedError. cbn.
    destruct lastErr as [e' |]; intros [= <-].
    + destruct (Hlast e' eq_refl); auto.
    + auto.
  - rewrite verifyQuotes_cons, returnedError_after.
    destruct (attempt attestation opts akPubKey q) as [e' | [c s]] eqn:Hq.
    + apply IH. intros e'' [= <-]. now apply attempt_stage_error in Hq.
    + destruct machineState; discriminate.
Qed.

(** X9. Every error that [VerifyAttestation] returns says which stage
    failed: it is an error wrapped behind one of the ten stage texts, or the
    SHA-1 error, or the error for a bundle without a supported quote.  An
    error of a collaborator is never returned as it is. *)
Theorem X9_errors_name_their_stage (attestation : pb.Attestation)
    (opts : VerifyOpts) (e : error) :
  returnedError (VerifyAttestation attestation opts) = Some e ->
  isStageError e = true \/ e = errSHA1NotAllowed \/ e = errNoSupportedQuote.
Proof.
  rewrite VerifyAttestation_phases.
  destruct (validateOpts opts); [intros [= <-]; now left |].
  unfold returnedError. rewrite snd_bind.
  destruct (snd (establishTrust attestation opts))
    as [[e' | [ms k]] | msg] eqn:Hid.
  - cbn. intros [= <-]. left. now apply establishTrust_stage_error in Hid.
  - apply (verifyQuotes_known_error attestation opts k ms _ e None).
    discriminate.
  - discriminate.
Qed.

(** ** The SHA-1 error *)

Lemma attempt_with_SHA1_allowed (attestation : pb.Attestation)
    (opts : VerifyOpts) (akPubKey : PublicKey) (quote : tpmpb.Quote) :
  attempt attestation opts akPubKey quote = inl errSHA1NotAllowed ->
  exists celState state,
    attempt attestation (setAllowSHA1 opts true) akPubKey quote =
    inr (celState, state).
Proof.
  unfold attempt. cbn [Nonce AllowSHA1 setAllowSHA1].
  destruct (ext_VerifyQuote _ _ _); [discriminate |].
  destruct (ext_parsePCClientEventLog _ _) as [err | st]; [discriminate |].
  destruct (ext_parseCanonicalEventLog _ _) as [err | cel]; [discriminate |].
  intros _. now exists cel, st.
Qed.

Lemma verifyQuotes_SHA1_error (attestation : pb.Attestation)
    (opts : VerifyOpts) (akPubKey : PublicKey)
    (machineState : option MachineState) (quotes : list tpmpb.Quote) :
  forall lastErr : option error,
  lastErr <> Some errSHA1NotAllowed ->
  returnedError
    (verifyQuotes attestation opts akPubKey machineState quotes lastErr)
  = Some errSHA1NotAllowed ->
  exists q, In q quotes
            /\ attempt attestation opts akPubKey q = inl errSHA1NotAllowed.
Proof.
  induction quotes as [| q quotes IH]; intros lastErr Hlast.
  - rewrite verifyQuotes_nil. unfold returnedError. cbn.
    destruct lastErr as [e' |]; intros H; [congruence | discriminate].
  - rewrite verifyQuotes_cons, returnedError_after.
    destruct (attempt attestation opts akPubKey q) as [e' | [c s]] eqn:Hq.
    + destruct (attempt_errors _ _ _ _ _ Hq)
        as [[err He] | [[err He] | [[err He] | He]]].
      4:{ intros _. exists q. split; [now left | now rewrite <- He]. }
      all: intros H;
        assert (Hne : Some e' <> Some errSHA1NotAllowed)
          by (rewrite He; discriminate);
        destruct (IH (Some e') Hne H) as [q' [Hin Hq']];
        exists q'; split; [now right | exact Hq'].
    + destruct machineState; discriminate.
Qed.

Lemma first_accepted_exists (attestation : pb.Attestation)
    (opts : VerifyOpts) (akPubKey : PublicKey) (quotes : list tpmpb.Quote)
    (q : tpmpb.Quote) :
  In q quotes ->
  rejected attestation opts akPubKey q = false ->
  exists pre q' post celState state,
    quotes = pre ++ q' :: post
    /\ forallb (rejected attestation opts akPubKey) pre = true
    /\ attempt attestation opts akPubKey q' = inr (celState, state).
Proof.
  induction quotes as [| x quotes IH]; intros Hin Hq; [contradiction |].
  destruct (attempt attestation opts akPubKey x) as [e | [cel st]] eqn:Hx.
  - destruct Hin as [-> | Hin].
    { unfold rejected in Hq. rewrite Hx in Hq. discriminate. }
    destruct (IH Hin Hq) as (pre & q' & post & cel & st & -> & Hpre & Hq').
    exists (x :: pre), q', post, cel, st. split; [reflexivity |].
    split; [| exact Hq']. cbn [forallb]. unfold rejected at 1.
    now rewrite Hx.
  - exists [], x, quotes, cel, st. repeat split. exact Hx.
Qed.

Lemma establishTrust_setAllowSHA1 (attestation : pb.Attestation)
    (opts : VerifyOpts) (allow : bool) :
  establishTrust attestation (setAllowSHA1 opts allow) =
  establishTrust attestation opts.
Proof. reflexivity. Qed.

(** X10. The SHA-1 error is returned only when allowing SHA-1 would have
    let the verification through, as the comment at lines 139-142 says:
    when a call returns the SHA-1 error, the same call with [AllowSHA1] set
    reaches an accepted candidate, so it returns a machine state (or, for a
    certificate checked against trusted keys, stops in the merge into the
    nil state). *)
Theorem X10_SHA1_error_means_SHA1_would_verify (attestation : pb.Attestation)
    (opts : VerifyOpts) :
  returnedError (VerifyAttestation attestation opts) =
    Some errSHA1NotAllowed ->
  (exists ms,
     snd (VerifyAttestation attestation (setAllowSHA1 opts true)) =
     Done (Some ms, None))
  \/ snd (VerifyAttestation attestation (setAllowSHA1 opts true)) =
     Panicked "invalid value: merging into nil message".
Proof.
  rewrite !VerifyAttestation_phases.
  change (validateOpts (setAllowSHA1 opts true)) with (validateOpts opts).
  rewrite establishTrust_setAllowSHA1.
  destruct (validateOpts opts); [discriminate |].
  unfold returnedError. rewrite !snd_bind.
  destruct (snd (establishTrust attestation opts))
    as [[e' | [ms k]] | msg] eqn:Hid.
  - cbn. intros [= ->]. apply establishTrust_stage_error in Hid.
    discriminate.
  - intros H.
    destruct (verifyQuotes_SHA1_error attestation opts k ms _ None
                ltac:(discriminate) H) as [q [Hin Hq]].
    destruct (attempt_with_SHA1_allowed _ _ _ _ Hq) as (cel & st & Hq').
    assert (Hrej : rejected attestation (setAllowSHA1 opts true) k q = false).
    { unfold rejected. now rewrite Hq'. }
    destruct (first_accepted_exists _ _ _ _ _ Hin Hrej)
      as (pre & q' & post & cel' & st' & Hcands & Hpre & Hacc).
    rewrite Hcands.
    rewrite (verifyQuotes_first_accepted _ _ _ _ _ _ _ _ _ None Hpre Hacc).
    rewrite snd_after. destruct ms as [seed |].
    + left. eexists. reflexivity.
    + now right.
  - discriminate.
Qed.

(** ** Trust establishment, path by path *)

Lemma establishTrust_raw (attestation : pb.Attestation) (opts : VerifyOpts)
    (akPubArea : TPMPublic) (akPubKey : PublicKey) :
  isEmpty (pb.GetAkCert attestation) = true ->
  ext_DecodePublic (pb.GetAkPub attestation) = inr akPubArea ->
  ext_Key akPubArea = inr akPubKey ->
  establishTrust attestation opts =
  (DecodePublicCall (pb.GetAkPub attestation) :: KeyCall akPubArea ::
   map (PubKeysEqualCall akPubKey) (comparedKeys akPubKey (TrustedAKs opts)),
   Done (if existsb (ext_PubKeysEqual akPubKey) (TrustedAKs opts)
         then inr (Some emptyMachineState, akPubKey)
         else inl (wrapError "failed to validate AK public key: "
                     (errorString "key not trusted")))).
Proof.
  intros Hcert Hdec Hkey. unfold establishTrust, DecodePublic, Key.
  rewrite Hcert, bind_call, Hdec, bind_call, Hkey.
  rewrite validateAKPub_run, bind_pair.
  destruct (existsb _ _); unfold after, ret; simpl; now rewrite app_nil_r.
Qed.

Lemma establishTrust_roots (attestation : pb.Attestation) (opts : VerifyOpts)
    (akCert : Certificate) (certs : list (option Certificate))
    (ti : list event)
    (i : option pb.GCEInstanceInfo) (e : option error) :
  isEmpty (pb.GetAkCert attestation) = false ->
  ext_ParseCertificate (pb.GetAkCert attestation) = inr akCert ->
  ext_parseCerts (pb.IntermediateCerts attestation) = inr certs ->
  isEmpty (TrustedRootCerts opts) = false ->
  noNilCertificate (setIntermediateCerts opts
                      (IntermediateCerts opts ++ certs)) = true ->
  snd (Verify (withoutSubjectAltName akCert)
         (x509OptsOf (setIntermediateCerts opts
                        (IntermediateCerts opts ++ certs)))) = Done None ->
  getInstanceInfo (x509.Extensions akCert) = (ti, Done (i, e)) ->
  establishTrust attestation opts =
  (ParseCertificateCall (pb.GetAkCert attestation) ::
   parseCertsCall (pb.IntermediateCerts attestation) ::
   VerifyCall (withoutSubjectAltName akCert)
     (x509OptsOf (setIntermediateCerts opts
                    (IntermediateCerts opts ++ certs))) :: ti,
   match e with
   | Some err =>
       Done (inl (wrapError "failed to validate AK certificate: "
                    (Errorf_v "error getting instance info: " err)))
   | None =>
       match x509.PublicKey akCert with
       | Some k => Done (inr (Some (platformMachineState i), k))
       | None =>
           Panicked
             "interface conversion: interface is nil, not crypto.PublicKey"
       end
   end).
Proof.
  intros Hcert Hparse Hints Hroots Hcerts Hverify Hinfo.
  unfold establishTrust, ParseCertificate, parseCerts.
  rewrite Hcert, bind_call, Hparse, bind_call, Hints.
  rewrite validateAKCert_roots by assumption.
  rewrite Verify_call, Hverify, bind_call. cbv iota.
  rewrite Hinfo, bind_pair.
  destruct e as [err |].
  - rewrite !bind_after, bind_ret. unfold after, ret. simpl.
    now rewrite app_nil_r.
  - rewrite !bind_after, bind_ret. cbv iota. unfold assertPublicKey.
    cbn [x509.PublicKey withoutSubjectAltName setUnhandledCriticalExtensions].
    destruct (x509.PublicKey akCert); unfold after, bind, ret, panic; simpl;
      now rewrite app_nil_r.
Qed.

(** X11. The raw-key path end to end: the bundle carries no certificate,
    its public area decodes to a key that equals a trusted key, and a
    candidate is accepted after the candidates preferred to it were
    rejected.  The call decodes the key, compares it with the trusted keys
    up to the match, examines the candidates up to the accepted one, and
    returns the empty machine state merged with that candidate's fragments. *)
Theorem X11_raw_key_verification (attestation : pb.Attestation)
    (opts : VerifyOpts) (akPubArea : TPMPublic) (akPubKey : PublicKey)
    (pre : list tpmpb.Quote) (quote : tpmpb.Quote) (post : list tpmpb.Quote)
    (celState state : option MachineState) :
  validateOpts opts = None ->
  isEmpty (pb.GetAkCert attestation) = true ->
  ext_DecodePublic (pb.GetAkPub attestation) = inr akPubArea ->
  ext_Key akPubArea = inr akPubKey ->
  existsb (ext_PubKeysEqual akPubKey) (TrustedAKs opts) = true ->
  supportedQuotes (pb.GetQuotes attestation) = pre ++ quote :: post ->
  forallb (rejected attestation opts akPubKey) pre = true ->
  attempt attestation opts akPubKey quote = inr (celState, state) ->
  VerifyAttestation attestation opts =
  ((DecodePublicCall (pb.GetAkPub attestation) :: KeyCall akPubArea ::
    map (PubKeysEqualCall akPubKey)
        (comparedKeys akPubKey (TrustedAKs opts)))
   ++ flat_map (attemptCalls attestation opts akPubKey) (pre ++ [quote]),
   Done (Some (mergedState emptyMachineState celState state), None)).
Proof.
  intros Hopts Hcert Hdec Hkey Htrusted Hcands Hpre Hq.
  pose proof (establishTrust_raw _ opts _ _ Hcert Hdec Hkey) as Hid.
  rewrite Htrusted in Hid.
  apply (VerifyAttestation_merges_first_accepted _ _ _ _ _ _ _ _ _ _
           Hopts Hid Hcands Hpre Hq).
Qed.

(** X12. The certificate path with trusted roots end to end: the
    certificate parses and has a key, no certificate handed to the pools is
    a nil pointer, [Verify] accepts the certificate, the instance
    information decodes without error, and a candidate is accepted.  The
    call returns the platform state holding that instance information (nil
    when the extension is absent or the instance is not production) merged
    with the candidate's fragments, and the public area of the bundle is
    never decoded. *)
Theorem X12_certificate_chain_verification (attestation : pb.Attestation)
    (opts : VerifyOpts) (akCert : Certificate)
    (certs : list (option Certificate))
    (akPubKey : PublicKey) (ti : list event)
    (i : option pb.GCEInstanceInfo)
    (pre : list tpmpb.Quote) (quote : tpmpb.Quote) (post : list tpmpb.Quote)
    (celState state : option MachineState) :
  validateOpts opts = None ->
  isEmpty (pb.GetAkCert attestation) = false ->
  ext_ParseCertificate (pb.GetAkCert attestation) = inr akCert ->
  ext_parseCerts (pb.IntermediateCerts attestation) = inr certs ->
  isEmpty (TrustedRootCerts opts) = false ->
  noNilCertificate (setIntermediateCerts opts
                      (IntermediateCerts opts ++ certs)) = true ->
  x509.PublicKey akCert = Some akPubKey ->
  snd (Verify (withoutSubjectAltName akCert)
         (x509OptsOf (setIntermediateCerts opts
                        (IntermediateCerts opts ++ certs)))) = Done None ->
  getInstanceInfo (x509.Extensions akCert) = (ti, Done (i, None)) ->
  supportedQuotes (pb.GetQuotes attestation) = pre ++ quote :: post ->
  forallb (rejected attestation opts akPubKey) pre = true ->
  attempt attestation opts akPubKey quote = inr (celState, state) ->
  VerifyAttestation attestation opts =
  ((ParseCertificateCall (pb.GetAkCert attestation) ::
    parseCertsCall (pb.IntermediateCerts attestation) ::
    VerifyCall (withoutSubjectAltName akCert)
      (x509OptsOf (setIntermediateCerts opts
                     (IntermediateCerts opts ++ certs))) :: ti)
   ++ flat_map (attemptCalls attestation opts akPubKey) (pre ++ [quote]),
   Done (Some (mergedState (platformMachineState i) celState state), None)).
Proof.
  intros Hopts Hcert Hparse Hints Hroots Hcerts Hkey Hverify Hinfo Hcands
    Hpre Hq.
  pose proof (establishTrust_roots _ _ _ _ _ _ _
                Hcert Hparse Hints Hroots Hcerts Hverify Hinfo) as Hid.
  cbv iota in Hid. rewrite Hkey in Hid.
  apply (VerifyAttestation_merges_first_accepted _ _ _ _ _ _ _ _ _ _
           Hopts Hid Hcands Hpre Hq).
Qed.

(** X13. A certificate whose public key did not parse (a nil [PublicKey])
    makes the call panic in the type assertion: at once when the
    certificate is checked against trusted keys, and after the chain and
    the instance information were accepted when it is checked against
    trusted roots (the pools having been built, no certificate among them
    being a nil pointer).  No quote is examined in either case. *)
Theorem X13_certificate_without_key_panics (attestation : pb.Attestation)
    (opts : VerifyOpts) (akCert : Certificate)
    (certs : list (option Certificate)) :
  validateOpts opts = None ->
  isEmpty (pb.GetAkCert attestation) = false ->
  ext_ParseCertificate (pb.GetAkCert attestation) = inr akCert ->
  ext_parseCerts (pb.IntermediateCerts attestation) = inr certs ->
  x509.PublicKey akCert = None ->
  (isEmpty (TrustedRootCerts opts) = true ->
   VerifyAttestation attestation opts =
   ([ParseCertificateCall (pb.GetAkCert attestation);
     parseCertsCall (pb.IntermediateCerts attestation)],
    Panicked "interface conversion: interface is nil, not crypto.PublicKey"))
  /\ (forall ti i,
        isEmpty (TrustedRootCerts opts) = false ->
        noNilCertificate (setIntermediateCerts opts
                            (IntermediateCerts opts ++ certs)) = true ->
        snd (Verify (withoutSubjectAltName akCert)
               (x509OptsOf (setIntermediateCerts opts
                              (IntermediateCerts opts ++ certs))))
        = Done None ->
        getInstanceInfo (x509.Extensions akCert) = (ti, Done (i, None)) ->
        VerifyAttestation attestation opts =
        (ParseCertificateCall (pb.GetAkCert attestation) ::
         parseCertsCall (pb.IntermediateCerts attestation) ::
         VerifyCall (withoutSubjectAltName akCert)
           (x509OptsOf (setIntermediateCerts opts
                          (IntermediateCerts opts ++ certs))) :: ti,
         Panicked
           "interface conversion: interface is nil, not crypto.PublicKey")).
Proof.
  intros Hopts Hcert Hparse Hints Hkey. split.
  - intros Hroots. rewrite VerifyAttestation_phases, Hopts.
    unfold establishTrust, ParseCertificate, parseCerts.
    rewrite Hcert, bind_call, Hparse, bind_call, Hints.
    rewrite validateAKCert_trusted_keys by exact Hroots.
    rewrite Hkey. reflexivity.
  - intros ti i Hroots Hcerts Hverify Hinfo.
    rewrite VerifyAttestation_phases, Hopts.
    rewrite (establishTrust_roots _ _ _ _ _ _ _
               Hcert Hparse Hints Hroots Hcerts Hverify Hinfo).
    cbv iota. rewrite Hkey. reflexivity.
Qed.

(** X14. An error of the instance-information decoder fails the whole
    call although the certificate chained (the pools were built, no
    certificate among them being a nil pointer, and [Verify] returned no
    error): the call returns that error, its text placed behind "error
    getting instance info: ", wrapped as a certificate validation failure,
    and examines no quote.  A decoded value with a negative number is one
    such case. *)
Theorem X14_instance_info_error_is_fatal (attestation : pb.Attestation)
    (opts : VerifyOpts) (akCert : Certificate)
    (certs : list (option Certificate)) :
  validateOpts opts = None ->
  isEmpty (pb.GetAkCert attestation) = false ->
  ext_ParseCertificate (pb.GetAkCert attestation) = inr akCert ->
  ext_parseCerts (pb.IntermediateCerts attestation) = inr certs ->
  isEmpty (TrustedRootCerts opts) = false ->
  noNilCertificate (setIntermediateCerts opts
                      (IntermediateCerts opts ++ certs)) = true ->
  snd (Verify (withoutSubjectAltName akCert)
         (x509OptsOf (setIntermediateCerts opts
                        (IntermediateCerts opts ++ certs)))) = Done None ->
  (forall ti i err,
     getInstanceInfo (x509.Extensions akCert) = (ti, Done (i, Some err)) ->
     VerifyAttestation attestation opts =
     (ParseCertificateCall (pb.GetAkCert attestation) ::
      parseCertsCall (pb.IntermediateCerts attestation) ::
      VerifyCall (withoutSubjectAltName akCert)
        (x509OptsOf (setIntermediateCerts opts
                       (IntermediateCerts opts ++ certs))) :: ti,
      Done (None, Some (wrapError "failed to validate AK certificate: "
              (errorString (String.append "error getting instance info: "
                              (Error err)))))))
  /\ (forall a,
        carriesInstanceInfo (x509.Extensions akCert) a ->
        ProjectNumber (decoded a) < 0 \/ InstanceID (decoded a) < 0
        \/ SecurityVersion (SecurityProperties (decoded a)) < 0 ->
        returnedError (VerifyAttestation attestation opts) =
        Some (wrapError "failed to validate AK certificate: "
                (errorString
                   "error getting instance info: negative integer fields found in GCE Instance Information Extension"))
        /\ existsb examinesCandidate
             (fst (VerifyAttestation attestation opts)) = false).
Proof.
  intros Hopts Hcert Hparse Hints Hroots Hcerts Hverify.
  assert (Hfatal : forall ti i err,
     getInstanceInfo (x509.Extensions akCert) = (ti, Done (i, Some err)) ->
     VerifyAttestation attestation opts =
     (ParseCertificateCall (pb.GetAkCert attestation) ::
      parseCertsCall (pb.IntermediateCerts attestation) ::
      VerifyCall (withoutSubjectAltName akCert)
        (x509OptsOf (setIntermediateCerts opts
                       (IntermediateCerts opts ++ certs))) :: ti,
      Done (None, Some (wrapError "failed to validate AK certificate: "
              (errorString (String.append "error getting instance info: "
                              (Error err))))))).
  { intros ti i err Hinfo.
    apply VerifyAttestation_untrusted; [exact Hopts |].
    now rewrite (establishTrust_roots _ _ _ _ _ _ _
                   Hcert Hparse Hints Hroots Hcerts Hverify Hinfo). }
  split; [exact Hfatal |].
  intros a Ha Hneg.
  rewrite (Hfatal _ _ _ (getInstanceInfo_negative _ _ Ha Hneg)).
  split; reflexivity.
Qed.

(** ** What the chain is verified with *)

Lemma sameBytes_refl (a : bytes) : sameBytes a a = true.
Proof.
  induction a as [| x a IH]; [reflexivity |].
  cbn [sameBytes]. rewrite IH, andb_true_r.
  destruct x; reflexivity.
Qed.

Lemma addToPool_keeps (pool : x509.CertPool PublicKey) (c held : Certificate) :
  In held pool -> In held (addToPool pool c).
Proof.
  intros H. unfold addToPool. destruct (existsb _ pool); [exact H |].
  apply in_or_app. now left.
Qed.

Lemma pooled_range_keeps (certs : list (option Certificate))
    (pool : x509.CertPool PublicKey) (held : Certificate) :
  In held pool ->
  In held (fold_left (fun pool cert =>
                        match cert with
                        | Some c => addToPool pool c
                        | None => pool
                        end) certs pool).
Proof.
  revert pool; induction certs as [| [c |] rest IH]; intros pool H;
    cbn [fold_left].
  - exact H.
  - apply IH. now apply addToPool_keeps.
  - now apply IH.
Qed.

Lemma pooled_range_from (certs : list (option Certificate))
    (pool : x509.CertPool PublicKey) (c : Certificate) :
  In c (fold_left (fun pool cert =>
                     match cert with
                     | Some c => addToPool pool c
                     | None => pool
                     end) certs pool) ->
  In c pool \/ In (Some c) certs.
Proof.
  revert pool; induction certs as [| [x |] rest IH]; intros pool H;
    cbn [fold_left] in H.
  - now left.
  - destruct (IH _ H) as [Hp | Hr]; [| right; now right].
    unfold addToPool in Hp. destruct (existsb _ pool); [now left |].
    apply in_app_or in Hp. destruct Hp as [Hp | [-> | []]];
      [now left | right; now left].
  - destruct (IH _ H) as [Hp | Hr]; [now left | right; now right].
Qed.

Lemma pooled_range_holds (certs : list (option Certificate))
    (pool : x509.CertPool PublicKey) (c : Certificate) :
  In (Some c) certs ->
  exists held,
    In held (fold_left (fun pool cert =>
                          match cert with
                          | Some c => addToPool pool c
                          | None => pool
                          end) certs pool)
    /\ sameBytes (x509.Raw held) (x509.Raw c) = true.
Proof.
  revert pool; induction certs as [| [x |] rest IH]; intros pool H;
    cbn [fold_left].
  - contradiction.
  - destruct H as [[= ->] | H]; [| now apply IH].
    assert (Hheld : exists held,
              In held (addToPool pool c)
              /\ sameBytes (x509.Raw held) (x509.Raw c) = true).
    { unfold addToPool.
      destruct (existsb (fun held => sameBytes (x509.Raw held) (x509.Raw c))
                        pool) eqn:E.
      - apply existsb_exists in E. exact E.
      - exists c. split; [apply in_or_app; right; now left |].
        apply sameBytes_refl. }
    destruct Hheld as [held [Hin Hsame]]. exists held.
    split; [now apply pooled_range_keeps | exact Hsame].
  - destruct H as [H | H]; [discriminate | now apply IH].
Qed.

(** X15. With trusted roots, what [VerifyAttestation] does on a bundle with
    a certificate after the two parse calls depends on the certificates
    handed to [makePool].  When none of the configured roots, the configured
    intermediates and the intermediates of the bundle is a nil pointer, the
    third call is [Verify], on the certificate without the
    subject-alternative-name identifier, with the pool of the trusted roots
    as roots, the pool of the configured intermediates followed by the
    intermediates of the bundle as intermediates, and any extended key usage
    accepted.  When one of them is nil, there is no third call: the call
    panics in [makePool].  A pool holds only certificates of its list, and
    for every certificate of the list it holds one with the same raw
    encoding. *)
Theorem X15_chain_verification_options (attestation : pb.Attestation)
    (opts : VerifyOpts) (akCert : Certificate)
    (certs : list (option Certificate)) :
  validateOpts opts = None ->
  isEmpty (pb.GetAkCert attestation) = false ->
  ext_ParseCertificate (pb.GetAkCert attestation) = inr akCert ->
  ext_parseCerts (pb.IntermediateCerts attestation) = inr certs ->
  isEmpty (TrustedRootCerts opts) = false ->
  (forallb (fun cert => negb (isNil cert)) (TrustedRootCerts opts) = true ->
   forallb (fun cert => negb (isNil cert)) (IntermediateCerts opts ++ certs)
   = true ->
   exists rest,
     fst (VerifyAttestation attestation opts) =
     ParseCertificateCall (pb.GetAkCert attestation) ::
     parseCertsCall (pb.IntermediateCerts attestation) ::
     VerifyCall (withoutSubjectAltName akCert)
       {| x509.Roots := pooled (TrustedRootCerts opts);
          x509.Intermediates := pooled (IntermediateCerts opts ++ certs);
          x509.KeyUsages := [x509.ExtKeyUsageAny] |} :: rest)
  /\ (forallb (fun cert => negb (isNil cert))
              (TrustedRootCerts opts ++ IntermediateCerts opts ++ certs)
      = false ->
      VerifyAttestation attestation opts =
      ([ParseCertificateCall (pb.GetAkCert attestation);
        parseCertsCall (pb.IntermediateCerts attestation)],
       Panicked "adding nil Certificate to CertPool"))
  /\ (forall pool c, In c (pooled pool) -> In (Some c) pool)
  /\ (forall pool c,
        In (Some c) pool ->
        exists held,
          In held (pooled pool)
          /\ sameBytes (x509.Raw held) (x509.Raw c) = true).
Proof.
  intros Hopts Hcert Hparse Hints Hroots. split; [| split; [| split]].
  - intros Hr Hi. rewrite VerifyAttestation_phases, Hopts.
    unfold establishTrust, ParseCertificate, parseCerts.
    rewrite Hcert, bind_call, Hparse, bind_call, Hints.
    rewrite validateAKCert_roots;
      [| exact Hroots
       | unfold noNilCertificate;
         cbn [TrustedRootCerts IntermediateCerts setIntermediateCerts];
         now rewrite Hr, Hi].
    unfold Verify, x509OptsOf.
    cbn [TrustedRootCerts IntermediateCerts setIntermediateCerts].
    rewrite bind_call, !bind_after, !fst_after.
    eexists. reflexivity.
  - intros Hnil. rewrite forallb_app in Hnil.
    rewrite VerifyAttestation_phases, Hopts.
    unfold establishTrust, ParseCertificate, parseCerts.
    rewrite Hcert, bind_call, Hparse, bind_call, Hints.
    rewrite validateAKCert_nil_certificate;
      [reflexivity | exact Hroots | exact Hnil].
  - intros pool c H. unfold pooled in H.
    destruct (pooled_range_from _ _ _ H) as [[] | Hin]. exact Hin.
  - intros pool c H. now apply pooled_range_holds.
Qed.

(** ** What a call does not depend on *)

Lemma verifyQuotes_same_logs (a1 a2 : pb.Attestation) (opts : VerifyOpts)
    (akPubKey : PublicKey) (machineState : option MachineState)
    (quotes : list tpmpb.Quote) :
  pb.GetEventLog a1 = pb.GetEventLog a2 ->
  pb.GetCanonicalEventLog a1 = pb.GetCanonicalEventLog a2 ->
  forall lastErr : option error,
  verifyQuotes a1 opts akPubKey machineState quotes lastErr =
  verifyQuotes a2 opts akPubKey machineState quotes lastErr.
Proof.
  intros Hlog Hcel.
  assert (Ha : forall q, attempt a1 opts akPubKey q = attempt a2 opts akPubKey q).
  { intros q. unfold attempt. now rewrite Hlog, Hcel. }
  assert (Hc : forall q,
            attemptCalls a1 opts akPubKey q = attemptCalls a2 opts akPubKey q).
  { intros q. unfold attemptCalls. now rewrite Hlog, Hcel. }
  induction quotes as [| q quotes IH]; intros lastErr; [reflexivity |].
  rewrite !verifyQuotes_cons, Ha, Hc.
  destruct (attempt a2 opts akPubKey q) as [e | [c s]];
    [now rewrite IH | reflexivity].
Qed.

Lemma VerifyAttestation_same_trust (a1 a2 : pb.Attestation)
    (opts : VerifyOpts) :
  establishTrust a1 opts = establishTrust a2 opts ->
  supportedQuotes (pb.GetQuotes a1) = supportedQuotes (pb.GetQuotes a2) ->
  pb.GetEventLog a1 = pb.GetEventLog a2 ->
  pb.GetCanonicalEventLog a1 = pb.GetCanonicalEventLog a2 ->
  VerifyAttestation a1 opts = VerifyAttestation a2 opts.
Proof.
  intros Hid Hcands Hlog Hcel. rewrite !VerifyAttestation_phases.
  destruct (validateOpts opts); [reflexivity |].
  rewrite Hid, Hcands. apply bind_ext. intros [e | [ms k]]; [reflexivity |].
  now apply verifyQuotes_same_logs.
Qed.

(** X16. A bundle with a certificate is verified without its public area:
    whatever the area holds, the call is the same.  A bundle without a
    certificate is verified without its intermediate certificates: they
    are not even parsed. *)
Theorem X16_unused_identity_fields (attestation : pb.Attestation)
    (opts : VerifyOpts) :
  (isEmpty (pb.GetAkCert attestation) = false ->
   forall akPub,
     VerifyAttestation (setAkPub attestation akPub) opts =
     VerifyAttestation attestation opts)
  /\ (isEmpty (pb.GetAkCert attestation) = true ->
      forall ders,
        VerifyAttestation (setBundleIntermediates attestation ders) opts =
        VerifyAttestation attestation opts).
Proof.
  split; intros Hcert x; apply VerifyAttestation_same_trust;
    try reflexivity;
    unfold establishTrust;
    cbn [pb.GetAkCert pb.GetAkPub pb.IntermediateCerts
         setAkPub setBundleIntermediates];
    now rewrite Hcert.
Qed.

(** X17. When the bundle offers at most one quote per algorithm, the
    order in which it lists its quotes does not matter: the call on the
    bundle with its quotes permuted makes the same calls and returns the
    same result. *)
Theorem X17_quote_order_is_irrelevant (attestation : pb.Attestation)
    (opts : VerifyOpts) (quotes' : list tpmpb.Quote) :
  NoDup (map quoteAlg (pb.GetQuotes attestation)) ->
  Permutation (pb.GetQuotes attestation) quotes' ->
  VerifyAttestation (setQuotes attestation quotes') opts =
  VerifyAttestation attestation opts.
Proof.
  intros Hnd HP. apply VerifyAttestation_same_trust; try reflexivity.
  cbn [pb.GetQuotes setQuotes]. rewrite !supportedQuotes_spec.
  now apply orderCandidates_Permutation.
Qed.

(** ** Who is trusted *)

Lemma isEmpty_true {A : Type} (l : list A) : isEmpty l = true -> l = [].
Proof. destruct l; [reflexivity | discriminate]. Qed.

(** X18. Options that name only trusted roots cannot verify a bundle that
    carries no certificate: whatever the bundle holds, the call returns an
    error, and no quote is examined. *)
Theorem X18_roots_need_a_certificate (attestation : pb.Attestation)
    (opts : VerifyOpts) :
  isEmpty (pb.GetAkCert attestation) = true ->
  isEmpty (TrustedAKs opts) = true ->
  (exists e, snd (VerifyAttestation attestation opts) = Done (None, Some e))
  /\ existsb examinesCandidate (fst (VerifyAttestation attestation opts))
     = false.
Proof.
  intros Hcert Hkeys.
  destruct (validateOpts opts) as [err |] eqn:Hopts.
  { rewrite VerifyAttestation_phases, Hopts. split; [| reflexivity].
    eexists. reflexivity. }
  assert (Hid : exists t e,
            establishTrust attestation opts = (t, Done (inl e))).
  { destruct (ext_DecodePublic (pb.GetAkPub attestation))
      as [e | area] eqn:Hdec.
    { unfold establishTrust, DecodePublic.
      rewrite Hcert, bind_call, Hdec. eexists _, _. reflexivity. }
    destruct (ext_Key area) as [e | key] eqn:Hkey.
    { unfold establishTrust, DecodePublic, Key.
      rewrite Hcert, bind_call, Hdec, bind_call, Hkey.
      eexists _, _. reflexivity. }
    rewrite (establishTrust_raw _ opts _ _ Hcert Hdec Hkey).
    rewrite (isEmpty_true _ Hkeys). eexists _, _. reflexivity. }
  destruct Hid as (t & e & Hid).
  rewrite (VerifyAttestation_untrusted _ _ _ _ Hopts Hid).
  split; [now exists e |].
  pose proof (establishTrust_quiet attestation opts) as H.
  now rewrite Hid in H.
Qed.

Lemma establishTrust_sound (attestation : pb.Attestation) (opts : VerifyOpts)
    (t : list event) (seed : MachineState) (akPubKey : PublicKey) :
  establishTrust attestation opts = (t, Done (inr (Some seed, akPubKey))) ->
  (isEmpty (pb.GetAkCert attestation) = true
   /\ seed = emptyMachineState
   /\ existsb (ext_PubKeysEqual akPubKey) (TrustedAKs opts) = true
   /\ exists akPubArea,
        ext_DecodePublic (pb.GetAkPub attestation) = inr akPubArea
        /\ ext_Key akPubArea = inr akPubKey)
  \/ (isEmpty (pb.GetAkCert attestation) = false
      /\ isEmpty (TrustedRootCerts opts) = false
      /\ exists akCert certs,
           ext_ParseCertificate (pb.GetAkCert attestation) = inr akCert
           /\ ext_parseCerts (pb.IntermediateCerts attestation) = inr certs
           /\ x509.PublicKey akCert = Some akPubKey
           /\ noNilCertificate (setIntermediateCerts opts
                                  (IntermediateCerts opts ++ certs)) = true
           /\ snd (Verify (withoutSubjectAltName akCert)
                     (x509OptsOf (setIntermediateCerts opts
                                    (IntermediateCerts opts ++ certs))))
              = Done None
           /\ exists i,
                snd (getInstanceInfo (x509.Extensions akCert))
                = Done (i, None)
                /\ seed = platformMachineState i).
Proof.
  destruct (isEmpty (pb.GetAkCert attestation)) eqn:Hcert.
  - intros H. left. split; [reflexivity |].
    unfold establishTrust, DecodePublic in H.
    rewrite Hcert, bind_call in H.
    destruct (ext_DecodePublic (pb.GetAkPub attestation))
      as [e | area] eqn:Hdec; [discriminate |].
    unfold Key in H. rewrite bind_call in H.
    destruct (ext_Key area) as [e | key] eqn:Hkey; [discriminate |].
    rewrite validateAKPub_run, bind_pair in H.
    destruct (existsb (ext_PubKeysEqual key) (TrustedAKs opts)) eqn:Htr;
      [| discriminate].
    injection H as _ <- <-. split; [reflexivity |]. split; [exact Htr |].
    exists area. now split.
  - intros H. right. split; [reflexivity |].
    unfold establishTrust, ParseCertificate in H.
    rewrite Hcert, bind_call in H.
    destruct (ext_ParseCertificate (pb.GetAkCert attestation))
      as [e | c] eqn:Hparse; [discriminate |].
    unfold parseCerts in H. rewrite bind_call in H.
    destruct (ext_parseCerts (pb.IntermediateCerts attestation))
      as [e | certs] eqn:Hints; [discriminate |].
    destruct (isEmpty (TrustedRootCerts opts)) eqn:Hroots.
    + exfalso. rewrite validateAKCert_trusted_keys in H by exact Hroots.
      destruct (x509.PublicKey c) as [k |] eqn:Hk; [| discriminate].
      rewrite bind_pair in H. cbn [TrustedAKs setIntermediateCerts] in H.
      destruct (existsb (ext_PubKeysEqual k) (TrustedAKs opts));
        [| discriminate].
      unfold assertPublicKey in H. rewrite Hk, bind_ret in H. discriminate.
    + split; [reflexivity |]. exists c, certs.
      split; [reflexivity |]. split; [reflexivity |].
      destruct (noNilCertificate
                  (setIntermediateCerts opts (IntermediateCerts opts ++ certs)))
        eqn:Hcerts.
      2:{ rewrite validateAKCert_nil_certificate in H by assumption.
          discriminate. }
      rewrite validateAKCert_roots in H by assumption.
      rewrite Verify_call, bind_call in H.
      destruct (snd (Verify (withoutSubjectAltName c) _))
        as [[verr |] | msg] eqn:Hverify; try discriminate.
      cbv iota in H.
      destruct (getInstanceInfo_returns (x509.Extensions c))
        as (ti & i & e & Hinfo & _).
      rewrite Hinfo, bind_pair, !bind_after in H.
      destruct e as [err |]; rewrite bind_ret in H; [discriminate |].
      cbv iota in H.
      unfold assertPublicKey in H.
      cbn [x509.PublicKey withoutSubjectAltName
           setUnhandledCriticalExtensions] in H.
      destruct (x509.PublicKey c) as [k |] eqn:Hk; [| discriminate].
      rewrite bind_ret in H. injection H as _ <- <-.
      split; [reflexivity |]. split; [reflexivity |]. split; [reflexivity |].
      exists i. split; [now rewrite Hinfo | reflexivity].
Qed.

(** X19. A machine state is returned only for a key that is trusted by the
    configured mechanism, and for a quote that verifies under that very
    key.  Either the bundle has no certificate and the key decoded from
    its public area equals a trusted key, or the bundle has a certificate,
    trusted roots are configured, no certificate handed to the pools is a
    nil pointer and [Verify] accepted the certificate, whose key it is.  A
    certificate checked against trusted keys never leads to a machine
    state. *)
Theorem X19_returned_state_has_trusted_key (attestation : pb.Attestation)
    (opts : VerifyOpts) (ms : MachineState) :
  snd (VerifyAttestation attestation opts) = Done (Some ms, None) ->
  exists akPubKey,
    (exists q, In q (pb.GetQuotes attestation)
               /\ ext_VerifyQuote q akPubKey (Nonce opts) = None)
    /\ ((isEmpty (pb.GetAkCert attestation) = true
         /\ existsb (ext_PubKeysEqual akPubKey) (TrustedAKs opts) = true
         /\ exists akPubArea,
              ext_DecodePublic (pb.GetAkPub attestation) = inr akPubArea
              /\ ext_Key akPubArea = inr akPubKey)
        \/ (isEmpty (pb.GetAkCert attestation) = false
            /\ isEmpty (TrustedRootCerts opts) = false
            /\ exists akCert certs,
                 ext_ParseCertificate (pb.GetAkCert attestation) = inr akCert
                 /\ ext_parseCerts (pb.IntermediateCerts attestation)
                    = inr certs
                 /\ x509.PublicKey akCert = Some akPubKey
                 /\ noNilCertificate
                      (setIntermediateCerts opts
                         (IntermediateCerts opts ++ certs)) = true
                 /\ snd (Verify (withoutSubjectAltName akCert)
                           (x509OptsOf (setIntermediateCerts opts
                                          (IntermediateCerts opts ++ certs))))
                    = Done None)).
Proof.
  rewrite VerifyAttestation_phases.
  destruct (validateOpts opts); [discriminate |].
  intros H. rewrite snd_bind in H.
  destruct (establishTrust attestation opts) as [t [[e | [seed k]] | msg]]
    eqn:Hid; cbn [snd] in H; try discriminate.
  destruct (verifyQuotes_outcome attestation opts k seed
              (supportedQuotes (pb.GetQuotes attestation)) None)
    as [[e He] | (pre & q & post & cel & st & Hcands & Hpre & Hq & Hrun)].
  { rewrite He in H. discriminate. }
  rewrite Hrun in H. destruct seed as [seed |]; [| discriminate].
  exists k. split.
  - exists q. split.
    + assert (Hin : In q (supportedQuotes (pb.GetQuotes attestation))).
      { rewrite Hcands. apply in_or_app. right. now left. }
      rewrite supportedQuotes_spec in Hin. apply orderCandidates_In in Hin.
      destruct Hin as [alg [_ Hf]]. now apply find_alg_some in Hf.
    + now apply attempt_accepted in Hq.
  - destruct (establishTrust_sound _ _ _ _ _ Hid)
      as [(Hc & _ & Htr & Harea)
         | (Hc & Hroots & c & certs & Hp & Hi & Hk & Hn & Hv & _)].
    + left. now repeat split.
    + right. split; [exact Hc |]. split; [exact Hroots |].
      exists c, certs. now repeat split.
Qed.

End Further.

(** * The theorems in the concrete world *)

Import Fixture.

(** C3, what the code does.  The bundle carries a certificate for the
    trusted key 5 and four quotes.  In preference order the SHA-512 and the
    SHA-384 candidates are rejected and the SHA-256 candidate passes the
    quote check, both replays and the policy, so it is the first fully
    successful candidate.  Because the seed returned for a certificate
    checked against trusted keys is nil, the call panics in the merge instead
    of returning the merged state.  The same quotes offered with the raw key
    instead of the certificate do return the merged state.  (One defect, the
    nil seed of [validateAKCert], also recorded for C1.) *)
Theorem C3_first_success_panics_for_certificate_with_trusted_keys :
  supportedQuotes offered =
    [forgedSHA512; staleSHA384; goodSHA256; goodSHA1]
  /\ rejected (attestationOf [] certKey5 offered) (trustKey5 false) 5
       forgedSHA512 = true
  /\ rejected (attestationOf [] certKey5 offered) (trustKey5 false) 5
       staleSHA384 = true
  /\ attempt (attestationOf [] certKey5 offered) (trustKey5 false) 5
       goodSHA256 = inr (Some (None, [211]), Some (None, [111]))
  /\ snd (VerifyAttestation (attestationOf [] certKey5 offered)
            (trustKey5 false)) =
     Panicked "invalid value: merging into nil message"
  /\ snd (VerifyAttestation (attestationOf [Byte.x05] [] offered)
            (trustKey5 false)) =
     Done (Some (mergedState emptyMachineState
                   (Some (None, [211])) (Some (None, [111]))), None).
Proof. repeat split. Qed.

(** C5, what the code does.  The bundle carries a certificate for the
    trusted key 5 and one SHA-1 quote that verifies and whose two logs
    replay.  Without the opt-in the candidate is rejected and the call
    returns the SHA-1 error.  With the opt-in the candidate passes the quote
    check, both replays and the policy, but the call does not succeed:
    the seed returned for a certificate checked against trusted keys is nil,
    and the call panics in the merge.  The same quote offered with the raw
    key instead of the certificate does return the merged state, and a SHA-1
    quote whose primary log does not replay yields the replay error with
    either value of the flag.  (One defect, the nil seed of
    [validateAKCert], also recorded for C1 and C3.) *)
Theorem C5_legacy_candidate_panics_for_certificate_with_trusted_keys :
  quoteAlg goodSHA1 = AlgSHA1
  /\ supportedQuotes [goodSHA1] = [goodSHA1]
  /\ attempt (attestationOf [] certKey5 [goodSHA1]) (trustKey5 false) 5
       goodSHA1 = inl errSHA1NotAllowed
  /\ snd (VerifyAttestation (attestationOf [] certKey5 [goodSHA1])
            (trustKey5 false)) =
     Done (None, Some errSHA1NotAllowed)
  /\ attempt (attestationOf [] certKey5 [goodSHA1]) (trustKey5 true) 5
       goodSHA1 = inr (Some (None, [204]), Some (None, [104]))
  /\ snd (VerifyAttestation (attestationOf [] certKey5 [goodSHA1])
            (trustKey5 true)) =
     Panicked "invalid value: merging into nil message"
  /\ snd (VerifyAttestation (attestationOf [Byte.x05] [] [goodSHA1])
            (trustKey5 true)) =
     Done (Some (mergedState emptyMachineState
                   (Some (None, [204])) (Some (None, [104]))), None)
  /\ (forall allow,
        snd (VerifyAttestation (attestationOf [] certKey5 [staleSHA1])
               (trustKey5 allow)) =
        Done (None, Some (wrapError
                "failed to validate the PCClient event log: "
                (errorString "PCR 0 mismatch")))).
Proof. repeat split. Qed.

(** C1 at a concrete bundle: a certificate for the trusted key 5 and one
    SHA-256 quote that verifies and replays. *)
Lemma C1_certificate_with_trusted_keys_panics_witness :
  snd (VerifyAttestation (attestationOf [] certKey5 [goodSHA256])
         (trustKey5 false)) =
  Panicked "invalid value: merging into nil message".
Proof.
  eapply (C1_certificate_with_trusted_keys_panics
            (attestationOf [] certKey5 [goodSHA256]) (trustKey5 false)
            _ _ 5 [] goodSHA256 []);
    reflexivity.
Defined.

Lemma C2_options_exactly_one_witness :
  VerifyAttestation (attestationOf [Byte.x05] [] offered) trustNothing =
    ([], Done (None, Some (wrapError "bad options: " (errorString
       "no trust mechanism provided, either use TrustedAKs or TrustedRootCerts"))))
  /\ VerifyAttestation (attestationOf [Byte.x05] [] offered) trustBoth =
     ([], Done (None, Some (wrapError "bad options: " (errorString
        "multiple trust mechanisms provided, only use one of TrustedAKs or TrustedRootCerts"))))
  /\ failsOnOptions
       (VerifyAttestation (attestationOf [Byte.x05] [] offered)
          (trustKey5 false)) = false
  /\ failsOnOptions
       (VerifyAttestation (attestationOf [] certKey5 offered)
          (trustRoot false)) = false.
Proof.
  split; [| split; [| split]].
  - destruct (C2_options_exactly_one
                (attestationOf [Byte.x05] [] offered) trustNothing)
      as (_ & _ & H & _).
    apply H; reflexivity.
  - destruct (C2_options_exactly_one
                (attestationOf [Byte.x05] [] offered) trustBoth)
      as (_ & _ & _ & H).
    apply H; reflexivity.
  - destruct (C2_options_exactly_one
                (attestationOf [Byte.x05] [] offered) (trustKey5 false))
      as (_ & H & _).
    exact H.
  - destruct (C2_options_exactly_one
                (attestationOf [] certKey5 offered) (trustRoot false))
      as (_ & H & _).
    exact H.
Defined.

Lemma C4_last_recorded_error_witness :
  returnedError
    (VerifyAttestation
       (attestationOf [Byte.x05] [] [goodSHA1; staleSHA384; forgedSHA512])
       (trustKey5 false)) = Some errSHA1NotAllowed
  /\ VerifyAttestation (attestationOf [Byte.x05] [] [quoteSM3])
       (trustKey5 false) =
     (rawKey5Calls, Done (None, Some errNoSupportedQuote)).
Proof.
  split.
  - destruct (C4_last_recorded_error
                (attestationOf [Byte.x05] [] [goodSHA1; staleSHA384; forgedSHA512])
                (trustKey5 false)
                rawKey5Calls
                (Some emptyMachineState) 5 ltac:(reflexivity) ltac:(reflexivity) ltac:(reflexivity))
      as (H & _).
    rewrite H. reflexivity.
  - destruct (C4_last_recorded_error
                (attestationOf [Byte.x05] [] [quoteSM3])
                (trustKey5 false)
                rawKey5Calls
                (Some emptyMachineState) 5 ltac:(reflexivity) ltac:(reflexivity) ltac:(reflexivity))
      as (_ & _ & H & _).
    apply H. reflexivity.
Defined.

(** The policy lemma at the raw key 5. *)
Lemma verifyQuotes_legacy_policy_example :
  verifyQuotes (attestationOf [Byte.x05] [] [goodSHA1]) (trustKey5 false) 5
    (Some emptyMachineState) [goodSHA1] None =
    ([VerifyQuoteCall goodSHA1 5 nonce;
      parsePCClientEventLogCall eventLog (tpmpb.GetPcrs goodSHA1);
      parseCanonicalEventLogCall celLog (tpmpb.GetPcrs goodSHA1)],
     Done (None, Some errSHA1NotAllowed))
  /\ verifyQuotes (attestationOf [Byte.x05] [] [goodSHA1]) (trustKey5 true) 5
       (Some emptyMachineState) [goodSHA1] None =
     ([VerifyQuoteCall goodSHA1 5 nonce;
       parsePCClientEventLogCall eventLog (tpmpb.GetPcrs goodSHA1);
       parseCanonicalEventLogCall celLog (tpmpb.GetPcrs goodSHA1)],
      Done (Some (None, [204; 104]), None))
  /\ verifyQuotes (attestationOf [Byte.x05] [] [staleSHA1]) (trustKey5 false) 5
       (Some emptyMachineState) [staleSHA1] None =
     ([VerifyQuoteCall staleSHA1 5 nonce;
       parsePCClientEventLogCall eventLog (tpmpb.GetPcrs staleSHA1)],
      Done (None, Some (wrapError "failed to validate the PCClient event log: "
                          (errorString "PCR 0 mismatch")))).
Proof.
  split; [| split].
  - destruct (verifyQuotes_legacy_policy (ext := world)
                (attestationOf [Byte.x05] [] [goodSHA1]) (trustKey5 false) 5
                (Some emptyMachineState) goodSHA1 [] None ltac:(reflexivity))
      as (H & _).
    destruct (H (Some (None, [104])) (Some (None, [204]))
                ltac:(reflexivity) ltac:(reflexivity) ltac:(reflexivity)) as (_ & Hoff & _).
    destruct (Hoff ltac:(reflexivity)) as (_ & Hrun). exact Hrun.
  - destruct (verifyQuotes_legacy_policy (ext := world)
                (attestationOf [Byte.x05] [] [goodSHA1]) (trustKey5 true) 5
                (Some emptyMachineState) goodSHA1 [] None ltac:(reflexivity))
      as (H & _).
    destruct (H (Some (None, [104])) (Some (None, [204]))
                ltac:(reflexivity) ltac:(reflexivity) ltac:(reflexivity)) as (_ & _ & Hon).
    destruct (Hon ltac:(reflexivity)) as (_ & _ & Hrun & _).
    exact (Hrun emptyMachineState ltac:(reflexivity)).
  - destruct (verifyQuotes_legacy_policy (ext := world)
                (attestationOf [Byte.x05] [] [staleSHA1]) (trustKey5 false) 5
                (Some emptyMachineState) staleSHA1 [] None ltac:(reflexivity))
      as (_ & H & _).
    exact (H (errorString "PCR 0 mismatch") ltac:(reflexivity)).
Qed.

Lemma C6_supportedQuotes_preference_order_witness :
  NoDup pcrHashAlgs
  /\ supportedQuotes offered =
     [forgedSHA512; staleSHA384; goodSHA256; goodSHA1]
  /\ map quoteAlg (supportedQuotes (rev offered)) =
     map quoteAlg (supportedQuotes offered)
  /\ supportedQuotes (rev offered) = supportedQuotes offered.
Proof.
  assert (Hpref : NoDup pcrHashAlgs).
  { repeat constructor; simpl; intuition discriminate. }
  assert (Hquotes : NoDup (map quoteAlg offered)).
  { repeat constructor; simpl; intuition discriminate. }
  split; [exact Hpref |].
  destruct (C6_supportedQuotes_preference_order offered Hpref)
    as (H1 & _ & _ & _ & _ & _ & H7 & H8).
  split; [exact H1 |]. split.
  - apply H7, Permutation_rev.
  - apply H8; [exact Hquotes | apply Permutation_rev].
Defined.

Lemma C7_getInstanceInfo_gates_witness :
  getInstanceInfo plainExtensions = ([], Done (None, None))
  /\ getInstanceInfo (instanceExtensions Byte.x03) =
     ([UnmarshalCall [Byte.x03]], Done (None, Some errNegativeFields))
  /\ getInstanceInfo (instanceExtensions Byte.x05) =
     ([UnmarshalCall [Byte.x05]], Done (None, Some errNegativeFields))
  /\ getInstanceInfo (instanceExtensions Byte.x04) =
     ([UnmarshalCall [Byte.x04]], Done (None, None)).
Proof.
  split; [| split; [| split]].
  - destruct (C7_getInstanceInfo_gates plainExtensions) as (H & _).
    apply H. intros e [<- | []]. discriminate.
  - destruct (C7_getInstanceInfo_gates (instanceExtensions Byte.x03))
      as (_ & H & _).
    apply (H (derInfo (-1) None)).
    + repeat split.
    + left. reflexivity.
  - destruct (C7_getInstanceInfo_gates (instanceExtensions Byte.x05))
      as (_ & H & _).
    apply (H (derInfo 42 (Some {| asn1SecurityVersion := Some (-3);
                                  asn1IsProduction := Some true |}))).
    + repeat split.
    + right; right. reflexivity.
  - destruct (C7_getInstanceInfo_gates (instanceExtensions Byte.x04))
      as (_ & _ & H).
    apply (H (derInfo 42 (Some {| asn1SecurityVersion := Some 1;
                                  asn1IsProduction := Some false |}))).
    + repeat split.
    + simpl. lia.
    + simpl. lia.
    + simpl. lia.
    + reflexivity.
Defined.

Lemma C8_only_subject_alt_name_is_dropped_witness :
  validateAKCert (certWith [oidExtensionSubjectAltName]) (trustRoot false) =
    ([VerifyCall (certWith []) (x509OptsOf (trustRoot false))],
     Done (certWith [], (Some (platformMachineState None), None)))
  /\ validateAKCert
       (certWith [oidExtensionSubjectAltName; oidPolicyConstraints])
       (trustRoot false) =
     ([VerifyCall (certWith [oidPolicyConstraints])
         (x509OptsOf (trustRoot false))],
      Done (certWith [oidPolicyConstraints],
            (None, Some (errorString
               "certificate did not chain to a trusted root: x509: unhandled critical extension"))))
  /\ (exists err,
        snd (validateAKCert
               (unparsedWith [oidExtensionSubjectAltName; oidPolicyConstraints])
               (trustRoot false)) =
        Done (unparsedWith [oidPolicyConstraints],
              (None, Some (Errorf_v
                 "certificate did not chain to a trusted root: " err))))
  /\ validateAKCert (certWith [oidExtensionSubjectAltName]) trustNilRoot =
     ([], Panicked "adding nil Certificate to CertPool").
Proof.
  split; [| split; [| split]].
  - destruct (C8_only_subject_alt_name_is_dropped
                (certWith [oidExtensionSubjectAltName]) (trustRoot false)
                ltac:(reflexivity)) as (_ & _ & _ & H & _).
    assert (Honly : forall e,
              In e (x509.UnhandledCriticalExtensions
                      (certWith [oidExtensionSubjectAltName])) ->
              e = oidExtensionSubjectAltName).
    { intros e [<- | []]. reflexivity. }
    destruct (H ltac:(reflexivity) Honly) as (_ & _ & Hpass).
    exact (Hpass ltac:(reflexivity) ltac:(reflexivity)).
  - destruct (C8_only_subject_alt_name_is_dropped
                (certWith [oidExtensionSubjectAltName; oidPolicyConstraints])
                (trustRoot false) ltac:(reflexivity))
      as (_ & _ & _ & _ & H & _).
    destruct (H ltac:(reflexivity)) as (err & _ & Herr & Hrun).
    + exists oidPolicyConstraints. split.
      * right; left; reflexivity.
      * discriminate.
    + rewrite (Herr ltac:(reflexivity)) in Hrun. exact Hrun.
  - destruct (C8_only_subject_alt_name_is_dropped
                (unparsedWith
                   [oidExtensionSubjectAltName; oidPolicyConstraints])
                (trustRoot false) ltac:(reflexivity))
      as (_ & _ & _ & _ & H & _).
    destruct (H ltac:(reflexivity)) as (err & _ & _ & Hrun).
    + exists oidPolicyConstraints. split.
      * right; left; reflexivity.
      * discriminate.
    + exists err. now rewrite Hrun.
  - destruct (C8_only_subject_alt_name_is_dropped
                (certWith [oidExtensionSubjectAltName]) trustNilRoot
                ltac:(reflexivity)) as (_ & _ & _ & _ & _ & H).
    exact (H ltac:(reflexivity)).
Defined.


Lemma C10_absent_security_properties_witness :
  getInstanceInfo (instanceExtensions Byte.x02) =
    ([UnmarshalCall [Byte.x02]], Done (None, None))
  /\ exists err,
       getInstanceInfo (instanceExtensions Byte.x03) =
       ([UnmarshalCall [Byte.x03]], Done (None, err)).
Proof.
  split.
  - destruct (C10_absent_security_properties
                (instanceExtensions Byte.x02) (derInfo 42 None))
      as (_ & _ & H).
    + repeat split.
    + reflexivity.
    + apply H. repeat split; simpl; lia.
  - destruct (C10_absent_security_properties
                (instanceExtensions Byte.x03) (derInfo (-1) None))
      as (_ & H & _).
    + repeat split.
    + reflexivity.
    + exact H.
Defined.

(** ** The further properties in the concrete world *)

Lemma X1_validateAKPub_first_match_witness :
  validateAKPub 5 (trustKey5 false) =
    ([PubKeysEqualCall 5 9; PubKeysEqualCall 5 5], Done None)
  /\ comparedKeys 6 (TrustedAKs (trustKey5 false)) = [9; 5]
  /\ exists t, In t (TrustedAKs (trustKey5 false))
               /\ ext_PubKeysEqual 5 t = true.
Proof.
  destruct (X1_validateAKPub_first_match (ext := world) 5 (trustKey5 false))
    as (Hrun & Hiff & _).
  destruct (X1_validateAKPub_first_match (ext := world) 6 (trustKey5 false))
    as (_ & _ & Hall).
  split; [exact Hrun |]. split.
  - apply Hall. reflexivity.
  - apply Hiff. reflexivity.
Defined.

Lemma X3_getInstanceInfo_production_witness :
  getInstanceInfo (instanceExtensions Byte.x01) =
  ([UnmarshalCall [Byte.x01]], Done (Some productionInfo, None)).
Proof.
  destruct (X3_getInstanceInfo_production (ext := world)
              (instanceExtensions Byte.x01) (derInfo 42 (Some production)))
    as (H & _).
  - repeat split; simpl; lia.
  - reflexivity.
  - exact H.
Defined.

Lemma X4_first_instance_extension_wins_witness :
  getInstanceInfo shadowedExtensions = ([], Done (None, None)).
Proof.
  destruct (X4_first_instance_extension_wins (ext := world)
              [basicConstraints]
              {| pkix.Id := cloudComputeInstanceIdentifierOID;
                 pkix.Critical := false; pkix.Value := [] |}
              [{| pkix.Id := cloudComputeInstanceIdentifierOID;
                  pkix.Critical := false; pkix.Value := [Byte.x01] |}])
    as (_ & _ & H).
  - intros x [<- | []]. discriminate.
  - reflexivity.
  - apply H. reflexivity.
Defined.

Lemma X5_getInstanceInfo_outcomes_witness :
  exists a,
    wellFormedInstanceInfo (instanceExtensions Byte.x01) a
    /\ IsProduction (SecurityProperties (decoded a)) = true.
Proof.
  destruct (X5_getInstanceInfo_outcomes (ext := world)
              (instanceExtensions Byte.x01))
    as (t & i & e & Hrun & _ & H).
  assert (Hi : i = Some productionInfo).
  { change (getInstanceInfo (instanceExtensions Byte.x01))
      with ([UnmarshalCall [Byte.x01]],
            Done (Some productionInfo, @None error)) in Hrun.
    now injection Hrun as _ <- _. }
  destruct (H productionInfo Hi) as (_ & _ & _ & Ha). exact Ha.
Defined.

Lemma X6_validateAKCert_one_mechanism_witness :
  forallb isKeyComparison
    (fst (validateAKCert (certWith []) (trustKey5 false))) = true
  /\ existsb isKeyComparison
       (fst (validateAKCert (certWith []) (trustRoot false))) = false.
Proof.
  split.
  - destruct (X6_validateAKCert_one_mechanism (ext := world)
                (certWith []) (trustKey5 false)) as (H & _).
    apply H. reflexivity.
  - destruct (X6_validateAKCert_one_mechanism (ext := world)
                (certWith []) (trustRoot false)) as (_ & H).
    apply H. reflexivity.
Defined.

Lemma X8_returned_state_is_verified_witness :
  validateOpts (trustKey5 false) = None
  /\ exists q, In q offered /\ ext_VerifyQuote q 5 nonce = None.
Proof.
  destruct (X8_returned_state_is_verified (ext := world)
              (attestationOf [Byte.x05] [] offered) (trustKey5 false)
              (None, [211; 111]) ltac:(reflexivity))
    as (Hopts & t & seed & k & pre & q & post & cel & st
        & Hid & _ & _ & Hin & Hq & _).
  split; [exact Hopts |]. exists q. split; [exact Hin |].
  change (establishTrust (attestationOf [Byte.x05] [] offered)
            (trustKey5 false))
    with (rawKey5Calls, Done (@inr error _ (Some emptyMachineState, 5)))
    in Hid.
  injection Hid as _ _ <-. exact Hq.
Defined.

Lemma X9_errors_name_their_stage_witness :
  isStageError (wrapError "failed to decode AK public area: "
                  (errorString "decoding TPMT_PUBLIC: EOF")) = true
  \/ wrapError "failed to decode AK public area: "
       (errorString "decoding TPMT_PUBLIC: EOF") = errSHA1NotAllowed
  \/ wrapError "failed to decode AK public area: "
       (errorString "decoding TPMT_PUBLIC: EOF") = errNoSupportedQuote.
Proof.
  apply (X9_errors_name_their_stage (ext := world)
           (attestationOf [] [] offered) (trustKey5 false)).
  reflexivity.
Defined.

Lemma X10_SHA1_error_means_SHA1_would_verify_witness :
  (exists ms,
     snd (VerifyAttestation (attestationOf [Byte.x05] [] [goodSHA1; staleSHA384])
            (setAllowSHA1 (trustKey5 false) true)) = Done (Some ms, None))
  \/ snd (VerifyAttestation (attestationOf [Byte.x05] [] [goodSHA1; staleSHA384])
            (setAllowSHA1 (trustKey5 false) true)) =
     Panicked "invalid value: merging into nil message".
Proof.
  apply (X10_SHA1_error_means_SHA1_would_verify (ext := world)).
  reflexivity.
Defined.

Lemma X11_raw_key_verification_witness :
  snd (VerifyAttestation (attestationOf [Byte.x05] [] offered)
         (trustKey5 false)) =
  Done (Some (None, [211; 111]), None).
Proof.
  rewrite (X11_raw_key_verification (ext := world)
             (attestationOf [Byte.x05] [] offered) (trustKey5 false)
             5 5 [forgedSHA512; staleSHA384] goodSHA256 [goodSHA1]
             (Some (None, [211])) (Some (None, [111]))); reflexivity.
Defined.

Lemma X12_certificate_chain_verification_witness :
  snd (VerifyAttestation (attestationOf [] certProduction offered)
         (trustRoot false)) =
  Done (Some (Some (Some productionInfo), [211; 111]), None).
Proof.
  erewrite (X12_certificate_chain_verification (ext := world)
              (attestationOf [] certProduction offered) (trustRoot false)
              _ [] 5 [UnmarshalCall [Byte.x01]] (Some productionInfo)
              [forgedSHA512; staleSHA384] goodSHA256 [goodSHA1]
              (Some (None, [211])) (Some (None, [111]))); reflexivity.
Defined.

Lemma X13_certificate_without_key_panics_witness :
  VerifyAttestation (attestationOf [] certNoKey offered) (trustKey5 false) =
    ([ParseCertificateCall certNoKey; parseCertsCall []],
     Panicked "interface conversion: interface is nil, not crypto.PublicKey")
  /\ snd (VerifyAttestation (attestationOf [] certNoKey offered)
            (trustRoot false)) =
     Panicked "interface conversion: interface is nil, not crypto.PublicKey".
Proof.
  split.
  - edestruct (X13_certificate_without_key_panics (ext := world)
                 (attestationOf [] certNoKey offered) (trustKey5 false))
      as (H & _); [reflexivity .. |].
    apply H. reflexivity.
  - edestruct (X13_certificate_without_key_panics (ext := world)
                 (attestationOf [] certNoKey offered) (trustRoot false))
      as (_ & H); [reflexivity .. |].
    erewrite H; reflexivity.
Defined.

Lemma X14_instance_info_error_is_fatal_witness :
  returnedError
    (VerifyAttestation
       (attestationOf [] [Byte.x05; Byte.x00; Byte.x03] offered)
       (trustRoot false)) =
    Some (wrapError "failed to validate AK certificate: "
            (errorString
               "error getting instance info: negative integer fields found in GCE Instance Information Extension"))
  /\ returnedError
       (VerifyAttestation (attestationOf [] certBadExtension offered)
          (trustRoot false)) =
     Some (wrapError "failed to validate AK certificate: "
             (errorString
                "error getting instance info: failed to parse GCE Instance Information Extension: asn1: syntax error: sequence truncated")).
Proof.
  split.
  - edestruct (X14_instance_info_error_is_fatal (ext := world)
                 (attestationOf [] [Byte.x05; Byte.x00; Byte.x03] offered)
                 (trustRoot false))
      as (_ & H); [reflexivity .. |].
    apply (H (derInfo (-1) None)).
    + repeat split.
    + left. reflexivity.
  - edestruct (X14_instance_info_error_is_fatal (ext := world)
                 (attestationOf [] certBadExtension offered)
                 (trustRoot false))
      as (H & _); [reflexivity .. |].
    rewrite (H [UnmarshalCall [Byte.x09]] None
               (wrapError
                  "failed to parse GCE Instance Information Extension: "
                  (errorString "asn1: syntax error: sequence truncated"))
               ltac:(reflexivity)).
    reflexivity.
Defined.

Lemma X15_chain_verification_options_witness :
  (exists c o rest,
     fst (VerifyAttestation (attestationOf [] certProduction offered)
            (trustRoot false)) =
     ParseCertificateCall certProduction :: parseCertsCall [] ::
     VerifyCall c o :: rest
     /\ x509.UnhandledCriticalExtensions c = []
     /\ x509.Roots o = [rootCert]
     /\ x509.Intermediates o = []
     /\ x509.KeyUsages o = [x509.ExtKeyUsageAny])
  /\ VerifyAttestation (attestationOf [] certProduction offered)
       trustNilRoot =
     ([ParseCertificateCall certProduction; parseCertsCall []],
      Panicked "adding nil Certificate to CertPool").
Proof.
  split.
  - edestruct (X15_chain_verification_options (ext := world)
                 (attestationOf [] certProduction offered) (trustRoot false))
      as [H _]; [reflexivity .. |].
    destruct (H ltac:(reflexivity) ltac:(reflexivity)) as [rest Hrun].
    eexists _, _, rest. split; [exact Hrun |]. repeat split.
  - edestruct (X15_chain_verification_options (ext := world)
                 (attestationOf [] certProduction offered) trustNilRoot)
      as (_ & H & _); [reflexivity .. |].
    exact (H ltac:(reflexivity)).
Defined.

Lemma X16_unused_identity_fields_witness :
  VerifyAttestation
    (setAkPub (attestationOf [] certProduction offered) [Byte.x09])
    (trustRoot false) =
  VerifyAttestation (attestationOf [] certProduction offered) (trustRoot false)
  /\ VerifyAttestation
       (setBundleIntermediates (attestationOf [Byte.x05] [] offered)
          [[Byte.x01]])
       (trustKey5 false) =
     VerifyAttestation (attestationOf [Byte.x05] [] offered) (trustKey5 false).
Proof.
  split.
  - destruct (X16_unused_identity_fields (ext := world)
                (attestationOf [] certProduction offered) (trustRoot false))
      as (H & _).
    apply H. reflexivity.
  - destruct (X16_unused_identity_fields (ext := world)
                (attestationOf [Byte.x05] [] offered) (trustKey5 false))
      as (_ & H).
    apply H. reflexivity.
Defined.

Lemma X17_quote_order_is_irrelevant_witness :
  VerifyAttestation
    (setQuotes (attestationOf [Byte.x05] [] offered) (rev offered))
    (trustKey5 false) =
  VerifyAttestation (attestationOf [Byte.x05] [] offered) (trustKey5 false).
Proof.
  apply (X17_quote_order_is_irrelevant (ext := world)).
  - repeat constructor; simpl; intuition discriminate.
  - apply Permutation_rev.
Defined.

Lemma X18_roots_need_a_certificate_witness :
  (exists e,
     snd (VerifyAttestation (attestationOf [Byte.x05] [] offered)
            (trustRoot false)) = Done (None, Some e))
  /\ existsb examinesCandidate
       (fst (VerifyAttestation (attestationOf [Byte.x05] [] offered)
               (trustRoot false))) = false.
Proof.
  apply (X18_roots_need_a_certificate (ext := world)); reflexivity.
Defined.

Lemma X19_returned_state_has_trusted_key_witness :
  exists akPubKey,
    (exists q, In q offered /\ ext_VerifyQuote q akPubKey nonce = None)
    /\ existsb (ext_PubKeysEqual akPubKey) (TrustedAKs (trustKey5 false))
       = true.
Proof.
  destruct (X19_returned_state_has_trusted_key (ext := world)
              (attestationOf [Byte.x05] [] offered) (trustKey5 false)
              (None, [211; 111]) ltac:(reflexivity))
    as (k & Hq & [(_ & Htr & _) | (Hc & _)]).
  - exists k. split; [exact Hq | exact Htr].
  - discriminate Hc.
Defined.

Lemma X2_supportedQuotes_idempotent_witness :
  supportedQuotes (supportedQuotes offered) =
    [forgedSHA512; staleSHA384; goodSHA256; goodSHA1]
  /\ In goodSHA1 offered.
Proof.
  destruct (X2_supportedQuotes_idempotent (ext := world) offered)
    as (Hidem & _ & Hincl & _).
  split; [exact Hidem |].
  apply Hincl. right; right; right; left. reflexivity.
Defined.

Lemma X7_VerifyAttestation_outcomes_witness :
  (exists ms,
     snd (VerifyAttestation (attestationOf [] certKey5 offered)
            trustNilRoot) = Done (Some ms, None))
  \/ (exists e,
        snd (VerifyAttestation (attestationOf [] certKey5 offered)
               trustNilRoot) = Done (None, Some e))
  \/ snd (VerifyAttestation (attestationOf [] certKey5 offered)
            trustNilRoot) =
     Panicked "invalid value: merging into nil message"
  \/ snd (VerifyAttestation (attestationOf [] certKey5 offered)
            trustNilRoot) =
     Panicked "interface conversion: interface is nil, not crypto.PublicKey"
  \/ snd (VerifyAttestation (attestationOf [] certKey5 offered)
            trustNilRoot) =
     Panicked "adding nil Certificate to CertPool".
Proof.
  exact (X7_VerifyAttestation_outcomes (ext := world)
           (attestationOf [] certKey5 offered) trustNilRoot).
Defined.
